(** * MAVLink FTP server (libraries/GCS_MAVLink/GCS_FTP.cpp)

    A shallow embedding of the FTP worker of GCS_MAVLINK: the request and
    reply records, the session state, the name checks, the error replies,
    the opcode dispatcher, the burst-read loop, the directory listing and
    the reply pump, followed by the properties proved about them.

    Conventions.  Unsigned C integers are values of [Z] with the
    wrap-around written out where the source computes in a fixed width.
    Buffers are lists of bytes ([Z] in 0..255); a C string is the bytes
    before the first NUL.  The filesystem (AP::FS()) and the host's errno
    are an interface, [Filesystem]; every call threads the filesystem
    state.  Outgoing messages, banner emissions and the descriptors the
    filesystem hands out and takes back are recorded, newest first, in the
    trace of the [World]. *)

From Stdlib Require Import ZArith List Bool Lia.
Import ListNotations.
Open Scope Z_scope.

(** ** Data model *)

(** Modelled from the spec: the declaration of [enum class FTP_OP] lives in
    GCS.h, which is not among the sources.  The constructors are the
    enumerators GCS_FTP.cpp names; [OpNone] is [FTP_OP::None] (the
    enumerator with value 0) and [OpUnknown] stands for any other byte. *)
Inductive FTP_OP : Type :=
| OpNone | TerminateSession | ResetSessions | ListDirectory | OpenFileRO
| ReadFile | CreateFile | WriteFile | RemoveFile | CreateDirectory
| RemoveDirectory | OpenFileWO | TruncateFile | BurstReadFile | Rename
| CalcFileCRC32 | Ack | Nack
| OpUnknown (code : Z).

(** Modelled from the spec: [enum class FTP_ERROR] is declared in GCS.h;
    the wire values are those of section 6 of the specification. *)
Inductive FTP_ERROR : Type :=
| ErrNone | Fail | FailErrno | InvalidDataSize | InvalidSession
| NoSessionsAvailable | EndOfFile | UnknownCommand | FileExists
| FileNotFound.

Definition error_code (e : FTP_ERROR) : Z :=
  match e with
  | ErrNone => 0 | Fail => 1 | FailErrno => 2 | InvalidDataSize => 3
  | InvalidSession => 4 | NoSessionsAvailable => 5 | EndOfFile => 6
  | UnknownCommand => 7 | FileExists => 8 | FileNotFound => 9
  end.

Inductive FTP_FILE_MODE : Type := Read | Write.

(** Modelled from the spec: [struct pending_ftp] is declared in GCS.h.
    Widths follow section 3: [seq_number] is 16 bits, [offset] 32 bits,
    [session], [size], [sysid], [compid] are bytes and [data] has 239
    bytes. *)
Record pending_ftp : Type := mk_pending_ftp {
  offset : Z;
  chan : Z;
  seq_number : Z;
  opcode : FTP_OP;
  req_opcode : FTP_OP;
  burst_complete : bool;
  size : Z;
  session : Z;
  sysid : Z;
  compid : Z;
  data : list Z
}.

Definition DATA_LEN : nat := 239.

(** Modelled from the spec: [struct ftp_state] is declared in GCS.h.
    [fd] is -1 when no file is open and [current_session] is -1 when no
    session owns the file; a session id is a byte, so -1 is none of them. *)
Record ftp_state : Type := mk_ftp_state {
  fd : Z;
  mode : FTP_FILE_MODE;
  current_session : Z;
  last_send_ms : Z;
  need_banner_send_mask : Z
}.

Definition FTP_SESSION_TIMEOUT : Z := 3000.

(** Field updates. *)
Definition with_offset (v : Z) (r : pending_ftp) : pending_ftp :=
  mk_pending_ftp v (chan r) (seq_number r) (opcode r) (req_opcode r)
    (burst_complete r) (size r) (session r) (sysid r) (compid r) (data r).
Definition with_seq_number (v : Z) (r : pending_ftp) : pending_ftp :=
  mk_pending_ftp (offset r) (chan r) v (opcode r) (req_opcode r)
    (burst_complete r) (size r) (session r) (sysid r) (compid r) (data r).
Definition with_opcode (v : FTP_OP) (r : pending_ftp) : pending_ftp :=
  mk_pending_ftp (offset r) (chan r) (seq_number r) v (req_opcode r)
    (burst_complete r) (size r) (session r) (sysid r) (compid r) (data r).
Definition with_burst_complete (v : bool) (r : pending_ftp) : pending_ftp :=
  mk_pending_ftp (offset r) (chan r) (seq_number r) (opcode r) (req_opcode r)
    v (size r) (session r) (sysid r) (compid r) (data r).
Definition with_size (v : Z) (r : pending_ftp) : pending_ftp :=
  mk_pending_ftp (offset r) (chan r) (seq_number r) (opcode r) (req_opcode r)
    (burst_complete r) v (session r) (sysid r) (compid r) (data r).
Definition with_data (v : list Z) (r : pending_ftp) : pending_ftp :=
  mk_pending_ftp (offset r) (chan r) (seq_number r) (opcode r) (req_opcode r)
    (burst_complete r) (size r) (session r) (sysid r) (compid r) v.

Definition with_fd (v : Z) (s : ftp_state) : ftp_state :=
  mk_ftp_state v (mode s) (current_session s) (last_send_ms s)
    (need_banner_send_mask s).
Definition with_mode (v : FTP_FILE_MODE) (s : ftp_state) : ftp_state :=
  mk_ftp_state (fd s) v (current_session s) (last_send_ms s)
    (need_banner_send_mask s).
Definition with_current_session (v : Z) (s : ftp_state) : ftp_state :=
  mk_ftp_state (fd s) (mode s) v (last_send_ms s) (need_banner_send_mask s).
Definition with_last_send_ms (v : Z) (s : ftp_state) : ftp_state :=
  mk_ftp_state (fd s) (mode s) (current_session s) v
    (need_banner_send_mask s).
Definition with_need_banner_send_mask (v : Z) (s : ftp_state) : ftp_state :=
  mk_ftp_state (fd s) (mode s) (current_session s) (last_send_ms s) v.

(** ** Buffers and C strings *)

(** [buf[i] = v]; the index is inside the buffer wherever the source
    writes. *)
Fixpoint store (i : nat) (v : Z) (buf : list Z) : list Z :=
  match buf, i with
  | [], _ => []
  | _ :: t, O => v :: t
  | h :: t, S j => h :: store j v t
  end.

(** [memcpy(buf + i, src, len src)], cut at the end of the buffer. *)
Fixpoint blit (i : nat) (src buf : list Z) : list Z :=
  match buf, i with
  | [], _ => []
  | h :: t, S j => h :: blit j src t
  | _ :: t, O =>
      match src with
      | [] => buf
      | c :: src' => c :: blit O src' t
      end
  end.

(** [memset(buf + i, 0, len buf - i)]. *)
Definition zero_from (i : nat) (buf : list Z) : list Z :=
  firstn i buf ++ repeat 0 (length buf - i).

(** [strnlen(s, maxlen)]. *)
Fixpoint strnlen (s : list Z) (maxlen : nat) : nat :=
  match maxlen, s with
  | S m, c :: s' => if c =? 0 then O else S (strnlen s' m)
  | _, _ => O
  end.

(** The C string that starts at [s]. *)
Fixpoint cstr (s : list Z) : list Z :=
  match s with
  | [] => []
  | c :: s' => if c =? 0 then [] else c :: cstr s'
  end.

(** [put_le32_ptr(buf, v)]. *)
Definition le32 (v : Z) : list Z :=
  [ v mod 256; (v / 256) mod 256; (v / 65536) mod 256; (v / 16777216) mod 256 ].

(** Arithmetic of [size_t]; the operands below are smaller than 2^16, so
    the results do not depend on the width (32 bits on the flight boards). *)
Definition SIZE_T_MOD : Z := 2 ^ 32.
Definition UINT32_MOD : Z := 2 ^ 32.
Definition UINT16_MOD : Z := 2 ^ 16.

(** ** ftp_check_name_len (lines 123-132) *)
Definition ftp_check_name_len (request : pending_ftp) : bool :=
  let file_name_len := Z.of_nat (strnlen (data request) DATA_LEN) in
  if size request =? 0 then false
  else if file_name_len =? size request then true
  else ((size request - file_name_len) mod SIZE_T_MOD =? 1)
       && (nth (DATA_LEN - 1) (data request) 0 =? 0).

(** ** The filesystem and the host (AP::FS(), errno.h, dirent.h) *)

Inductive open_flags : Type := O_RDONLY | O_WRONLY | O_WRONLY_CREAT_TRUNC.

Inductive dirent_type : Type := DT_REG | DT_LNK | DT_DIR | DT_OTHER.

Record dirent : Type := mk_dirent {
  d_name : list Z;
  d_type : dirent_type
}.

Record stat_t : Type := mk_stat {
  st_size : Z;
  st_isdir : bool
}.

(** The calls GCS_FTP.cpp makes on AP::FS(), each threading the state of
    the filesystem, with the integer results the source tests.  [fs_read]
    gives the bytes read ([None] for -1); [fs_opendir] gives the entries
    that the successive [readdir] calls return ([None] for a null DIR).
    [errno] is the host's errno as the last failing call left it;
    [EEXIST], [ENOENT], [HAVE_DIRENT_DTYPE] and [max_name_len] are the
    constants of the build. *)
Class Filesystem (FS : Type) : Type := {
  EEXIST : Z;
  ENOENT : Z;
  errno_distinct : EEXIST <> ENOENT;
  HAVE_DIRENT_DTYPE : bool;
  max_name_len : nat;
  errno : FS -> Z;
  fs_stat : list Z -> FS -> Z * stat_t * FS;
  fs_open : list Z -> open_flags -> FS -> Z * FS;
  fs_close : Z -> FS -> FS;
  fs_lseek : Z -> Z -> FS -> Z * FS;
  fs_read : Z -> Z -> FS -> option (list Z) * FS;
  fs_write : Z -> list Z -> FS -> Z * FS;
  fs_mkdir : list Z -> FS -> Z * FS;
  fs_unlink : list Z -> FS -> Z * FS;
  fs_rename : list Z -> list Z -> FS -> Z * FS;
  fs_crc32 : list Z -> FS -> bool * Z * FS;
  fs_opendir : list Z -> FS -> option (list dirent) * FS;
  fs_closedir : FS -> FS
}.

(** ** The worker's world *)

Inductive event : Type :=
| EvSend (r : pending_ftp)   (* mavlink_msg_file_transfer_protocol_send *)
| EvBanner                   (* send_banner(), which takes no channel *)
| EvOpen (h : Z)             (* AP::FS().open returned the descriptor h *)
| EvClose (h : Z).           (* AP::FS().close(h) *)

(** [ftp] is the static session state, [reply] the local of ftp_worker
    that survives from one request to the next, [clock] the successive
    readings of AP_HAL::millis() and [ticks] how many were taken. *)
Record World (FS : Type) : Type := mk_World {
  ftp : ftp_state;
  reply : pending_ftp;
  fs : FS;
  clock : nat -> Z;
  ticks : nat;
  trace : list event
}.
Arguments mk_World {FS}.
Arguments ftp {FS}.
Arguments reply {FS}.
Arguments fs {FS}.
Arguments clock {FS}.
Arguments ticks {FS}.
Arguments trace {FS}.

(** What the dispatcher leaves to the end of the loop body: send the
    reply, skip the send (burst read already sent), or [continue] without
    a reply (a stray Ack or Nack). *)
Inductive outcome : Type := PushReply | SkipPush | Eat.

Definition zero_reply : pending_ftp :=
  mk_pending_ftp 0 0 0 OpNone OpNone false 0 0 0 0 (repeat 0 DATA_LEN).

(** The messages sent, oldest first. *)
Fixpoint sent (t : list event) : list pending_ftp :=
  match t with
  | [] => []
  | EvSend r :: t' => sent t' ++ [r]
  | _ :: t' => sent t'
  end.

(** The descriptors open after the events of [t] (newest first). *)
Fixpoint remove_handle (h : Z) (l : list Z) : list Z :=
  match l with
  | [] => []
  | x :: l' => if x =? h then l' else x :: remove_handle h l'
  end.

Fixpoint open_handles (t : list event) : list Z :=
  match t with
  | [] => []
  | EvOpen h :: t' => h :: open_handles t'
  | EvClose h :: t' => remove_handle h (open_handles t')
  | _ :: t' => open_handles t'
  end.

(** At every instant of [t], at most one descriptor is open. *)
Fixpoint one_handle_always (t : list event) : Prop :=
  match t with
  | [] => True
  | _ :: t' => (length (open_handles t) <= 1)%nat /\ one_handle_always t'
  end.

Section Worker.

Context {FS : Type} {F : Filesystem FS}.

Definition upd_ftp (f : ftp_state -> ftp_state) (w : World FS) : World FS :=
  mk_World (f (ftp w)) (reply w) (fs w) (clock w) (ticks w) (trace w).
Definition upd_reply (f : pending_ftp -> pending_ftp) (w : World FS) : World FS :=
  mk_World (ftp w) (f (reply w)) (fs w) (clock w) (ticks w) (trace w).
Definition set_fs (s : FS) (w : World FS) : World FS :=
  mk_World (ftp w) (reply w) s (clock w) (ticks w) (trace w).
Definition log (e : event) (w : World FS) : World FS :=
  mk_World (ftp w) (reply w) (fs w) (clock w) (ticks w) (e :: trace w).

(** [AP_HAL::millis()], a 32-bit reading. *)
Definition millis (w : World FS) : Z * World FS :=
  (clock w (ticks w) mod UINT32_MOD,
   mk_World (ftp w) (reply w) (fs w) (clock w) (S (ticks w)) (trace w)).

(** [AP::FS().close(fd)] and [AP::FS().open(path, flags)]. *)
Definition FS_close (h : Z) (w : World FS) : World FS :=
  log (EvClose h) (set_fs (fs_close h (fs w)) w).

Definition FS_open (path : list Z) (flags : open_flags) (w : World FS)
  : Z * World FS :=
  let '(h, s) := fs_open path flags (fs w) in
  (h, if h =? -1 then set_fs s w else log (EvOpen h) (set_fs s w)).

(** ** ftp_error (lines 134-155) *)
Definition ftp_error (response : pending_ftp) (error : FTP_ERROR) (errno_now : Z)
  : pending_ftp :=
  let response :=
    with_size 1
      (with_data (store 0 (error_code error) (data response))
         (with_opcode Nack response)) in
  match error with
  | FailErrno =>
      if errno_now =? EEXIST then
        with_data (store 0 (error_code FileExists) (data response)) response
      else if errno_now =? ENOENT then
        with_data (store 0 (error_code FileNotFound) (data response)) response
      else
        with_size 2
          (with_data (store 1 (errno_now mod 256) (data response)) response)
  | _ => response
  end.

(** [ftp_error(reply, error)] on the worker's reply. *)
Definition reply_error (error : FTP_ERROR) (w : World FS) : World FS :=
  upd_reply (fun r => ftp_error r error (errno (fs w))) w.

(** ** ftp_push_replies (lines 158-179)

    The state in which the call returns.  The loop of lines 162-164
    tries send_ftp_reply every 2 ms and is left at the first try that
    the link accepts, so a call that returns has sent one message; its
    payload (send_ftp_reply, lines 107-119) is a function of the reply
    record, which is what the trace keeps.  The loop itself, over the
    answers of the link, is [ftp_push_replies_on] below.  send_banner()
    is a member call with no argument: the banner leaves on the link
    whose thread runs the worker, whatever the channel of the reply. *)
Definition chan_bit (c : Z) : Z := Z.shiftl 1 c mod UINT32_MOD.

Definition is_TerminateSession (op : FTP_OP) : bool :=
  match op with TerminateSession => true | _ => false end.

Definition ftp_push_replies (r : pending_ftp) (w : World FS) : World FS :=
  let '(t, w) := millis w in
  let w := upd_ftp (with_last_send_ms t) w in
  let w := log (EvSend r) w in
  let w := if is_TerminateSession (req_opcode r)
           then upd_ftp (with_last_send_ms 0) w else w in
  if negb (Z.land (need_banner_send_mask (ftp w)) (chan_bit (chan r)) =? 0)
  then
    log EvBanner
      (upd_ftp (fun s =>
         with_need_banner_send_mask
           (Z.land (need_banner_send_mask s) (Z.lnot (chan_bit (chan r))) mod 256)
           s) w)
  else w.

(** ** The opcodes of ftp_worker (lines 241-586) *)

(** Closing the file of an idle session (lines 236-238 and 265-267). *)
Definition close_session (w : World FS) : World FS :=
  upd_ftp (fun s => with_current_session (-1) (with_fd (-1) s))
    (FS_close (fd (ftp w)) w).

(** TerminateSession, ResetSessions (lines 245-254). *)
Definition op_terminate (w : World FS) : World FS :=
  let w := if negb (fd (ftp w) =? -1)
           then upd_ftp (with_fd (-1)) (FS_close (fd (ftp w)) w) else w in
  let w := upd_ftp (with_current_session (-1)) w in
  upd_reply (with_opcode Ack) w.

(** The path in [request.data] once [request.data[238] = 0] is forced. *)
Definition request_path (request : pending_ftp) : list Z :=
  cstr (store (DATA_LEN - 1) 0 (data request)).

Definition PARAM_PCK : list Z :=
  [64; 80; 65; 82; 65; 77; 47; 112; 97; 114; 97; 109; 46; 112; 99; 107].

Definition bytes_eqb (a b : list Z) : bool :=
  (length a =? length b)%nat && forallb (fun p => fst p =? snd p) (combine a b).

(** OpenFileRO (lines 258-308). *)
Definition op_open_ro (request : pending_ftp) (now : Z) (w : World FS) : World FS :=
  let w := if negb (fd (ftp w) =? -1)
              && ((now - last_send_ms (ftp w)) mod UINT32_MOD >? FTP_SESSION_TIMEOUT)
           then close_session w else w in
  if negb (fd (ftp w) =? -1) then reply_error Fail w
  else if negb (ftp_check_name_len request) then reply_error InvalidDataSize w
  else
    let '(rc, st, s) := fs_stat (request_path request) (fs w) in
    let w := set_fs s w in
    if negb (rc =? 0) then reply_error FailErrno w
    else
      let file_size := st_size st in
      let '(h, w) := FS_open (request_path request) O_RDONLY w in
      let w := upd_ftp (with_fd h) w in
      if h =? -1 then reply_error FailErrno w
      else
        let w := upd_ftp (fun s => with_current_session (session request)
                                     (with_mode Read s)) w in
        let w := upd_reply (fun r =>
                   with_data (blit 0 (le32 (file_size mod UINT32_MOD)) (data r))
                     (with_size 4 (with_opcode Ack r))) w in
        if bytes_eqb (firstn 16 (store (DATA_LEN - 1) 0 (data request))) PARAM_PCK
        then upd_ftp (fun s =>
               with_need_banner_send_mask
                 (Z.lor (need_banner_send_mask s) (chan_bit (chan (reply w))) mod 256)
                 s) w
        else w.

(** ReadFile (lines 309-344). *)
Definition op_read (request : pending_ftp) (w : World FS) : World FS :=
  if fd (ftp w) =? -1 then reply_error FileNotFound w
  else match mode (ftp w) with
  | Write => reply_error Fail w
  | Read =>
    let '(pos, s) := fs_lseek (fd (ftp w)) (offset request) (fs w) in
    let w := set_fs s w in
    if pos =? -1 then reply_error FailErrno w
    else
      let count := Z.min (Z.of_nat DATA_LEN) (size request) in
      let '(rd, s) := fs_read (fd (ftp w)) count (fs w) in
      let w := set_fs s w in
      match rd with
      | None => reply_error FailErrno w
      | Some raw =>
        let bytes := firstn (Z.to_nat count) raw in
        let read_bytes := Z.of_nat (length bytes) in
        let w := upd_reply (fun r => with_data (blit 0 bytes (data r)) r) w in
        if read_bytes =? 0 then reply_error EndOfFile w
        else upd_reply (fun r =>
               with_size (read_bytes mod 256)
                 (with_offset (offset request) (with_opcode Ack r))) w
      end
  end.

(** OpenFileWO, CreateFile (lines 350-379). *)
Definition op_open_wo (request : pending_ftp) (w : World FS) : World FS :=
  if negb (fd (ftp w) =? -1) then reply_error Fail w
  else if negb (ftp_check_name_len request) then reply_error InvalidDataSize w
  else
    let flags := match opcode request with
                 | CreateFile => O_WRONLY_CREAT_TRUNC
                 | _ => O_WRONLY
                 end in
    let '(h, w) := FS_open (request_path request) flags w in
    let w := upd_ftp (with_fd h) w in
    if h =? -1 then reply_error FailErrno w
    else
      let w := upd_ftp (fun s => with_current_session (session request)
                                   (with_mode Write s)) w in
      upd_reply (with_opcode Ack) w.

(** WriteFile (lines 380-410). *)
Definition op_write (request : pending_ftp) (w : World FS) : World FS :=
  if fd (ftp w) =? -1 then reply_error FileNotFound w
  else match mode (ftp w) with
  | Read => reply_error Fail w
  | Write =>
    let '(pos, s) := fs_lseek (fd (ftp w)) (offset request) (fs w) in
    let w := set_fs s w in
    if pos =? -1 then reply_error FailErrno w
    else
      let '(write_bytes, s) :=
        fs_write (fd (ftp w)) (firstn (Z.to_nat (size request)) (data request))
          (fs w) in
      let w := set_fs s w in
      if write_bytes =? -1 then reply_error FailErrno w
      else upd_reply (fun r => with_offset (offset request) (with_opcode Ack r)) w
  end.

(** CreateDirectory (lines 411-429). *)
Definition op_mkdir (request : pending_ftp) (w : World FS) : World FS :=
  if negb (ftp_check_name_len request) then reply_error InvalidDataSize w
  else
    let '(rc, s) := fs_mkdir (request_path request) (fs w) in
    let w := set_fs s w in
    if rc =? -1 then reply_error FailErrno w
    else upd_reply (with_opcode Ack) w.

(** RemoveDirectory, RemoveFile (lines 430-449). *)
Definition op_unlink (request : pending_ftp) (w : World FS) : World FS :=
  if negb (ftp_check_name_len request) then reply_error InvalidDataSize w
  else
    let '(rc, s) := fs_unlink (request_path request) (fs w) in
    let w := set_fs s w in
    if rc =? -1 then reply_error FailErrno w
    else upd_reply (with_opcode Ack) w.

(** CalcFileCRC32 (lines 450-472). *)
Definition op_crc32 (request : pending_ftp) (w : World FS) : World FS :=
  if negb (ftp_check_name_len request) then reply_error InvalidDataSize w
  else
    let '(ok, checksum, s) := fs_crc32 (request_path request) (fs w) in
    let w := set_fs s w in
    if negb ok then reply_error FailErrno w
    else upd_reply (fun r =>
           with_opcode Ack
             (with_data (blit 0 (le32 (checksum mod UINT32_MOD))
                           (repeat 0 (length (data r))))
                (with_size 4 r))) w.

(** BurstReadFile (lines 473-556).

    [burst_delay_ms] only paces the loop ([hal.scheduler->delay]); it
    changes no state of the worker and is left out.  [n] counts the
    iterations that remain and [i] is the loop index. *)
Definition burst_max_read (request : pending_ftp) : Z :=
  if size request =? 0 then Z.of_nat DATA_LEN else size request.

Definition transfer_size : nat := 500.

Fixpoint burst_loop (n : nat) (i : Z) (request : pending_ftp) (max_read : Z)
  (w : World FS) : World FS :=
  match n with
  | O => w
  | S n' =>
    let count := Z.min (Z.of_nat DATA_LEN) max_read in
    let '(rd, s) := fs_read (fd (ftp w)) count (fs w) in
    let w := set_fs s w in
    match rd with
    | None => reply_error FailErrno w
    | Some raw =>
      let bytes := firstn (Z.to_nat count) raw in
      let read_bytes := Z.of_nat (length bytes) in
      let w := upd_reply (fun r => with_data (blit 0 bytes (data r)) r) w in
      let w := if negb (read_bytes =? Z.of_nat DATA_LEN)
               then upd_reply (fun r =>
                      with_data (zero_from (Z.to_nat read_bytes) (data r)) r) w
               else w in
      if read_bytes =? 0 then reply_error EndOfFile w
      else
        let w := upd_reply (fun r =>
                   with_size (read_bytes mod 256)
                     (with_burst_complete
                        ((read_bytes <? max_read)
                         || (i =? Z.of_nat transfer_size - 1))
                        (with_offset
                           ((offset request + i * max_read) mod UINT32_MOD)
                           (with_opcode Ack r)))) w in
        let w := ftp_push_replies (reply w) w in
        let w := if read_bytes <? max_read
                 then upd_reply (fun r =>
                        with_offset ((offset r + read_bytes) mod UINT32_MOD) r) w
                 else w in
        let w := upd_reply (fun r =>
                   with_seq_number ((seq_number r + 1) mod UINT16_MOD) r) w in
        burst_loop n' (i + 1) request max_read w
    end
  end.

Definition is_Nack (op : FTP_OP) : bool :=
  match op with Nack => true | _ => false end.

Definition op_burst_read (request : pending_ftp) (w : World FS)
  : outcome * World FS :=
  let max_read := burst_max_read request in
  if fd (ftp w) =? -1 then (PushReply, reply_error FileNotFound w)
  else match mode (ftp w) with
  | Write => (PushReply, reply_error Fail w)
  | Read =>
    let '(pos, s) := fs_lseek (fd (ftp w)) (offset request) (fs w) in
    let w := set_fs s w in
    if pos =? -1 then (PushReply, reply_error FailErrno w)
    else
      let w := burst_loop transfer_size 0 request max_read w in
      if negb (is_Nack (opcode (reply w))) then (SkipPush, w)
      else (PushReply, w)
  end.

(** Rename (lines 558-578): the test on the payload, then the call. *)
Definition rename_payload_ok (request : pending_ftp) : bool :=
  let len1 := strnlen (data request) (DATA_LEN - 2) in
  let filename2 := skipn (len1 + 1) (data request) in
  let len2 := strnlen filename2 (DATA_LEN - (len1 + 1)) in
  let is_req_size_consider_tnull :=
    ((size request - Z.of_nat (len1 + len2)) mod SIZE_T_MOD =? 2)
    && (nth (DATA_LEN - 1) (data request) 0 =? 0) in
  negb (negb (nth len1 (data request) 0 =? 0)
        || (negb (Z.of_nat (len1 + len2 + 1) =? size request)
            && negb is_req_size_consider_tnull)
        || (size request =? 0)).

Definition op_rename (request : pending_ftp) (w : World FS) : World FS :=
  if negb (rename_payload_ok request) then reply_error InvalidDataSize w
  else
    let len1 := strnlen (data request) (DATA_LEN - 2) in
    let buf := store (DATA_LEN - 1) 0 (data request) in
    let '(rc, s) := fs_rename (cstr buf) (cstr (skipn (len1 + 1) buf)) (fs w) in
    let w := set_fs s w in
    if negb (rc =? 0) then reply_error FailErrno w
    else upd_reply (with_opcode Ack) w.

(** ** gen_dir_entry (lines 598-640)

    [hal.util->snprintf(dest, space, fmt, ...)] stores the formatted text
    cut to [space - 1] bytes, then a NUL, and returns the length of the
    whole text.  The text of ["%c"] with [(char)0] is one NUL byte. *)
Definition snprintf (space : Z) (text : list Z) : Z * list Z :=
  (Z.of_nat (length text), firstn (Z.to_nat (space - 1)) text ++ [0]).

(** ["%u"]: the decimal digits of a 32-bit value. *)
Fixpoint dec_digits (fuel : nat) (n : Z) (acc : list Z) : list Z :=
  match fuel with
  | O => acc
  | S f =>
    let acc' := (48 + n mod 10) :: acc in
    if n / 10 =? 0 then acc' else dec_digits f (n / 10) acc'
  end.

Definition fmt_u (n : Z) : list Z := dec_digits 10 (n mod UINT32_MOD) [].

Definition is_DT_file (t : dirent_type) : bool :=
  match t with DT_REG | DT_LNK => true | _ => false end.
Definition is_DT_DIR (t : dirent_type) : bool :=
  match t with DT_DIR => true | _ => false end.

Definition dir_record (entry : dirent) : list Z :=
  68 :: cstr (d_name entry) ++ [0].
Definition file_record (entry : dirent) (st : stat_t) : list Z :=
  70 :: cstr (d_name entry) ++ 9 :: fmt_u (st_size st) ++ [0].

(** The result is the returned int, the bytes stored from [dest] on, and
    the filesystem after the [stat]. *)
Definition gen_dir_entry (space : Z) (path : list Z) (entry : dirent) (s : FS)
  : Z * list Z * FS :=
  let is_file := if HAVE_DIRENT_DTYPE then is_DT_file (d_type entry) else true in
  if space <? 3 then (-1, [], s)
  else if HAVE_DIRENT_DTYPE && negb is_file && negb (is_DT_DIR (d_type entry))
  then (-1, [0], s)
  else if is_file then
    let full_path_len := (length path + strnlen (d_name entry) max_name_len)%nat in
    let full_path :=
      firstn (full_path_len + 1) (path ++ 47 :: cstr (d_name entry)) in
    let '(rc, st, s) := fs_stat full_path s in
    if negb (rc =? 0) then (-1, [0], s)
    else if negb HAVE_DIRENT_DTYPE && st_isdir st
    then (snprintf space (dir_record entry), s)
    else (snprintf space (file_record entry st), s)
  else (snprintf space (dir_record entry), s).

(** ** ftp_list_dir (lines 643-722) *)

(** The skipping loop (lines 668-684): [Some rest] are the entries left
    for packing, [None] is a directory that ended first. *)
Fixpoint skip_entries (entries : list dirent) (skip : Z) (path : list Z)
  (w : World FS) : option (list dirent) * World FS :=
  match entries with
  | [] => if skip >? 0 then (None, w) else (Some [], w)
  | entry :: rest =>
    if skip >? 0 then
      let '(needed_space, bytes, s) :=
        gen_dir_entry (Z.of_nat DATA_LEN) path entry (fs w) in
      let w := upd_reply (fun r => with_data (blit 0 bytes (data r)) r)
                 (set_fs s w) in
      if (needed_space <? 0) || (needed_space >? Z.of_nat DATA_LEN)
      then skip_entries rest skip path w
      else skip_entries rest (skip - 1) path w
    else (Some entries, w)
  end.

(** The packing loop (lines 687-705); the result is [index]. *)
Fixpoint pack_entries (entries : list dirent) (index : Z) (path : list Z)
  (w : World FS) : Z * World FS :=
  match entries with
  | [] => (index, w)
  | entry :: rest =>
    let '(required_space, bytes, s) :=
      gen_dir_entry (Z.of_nat DATA_LEN - index) path entry (fs w) in
    let w := upd_reply (fun r =>
               with_data (blit (Z.to_nat index) bytes (data r)) r)
               (set_fs s w) in
    if required_space <? 0 then pack_entries rest index path w
    else if required_space + index >=? Z.of_nat DATA_LEN then (index, w)
    else pack_entries rest ((index + (required_space + 1)) mod 256) path w
  end.

Definition FS_closedir (w : World FS) : World FS :=
  set_fs (fs_closedir (fs w)) w.

(** The directory path: NUL forced at the end, one trailing slash
    stripped (lines 652-658). *)
Definition list_dir_path (request : pending_ftp) : list Z :=
  let buf := store (DATA_LEN - 1) 0 (data request) in
  let dir_len := length (cstr buf) in
  let buf := if (1 <? dir_len)%nat && (nth (dir_len - 1) buf 0 =? 47)
             then store (dir_len - 1) 0 buf else buf in
  cstr buf.

Definition ftp_list_dir (request : pending_ftp) (w : World FS) : World FS :=
  let w := upd_reply (with_offset (offset request)) w in
  if negb (ftp_check_name_len request) then reply_error InvalidDataSize w
  else
    let path := list_dir_path request in
    let '(dir, s) := fs_opendir path (fs w) in
    let w := set_fs s w in
    match dir with
    | None => reply_error FailErrno w
    | Some entries =>
      match skip_entries entries (offset request) path w with
      | (None, w) => FS_closedir (reply_error EndOfFile w)
      | (Some rest, w) =>
        let '(index, w) := pack_entries rest 0 path w in
        if index =? 0 then FS_closedir (reply_error EndOfFile w)
        else
          let w := if index <? Z.of_nat DATA_LEN
                   then upd_reply (fun r =>
                          with_data (zero_from (Z.to_nat index) (data r)) r) w
                   else w in
          FS_closedir (upd_reply (fun r => with_size index (with_opcode Ack r)) w)
      end
    end.

(** ** ftp_worker (lines 181-595): one turn of the loop *)

(** The switch on the opcode (lines 241-586).  The debug text that the
    default case sends to the ground station is not part of the FTP
    exchange and is left out. *)
Definition dispatch (request : pending_ftp) (now : Z) (w : World FS)
  : outcome * World FS :=
  match opcode request with
  | OpNone => (PushReply, upd_reply (with_opcode Ack) w)
  | TerminateSession | ResetSessions => (PushReply, op_terminate w)
  | ListDirectory => (PushReply, ftp_list_dir request w)
  | OpenFileRO => (PushReply, op_open_ro request now w)
  | ReadFile => (PushReply, op_read request w)
  | Ack | Nack => (Eat, w)
  | OpenFileWO | CreateFile => (PushReply, op_open_wo request w)
  | WriteFile => (PushReply, op_write request w)
  | CreateDirectory => (PushReply, op_mkdir request w)
  | RemoveDirectory | RemoveFile => (PushReply, op_unlink request w)
  | CalcFileCRC32 => (PushReply, op_crc32 request w)
  | BurstReadFile => op_burst_read request w
  | Rename => (PushReply, op_rename request w)
  | TruncateFile | OpUnknown _ => (PushReply, reply_error Fail w)
  end.

(** The test of lines 195-196; [request.seq_number + 1] is computed in
    [int] and does not wrap. *)
Definition is_rerequest (request cached : pending_ftp) : bool :=
  (sysid request =? sysid cached) && (compid request =? compid cached)
  && (session request =? session cached)
  && (seq_number request + 1 =? seq_number cached).

(** Lines 202-208. *)
Definition setup_reply (request : pending_ftp) : pending_ftp :=
  mk_pending_ftp 0 (chan request) ((seq_number request + 1) mod UINT16_MOD)
    OpNone (opcode request) false 0 (session request) (sysid request)
    (compid request) (repeat 0 DATA_LEN).

Definition is_terminate_or_reset (op : FTP_OP) : bool :=
  match op with TerminateSession | ResetSessions => true | _ => false end.

(** The idle session of lines 230-239. *)
Definition reclaim_idle (request : pending_ftp) (now : Z) (w : World FS)
  : World FS :=
  if negb (fd (ftp w) =? -1)
     && negb (session request =? current_session (ftp w))
     && ((now - last_send_ms (ftp w)) mod UINT32_MOD >=? FTP_SESSION_TIMEOUT)
  then close_session w else w.

Definition finish (o : outcome) (w : World FS) : World FS :=
  match o with
  | PushReply => ftp_push_replies (reply w) w
  | SkipPush | Eat => w
  end.

Definition ftp_worker_step (request : pending_ftp) (w : World FS) : World FS :=
  if is_rerequest request (reply w) then ftp_push_replies (reply w) w
  else
    let w := upd_reply (fun _ => setup_reply request) w in
    if size request >? Z.of_nat DATA_LEN then
      let w := reply_error InvalidDataSize w in
      ftp_push_replies (reply w) w
    else
      let '(now, w) := millis w in
      if negb (session request =? current_session (ftp w))
         && is_terminate_or_reset (opcode request)
      then
        let w := upd_reply (with_opcode Ack) w in
        ftp_push_replies (reply w) w
      else if negb (fd (ftp w) =? -1)
              && negb (session request =? current_session (ftp w))
              && ((now - last_send_ms (ftp w)) mod UINT32_MOD <? FTP_SESSION_TIMEOUT)
      then
        let w := reply_error InvalidSession w in
        ftp_push_replies (reply w) w
      else
        let w := reclaim_idle request now w in
        let '(o, w) := dispatch request now w in
        finish o w.

(** The reading of the clock at line 217 and the world in which the
    session check of lines 219-239 runs: the reply is set up and the clock
    has been read. *)
Definition now_ms (w : World FS) : Z := fst (millis w).

Definition prepared (request : pending_ftp) (w : World FS) : World FS :=
  snd (millis (upd_reply (fun _ => setup_reply request) w)).

(** How long the session has been silent, as lines 225, 232 and 261
    compute it. *)
Definition idle_ms (w : World FS) : Z :=
  (now_ms w - last_send_ms (ftp w)) mod UINT32_MOD.

(** The worker on the requests popped from the queue, in order. *)
Fixpoint ftp_worker (requests : list pending_ftp) (w : World FS) : World FS :=
  match requests with
  | [] => w
  | request :: rest => ftp_worker rest (ftp_worker_step request w)
  end.

(** Modelled from the spec: the initialisers of the static [ftp_state] are
    in GCS.h; section 3 has no file and no session at start-up.  The
    cached reply is zero with session (uint8_t)-1 (lines 183-184). *)
Definition initial_world (s : FS) (clk : nat -> Z) : World FS :=
  mk_World (mk_ftp_state (-1) Read (-1) 0 0)
    (mk_pending_ftp 0 0 0 OpNone OpNone false 0 255 0 0 (repeat 0 DATA_LEN))
    s clk O [].

(** A request as the decoder builds it (lines 76-89): fields in range and
    239 bytes of payload. *)
Definition wf_request (r : pending_ftp) : Prop :=
  0 <= seq_number r < UINT16_MOD /\ 0 <= session r < 256 /\
  0 <= size r < 256 /\ 0 <= sysid r < 256 /\ 0 <= compid r < 256 /\
  0 <= offset r < UINT32_MOD /\ length (data r) = DATA_LEN.

(** The filesystem, the open descriptors and the session (fd, mode,
    current_session) are in [w'] as they were in [w]. *)
Definition same_session (w w' : World FS) : Prop :=
  fs w' = fs w /\ open_handles (trace w') = open_handles (trace w) /\
  fd (ftp w') = fd (ftp w) /\ mode (ftp w') = mode (ftp w) /\
  current_session (ftp w') = current_session (ftp w).

(** ** The burst stream as section 4.7 of the specification words it

    [read_chunks] is what the successive reads of [count] bytes give: the
    non-empty chunks, and how the sequence ends: the window of [n]
    packets is used up, a read of zero bytes, or a failed read.
    [burst_ack request max_read i bytes] is the ACK for chunk number [i]
    and [burst_acks] the ACKs of chunks [i], [i + 1], ... *)
Inductive burst_end : Type := BurstWindow | BurstEOF | BurstError.

Fixpoint read_chunks (n : nat) (h count : Z) (s : FS)
  : list (list Z) * burst_end * FS :=
  match n with
  | O => ([], BurstWindow, s)
  | S n' =>
    match fs_read h count s with
    | (None, s') => ([], BurstError, s')
    | (Some raw, s') =>
      match firstn (Z.to_nat count) raw with
      | [] => ([], BurstEOF, s')
      | bytes =>
        let '(chunks, e, s'') := read_chunks n' h count s' in
        (bytes :: chunks, e, s'')
      end
    end
  end.

Definition burst_ack (request : pending_ftp) (max_read i : Z) (bytes : list Z)
  : pending_ftp :=
  mk_pending_ftp
    ((offset request + i * max_read) mod UINT32_MOD)
    (chan request)
    ((seq_number request + 1 + i) mod UINT16_MOD)
    Ack
    (opcode request)
    ((Z.of_nat (length bytes) <? max_read) || (i =? 499))
    (Z.of_nat (length bytes))
    (session request) (sysid request) (compid request)
    (bytes ++ repeat 0 (DATA_LEN - length bytes)).

Fixpoint burst_acks (request : pending_ftp) (max_read i : Z)
  (chunks : list (list Z)) : list pending_ftp :=
  match chunks with
  | [] => []
  | bytes :: rest =>
    burst_ack request max_read i bytes :: burst_acks request max_read (i + 1) rest
  end.

(** What holds of the reply at the head of iteration [i] of the burst
    loop. *)
Definition burst_ready (request : pending_ftp) (i : Z) (r : pending_ftp) : Prop :=
  length (data r) = DATA_LEN /\
  seq_number r = (seq_number request + 1 + i) mod UINT16_MOD /\
  req_opcode r = opcode request /\ chan r = chan request /\
  session r = session request /\ sysid r = sysid request /\
  compid r = compid request.

(** [w'] differs from [w] at most in the filesystem and in the body of
    the reply: same session state, same trace, same clock, and the header
    of the reply (seq_number, req_opcode, session, chan, sysid, compid) is
    the same. *)
Definition same_header (r r' : pending_ftp) : Prop :=
  seq_number r' = seq_number r /\ req_opcode r' = req_opcode r /\
  session r' = session r /\ chan r' = chan r /\
  sysid r' = sysid r /\ compid r' = compid r.

Definition quiet (w w' : World FS) : Prop :=
  ftp w' = ftp w /\ trace w' = trace w /\ clock w' = clock w /\
  ticks w' = ticks w /\ same_header (reply w) (reply w').

(** [w'] has sent what [w] has sent and the header of the reply is the
    same. *)
Definition mute (w w' : World FS) : Prop :=
  sent (trace w') = sent (trace w) /\ same_header (reply w) (reply w').

(** A reply that is a Nack is what ftp_error made of a reply with a full
    payload. *)
Definition nack_shape (r : pending_ftp) : Prop :=
  opcode r = Nack ->
  exists (response : pending_ftp) (error : FTP_ERROR) (e : Z),
    length (data response) = DATA_LEN /\ r = ftp_error response error e.

(** The single-file discipline: at every instant so far at most one
    descriptor was open, the open descriptors are exactly [fd], and a file
    is open exactly when a session owns it. *)
Definition session_inv (w : World FS) : Prop :=
  one_handle_always (trace w) /\
  open_handles (trace w) = (if fd (ftp w) =? -1 then [] else [fd (ftp w)]) /\
  (fd (ftp w) = -1 <-> current_session (ftp w) = -1).

End Worker.

(** ** An in-memory filesystem

    A small instance of [Filesystem] on which the worker runs on concrete
    requests: flat files named by their full path, one descriptor
    (number 3), and the errno values of newlib. *)
Module RamFS.

Record t : Type := mk {
  files : list (list Z * list Z);
  cursor : option (list Z * Z);
  err : Z
}.

Definition fail (e : Z) (s : t) : t := mk (files s) (cursor s) e.

Fixpoint lookup (p : list Z) (l : list (list Z * list Z)) : option (list Z) :=
  match l with
  | [] => None
  | (q, c) :: l' => if bytes_eqb p q then Some c else lookup p l'
  end.

Fixpoint remove (p : list Z) (l : list (list Z * list Z))
  : list (list Z * list Z) :=
  match l with
  | [] => []
  | (q, c) :: l' => if bytes_eqb p q then l' else (q, c) :: remove p l'
  end.

Definition put (p c : list Z) (l : list (list Z * list Z))
  : list (list Z * list Z) := (p, c) :: remove p l.

Definition stat (p : list Z) (s : t) : Z * stat_t * t :=
  match lookup p (files s) with
  | Some c => (0, mk_stat (Z.of_nat (length c)) false, s)
  | None => (-1, mk_stat 0 false, fail 2 s)
  end.

Definition open (p : list Z) (fl : open_flags) (s : t) : Z * t :=
  match cursor s with
  | Some _ => (-1, fail 24 s)
  | None =>
    match lookup p (files s), fl with
    | Some _, O_WRONLY_CREAT_TRUNC | None, O_WRONLY_CREAT_TRUNC =>
        (3, mk (put p [] (files s)) (Some (p, 0)) (err s))
    | Some _, _ => (3, mk (files s) (Some (p, 0)) (err s))
    | None, _ => (-1, fail 2 s)
    end
  end.

Definition close (h : Z) (s : t) : t := mk (files s) None (err s).

Definition lseek (h pos : Z) (s : t) : Z * t :=
  match cursor s with
  | Some (p, _) => (pos, mk (files s) (Some (p, pos)) (err s))
  | None => (-1, fail 9 s)
  end.

Definition read (h count : Z) (s : t) : option (list Z) * t :=
  match cursor s with
  | Some (p, pos) =>
    match lookup p (files s) with
    | Some c =>
      let bytes := firstn (Z.to_nat count) (skipn (Z.to_nat pos) c) in
      (Some bytes,
       mk (files s) (Some (p, pos + Z.of_nat (length bytes))) (err s))
    | None => (None, fail 9 s)
    end
  | None => (None, fail 9 s)
  end.

Definition write (h : Z) (bytes : list Z) (s : t) : Z * t :=
  match cursor s with
  | Some (p, pos) =>
    match lookup p (files s) with
    | Some c =>
      let k := Z.to_nat pos in
      let c' := firstn k c ++ bytes ++ skipn (k + length bytes) c in
      (Z.of_nat (length bytes),
       mk (put p c' (files s)) (Some (p, pos + Z.of_nat (length bytes))) (err s))
    | None => (-1, fail 9 s)
    end
  | None => (-1, fail 9 s)
  end.

Definition mkdir (p : list Z) (s : t) : Z * t :=
  match lookup p (files s) with
  | Some _ => (-1, fail 17 s)
  | None => (0, s)
  end.

Definition unlink (p : list Z) (s : t) : Z * t :=
  match lookup p (files s) with
  | Some _ => (0, mk (remove p (files s)) (cursor s) (err s))
  | None => (-1, fail 2 s)
  end.

Definition rename (a b : list Z) (s : t) : Z * t :=
  match lookup a (files s) with
  | Some c => (0, mk (put b c (remove a (files s))) (cursor s) (err s))
  | None => (-1, fail 2 s)
  end.

Definition crc32 (p : list Z) (s : t) : bool * Z * t :=
  match lookup p (files s) with
  | Some c => (true, fold_left Z.add c 0 mod UINT32_MOD, s)
  | None => (false, 0, fail 2 s)
  end.

(** The entries of directory [p]: the files named [p ++ "/" ++ name]. *)
Fixpoint entries_of (p : list Z) (l : list (list Z * list Z)) : list dirent :=
  match l with
  | [] => []
  | (q, _) :: l' =>
    let k := (length p + 1)%nat in
    if bytes_eqb (firstn k q) (p ++ [47]) && negb (existsb (Z.eqb 47) (skipn k q))
    then mk_dirent (skipn k q) DT_REG :: entries_of p l'
    else entries_of p l'
  end.

Definition opendir (p : list Z) (s : t) : option (list dirent) * t :=
  match entries_of p (files s) with
  | [] => (None, fail 2 s)
  | l => (Some l, s)
  end.

#[global] Instance filesystem : Filesystem t := {|
  EEXIST := 17;
  ENOENT := 2;
  errno_distinct := ltac:(discriminate);
  HAVE_DIRENT_DTYPE := true;
  max_name_len := 255;
  errno := err;
  fs_stat := stat;
  fs_open := open;
  fs_close := close;
  fs_lseek := lseek;
  fs_read := read;
  fs_write := write;
  fs_mkdir := mkdir;
  fs_unlink := unlink;
  fs_rename := rename;
  fs_crc32 := crc32;
  fs_opendir := opendir;
  fs_closedir := fun s => s
|}.

(** A request with the given payload, padded with zeros to 239 bytes. *)
Definition padded (l : list Z) : list Z :=
  firstn DATA_LEN (l ++ repeat 0 DATA_LEN).

Definition request (seq sess : Z) (op : FTP_OP) (sz off : Z) (payload : list Z)
  : pending_ftp :=
  mk_pending_ftp off 0 seq op OpNone false sz sess 1 1 (padded payload).

(** The clock reads 1000 ms more at every reading. *)
Definition clock_1s (n : nat) : Z := 1000 * Z.of_nat n.

(** One file [/a] of 300 bytes, all 7. *)
Definition path_a : list Z := [47; 97].
Definition disk : t := mk [(path_a, repeat 7 300)] None 0.
Definition boot : World t := initial_world disk clock_1s.

(** Session 1 opens [/a] for reading with seq_number 10. *)
Definition open_a : pending_ftp := request 10 1 OpenFileRO 2 0 path_a.
Definition opened : World t := ftp_worker_step open_a boot.

(** One file [a] in the current directory, and the request to rename it
    to [b], with the trailing NUL counted in the size. *)
Definition disk_a : t := mk [([97], [1; 2; 3])] None 0.
Definition rename_a_b : pending_ftp := request 30 1 Rename 4 0 [97; 0; 98; 0].

(** A directory [/d] with the files [x] (3 bytes) and [yy] (12 bytes),
    and the request to list it from entry [off] on. *)
Definition disk_d : t :=
  mk [([47; 100; 47; 120], [1; 2; 3]);
      ([47; 100; 47; 121; 121], repeat 5 12)] None 0.
Definition list_d (off : Z) : pending_ftp :=
  request 40 1 ListDirectory 2 off [47; 100].

End RamFS.


(** ** The frame codec

    send_ftp_reply (lines 98-121) lays a reply out in the 251 bytes of a
    FILE_TRANSFER_PROTOCOL message, and handle_file_transfer_protocol
    (lines 71-96) reads a request out of them. *)

(** The enumerators of FTP_OP that GCS_FTP.cpp names. *)
Definition named_ops : list FTP_OP :=
  [ OpNone; TerminateSession; ResetSessions; ListDirectory; OpenFileRO;
    ReadFile; CreateFile; WriteFile; RemoveFile; CreateDirectory;
    RemoveDirectory; OpenFileWO; TruncateFile; BurstReadFile; Rename;
    CalcFileCRC32; Ack; Nack ].

(** The values of the enumerators are declared in GCS.h, which is not
    among the sources.  FTP_OP is an [enum class] over [uint8_t]: the
    values are bytes and no two enumerators share one, and the codec
    needs no more than that. *)
Class Enumerators : Type := {
  enumerator : FTP_OP -> Z;
  enumerator_byte : forall op, In op named_ops -> 0 <= enumerator op < 256;
  enumerator_distinct : NoDup (map enumerator named_ops)
}.

(** [static_cast<uint8_t>(op)] and [static_cast<FTP_OP>(b)]. *)
Definition FTP_OP_to_u8 {E : Enumerators} (op : FTP_OP) : Z :=
  match op with
  | OpUnknown code => code
  | _ => enumerator op
  end.

Definition u8_to_FTP_OP {E : Enumerators} (b : Z) : FTP_OP :=
  match find (fun op => enumerator op =? b) named_ops with
  | Some op => op
  | None => OpUnknown b
  end.

(** [put_le16_ptr], [le16toh_ptr] and [le32toh_ptr] of sparse-endian.h. *)
Definition le16 (v : Z) : list Z := [ v mod 256; (v / 256) mod 256 ].

Definition le16toh (p : list Z) : Z := nth 0 p 0 + 256 * nth 1 p 0.

Definition le32toh (p : list Z) : Z :=
  nth 0 p 0 + 256 * nth 1 p 0 + 65536 * nth 2 p 0 + 16777216 * nth 3 p 0.

Definition PAYLOAD_LEN : nat := 251.

(** The payload of lines 107-115. *)
Definition reply_payload {E : Enumerators} (reply : pending_ftp) : list Z :=
  let payload := repeat 0 PAYLOAD_LEN in
  let payload := blit 0 (le16 (seq_number reply)) payload in
  let payload := store 2 (session reply) payload in
  let payload := store 3 (FTP_OP_to_u8 (opcode reply)) payload in
  let payload := store 4 (size reply) payload in
  let payload := store 5 (FTP_OP_to_u8 (req_opcode reply)) payload in
  let payload := store 6 (if burst_complete reply then 1 else 0) payload in
  let payload := blit 8 (le32 (offset reply)) payload in
  blit 12 (firstn DATA_LEN (data reply)) payload.

(** The arguments of mavlink_msg_file_transfer_protocol_send. *)
Record ftp_message : Type := mk_ftp_message {
  msg_chan : Z;
  target_network : Z;
  target_system : Z;
  target_component : Z;
  msg_payload : list Z
}.

(** send_ftp_reply: [None] is [return false], when the transmit buffer of
    the channel is not above 33 or there is no room for the message;
    [Some m] is the message sent before [return true]. *)
Definition send_ftp_reply {E : Enumerators} (txbuf_is_greater_33 : bool)
  (have_payload_space : bool) (reply : pending_ftp) : option ftp_message :=
  if negb txbuf_is_greater_33 then None
  else if negb have_payload_space then None
  else Some (mk_ftp_message (chan reply) 0 (sysid reply) (compid reply)
               (reply_payload reply)).

(** The request of lines 76-89, from the channel of the link, the
    addresses of the message and its payload. *)
Definition request_of_packet {E : Enumerators} (link_chan : Z)
  (msg_sysid msg_compid : Z) (payload : list Z) : pending_ftp :=
  mk_pending_ftp
    (le32toh (skipn 8 payload))
    link_chan
    (le16toh payload)
    (u8_to_FTP_OP (nth 3 payload 0))
    (u8_to_FTP_OP (nth 5 payload 0))
    (negb (nth 6 payload 0 =? 0))
    (nth 4 payload 0)
    (nth 2 payload 0)
    msg_sysid
    msg_compid
    (firstn (PAYLOAD_LEN - 12) (skipn 12 payload)).

(** A payload as the link delivers it: 251 bytes. *)
Definition is_byte (b : Z) : Prop := 0 <= b < 256.

Definition wf_payload (payload : list Z) : Prop :=
  length payload = PAYLOAD_LEN /\ Forall is_byte payload.

(** An opcode that a decoded byte can give: an enumerator, or a byte that
    is the value of none. *)
Definition decoded_op {E : Enumerators} (op : FTP_OP) : Prop :=
  match op with
  | OpUnknown code => is_byte code /\ ~ In code (map enumerator named_ops)
  | _ => True
  end.

(** ** Start-up and the request queue

    ftp_init (lines 37-69) and the queueing of
    handle_file_transfer_protocol (lines 72, 91-94). *)

(** What the host answers during one call of ftp_init:
    AP_BoardConfig::ftp_disabled() (on AP_Periph builds the question is
    compiled out, which is the answer [false]), whether the allocation
    gave a buffer of non-zero size, and whether the thread was created. *)
Record Host : Type := mk_Host {
  ftp_disabled : bool;
  new_requests_ok : bool;
  thread_create_ok : bool
}.

(** [ftp_requests] is [ftp.requests] ([None] for nullptr, else the queued
    requests, oldest first), [threads] counts the worker threads created
    and [warnings] the texts sent at label [failed]. *)
Record Frontend : Type := mk_Frontend {
  ftp_requests : option (list pending_ftp);
  threads : nat;
  warnings : nat
}.

Definition ftp_init (h : Host) (s : Frontend) : bool * Frontend :=
  let failed := (false, mk_Frontend None (threads s) (S (warnings s))) in
  if ftp_disabled h then failed
  else
    match ftp_requests s with
    | Some _ => (true, s)
    | None =>
      if negb (new_requests_ok h) then failed
      else if negb (thread_create_ok h) then failed
      else (true, mk_Frontend (Some []) (S (threads s)) (warnings s))
    end.

(** Modelled from the spec: ObjectBuffer is declared in
    AP_HAL/utility/RingBuffer.h, which is not among the sources; by
    section 4.2 it is a bounded FIFO whose [push] is refused when it is
    full.  The capacity is the argument of line 51. *)
Definition QUEUE_SIZE : nat := 5.

Definition push (q : list pending_ftp) (request : pending_ftp)
  : bool * list pending_ftp :=
  if (length q <? QUEUE_SIZE)%nat then (true, q ++ [request]) else (false, q).

Definition handle_file_transfer_protocol {E : Enumerators} (h : Host)
  (link_chan msg_sysid msg_compid : Z) (payload : list Z) (s : Frontend)
  : Frontend :=
  let '(ok, s) := ftp_init h s in
  if ok then
    match ftp_requests s with
    | Some q =>
      let request := request_of_packet link_chan msg_sysid msg_compid payload in
      mk_Frontend (Some (snd (push q request))) (threads s) (warnings s)
    | None => s
    end
  else s.

(** One incoming message with the answers of the host at its arrival. *)
Record arrival : Type := mk_arrival {
  arr_host : Host;
  arr_chan : Z;
  arr_sysid : Z;
  arr_compid : Z;
  arr_payload : list Z
}.

Fixpoint receive {E : Enumerators} (l : list arrival) (s : Frontend) : Frontend :=
  match l with
  | [] => s
  | a :: rest =>
    receive rest
      (handle_file_transfer_protocol (arr_host a) (arr_chan a) (arr_sysid a)
         (arr_compid a) (arr_payload a) s)
  end.

(** The state before the first message: no queue, no thread. *)
Definition cold : Frontend := mk_Frontend None 0 0.

(** ** Banners *)

(** How many times send_banner() was called. *)
Fixpoint banners (t : list event) : nat :=
  match t with
  | [] => O
  | EvBanner :: t' => S (banners t')
  | _ :: t' => banners t'
  end.

(** Modelled from the spec: the enumerator values of the table of
    section 4.5, for running the codec on concrete frames. *)
Module Wire.

Definition value (op : FTP_OP) : Z :=
  match op with
  | OpNone => 0 | TerminateSession => 1 | ResetSessions => 2
  | ListDirectory => 3 | OpenFileRO => 4 | ReadFile => 5 | CreateFile => 6
  | WriteFile => 7 | RemoveFile => 10 | CreateDirectory => 11
  | RemoveDirectory => 12 | OpenFileWO => 13 | TruncateFile => 14
  | BurstReadFile => 15 | Rename => 16 | CalcFileCRC32 => 17
  | Ack => 128 | Nack => 129
  | OpUnknown code => code
  end.

#[global] Instance enumerators : Enumerators := {|
  enumerator := value;
  enumerator_byte :=
    ltac:(intros op H; cbn in H;
          repeat (destruct H as [<-|H]; [cbn; lia|]); contradiction);
  enumerator_distinct :=
    ltac:(cbn; repeat (constructor; [cbn; intuition lia|]); constructor)
|}.

End Wire.


(** The request that handle_file_transfer_protocol builds for an
    arrival. *)
Definition arrived_request {E : Enumerators} (a : arrival) : pending_ftp :=
  request_of_packet (arr_chan a) (arr_sysid a) (arr_compid a) (arr_payload a).

Definition enabled (a : arrival) : Prop := ftp_disabled (arr_host a) = false.

(** A queue exists only with a worker thread created for it, and holds
    at most five requests. *)
Definition front_ok (s : Frontend) : Prop :=
  forall q, ftp_requests s = Some q ->
    (length q <= QUEUE_SIZE)%nat /\ (1 <= threads s)%nat.

(** One worker thread when there is a queue, none before. *)
Definition one_worker (s : Frontend) : Prop :=
  match ftp_requests s with
  | Some _ => threads s = 1%nat
  | None => threads s = 0%nat
  end.


(** ** Frames and invariants of the banner and of the replies *)

Section Frames.

Context {FS : Type} {F : Filesystem FS}.

(** [w'] owes the banners that [w] owes and has sent as many banners
    as [w]. *)
Definition calm (w w' : World FS) : Prop :=
  need_banner_send_mask (ftp w') = need_banner_send_mask (ftp w) /\
  banners (trace w') = banners (trace w).

(** The test of line 304 on a request: an OpenFileRO whose path starts
    with the sixteen characters of "@PARAM/param.pck". *)
Definition asks_param (request : pending_ftp) : bool :=
  match opcode request with
  | OpenFileRO =>
      bytes_eqb (firstn 16 (store (DATA_LEN - 1) 0 (data request))) PARAM_PCK
  | _ => false
  end.

End Frames.


(** ** Well-formed replies *)

(** The fields of a reply are in the ranges of their C types, the data
    has 239 bytes and the size does not exceed them. *)
Definition wf_frame (r : pending_ftp) : Prop :=
  0 <= seq_number r < UINT16_MOD /\ is_byte (session r) /\
  is_byte (sysid r) /\ is_byte (compid r) /\
  0 <= offset r < UINT32_MOD /\ length (data r) = DATA_LEN /\
  0 <= size r <= 239.

(** The errors that GCS_FTP.cpp passes to ftp_error. *)
Definition reported (e : FTP_ERROR) : bool :=
  match e with
  | ErrNone | NoSessionsAvailable | UnknownCommand => false
  | _ => true
  end.

(** A well-formed reply: a well-formed frame whose opcode is Ack, Nack
    or None (the blank reply); a Nack has either size 1 and one of the
    codes Fail, InvalidDataSize, InvalidSession, EndOfFile, FileExists,
    FileNotFound in data[0], or size 2, FailErrno in data[0] and a byte
    in data[1]. *)
Definition wf_reply (r : pending_ftp) : Prop :=
  wf_frame r /\
  match opcode r with
  | OpNone | Ack => True
  | Nack =>
      (size r = 1 /\
       In (nth 0 (data r) 0)
         (map error_code [Fail; InvalidDataSize; InvalidSession; EndOfFile;
                          FileExists; FileNotFound])) \/
      (size r = 2 /\ nth 0 (data r) 0 = error_code FailErrno /\
       is_byte (nth 1 (data r) 0))
  | _ => False
  end.


(** ** The send loop of ftp_push_replies (lines 162-164)

    What the link answers at one try of send_ftp_reply:
    last_txbuf_is_greater(33) and HAVE_PAYLOAD_SPACE. *)
Record link_answer : Type := mk_link_answer {
  txbuf_above_33 : bool;
  payload_space : bool
}.

(** The try sends the message: neither [return false] is taken. *)
Definition accepts (a : link_answer) : bool :=
  txbuf_above_33 a && payload_space a.

(** [while (!send_ftp_reply(reply)) delay(2)] over the answers of the
    link at the successive tries.  [Some (n, m)]: the message [m] left
    at the try that followed [n] refusals, each of them followed by
    delay(2).  [None]: every try listed was refused and the loop is
    still running. *)
Fixpoint send_loop {E : Enumerators} (link : list link_answer)
  (reply : pending_ftp) : option (nat * ftp_message) :=
  match link with
  | [] => None
  | a :: later =>
    match send_ftp_reply (txbuf_above_33 a) (payload_space a) reply with
    | Some m => Some (O, m)
    | None =>
      match send_loop later reply with
      | Some (n, m) => Some (S n, m)
      | None => None
      end
    end
  end.

(** ftp_push_replies (lines 158-179) with its loop: last_send_ms is
    stamped first, then the loop runs, and only a loop that ended goes
    on to the TerminateSession test and the banner.  [None]: the call
    has not returned. *)
Definition ftp_push_replies_on {FS : Type} {E : Enumerators}
  (link : list link_answer) (r : pending_ftp) (w : World FS)
  : option (nat * ftp_message * World FS) :=
  let '(t, w) := millis w in
  let w := upd_ftp (with_last_send_ms t) w in
  match send_loop link r with
  | None => None
  | Some (n, m) =>
    let w := log (EvSend r) w in
    let w := if is_TerminateSession (req_opcode r)
             then upd_ftp (with_last_send_ms 0) w else w in
    if negb (Z.land (need_banner_send_mask (ftp w)) (chan_bit (chan r)) =? 0)
    then
      Some (n, m,
            log EvBanner
              (upd_ftp (fun s =>
                 with_need_banner_send_mask
                   (Z.land (need_banner_send_mask s)
                      (Z.lnot (chan_bit (chan r))) mod 256)
                   s) w))
    else Some (n, m, w)
  end.

(** * Properties *)

(** ** Buffers *)

Lemma length_store (i : nat) (v : Z) (buf : list Z) :
  length (store i v buf) = length buf.
Proof.
  revert i; induction buf as [|h t IH]; intros [|j]; simpl; auto.
Qed.

Lemma nth_store_same (i : nat) (v : Z) (buf : list Z) :
  (i < length buf)%nat -> nth i (store i v buf) 0 = v.
Proof.
  revert i; induction buf as [|h t IH]; intros [|j] H; simpl in *; try lia; auto.
  apply IH; lia.
Qed.

Lemma nth_store_other (i j : nat) (v : Z) (buf : list Z) :
  i <> j -> nth j (store i v buf) 0 = nth j buf 0.
Proof.
  revert i j; induction buf as [|h t IH]; intros [|i] [|j] H; simpl; auto; try lia.
Qed.

Lemma length_blit (i : nat) (src buf : list Z) :
  length (blit i src buf) = length buf.
Proof.
  revert i src; induction buf as [|h t IH]; intros [|j] src; simpl; auto.
  destruct src; simpl; auto.
Qed.

Lemma length_zero_from (i : nat) (buf : list Z) :
  (i <= length buf)%nat -> length (zero_from i buf) = length buf.
Proof.
  intros H. unfold zero_from.
  rewrite length_app, length_firstn, repeat_length. lia.
Qed.

Lemma nth_zero_from (i j : nat) (buf : list Z) :
  (i <= j)%nat -> (i <= length buf)%nat -> nth j (zero_from i buf) 0 = 0.
Proof.
  intros Hij Hi. unfold zero_from.
  rewrite app_nth2; rewrite length_firstn, Nat.min_l by lia; [|lia].
  destruct (Nat.lt_ge_cases (j - i) (length buf - i)) as [Hlt|Hge].
  - apply nth_repeat_lt. exact Hlt.
  - apply nth_overflow. rewrite repeat_length. exact Hge.
Qed.

Lemma strnlen_le (s : list Z) (m : nat) : (strnlen s m <= m)%nat.
Proof.
  revert s; induction m as [|m IH]; intros [|c s]; simpl; try lia.
  destruct (c =? 0); [lia|]. specialize (IH s). lia.
Qed.

(** A whole-buffer copy followed by zeroing the tail. *)
Lemma blit_zero_from (src buf : list Z) :
  (length src <= length buf)%nat ->
  zero_from (length src) (blit 0 src buf)
  = src ++ repeat 0 (length buf - length src).
Proof.
  intros H. unfold zero_from. rewrite length_blit. f_equal.
  revert buf H; induction src as [|c src IH]; intros [|h t] H; simpl in *;
    try lia; auto.
  f_equal. apply IH. lia.
Qed.

(** ** The name check *)

(** C6: the name-length check accepts exactly a non-empty name whose
    length is the request's size, or one byte less when the last byte of
    the payload is zero. *)
Theorem ftp_check_name_len_spec (request : pending_ftp) :
  0 <= size request < 256 ->
  (ftp_check_name_len request = true <->
   0 < size request /\
   (Z.of_nat (strnlen (data request) 239) = size request \/
    (size request = Z.of_nat (strnlen (data request) 239) + 1 /\
     nth 238 (data request) 0 = 0))).
Proof.
  intros Hsz. unfold ftp_check_name_len, DATA_LEN, SIZE_T_MOD.
  change (239 - 1)%nat with 238%nat.
  pose proof (strnlen_le (data request) 239) as Hle.
  set (len := Z.of_nat (strnlen (data request) 239)) in *.
  assert (Hlen : 0 <= len <= 239) by (unfold len; lia).
  destruct (size request =? 0) eqn:E0.
  { apply Z.eqb_eq in E0. split; [discriminate | lia]. }
  apply Z.eqb_neq in E0.
  destruct (len =? size request) eqn:E1.
  { apply Z.eqb_eq in E1. split; [intros _; split; [lia | left; exact E1] | auto]. }
  apply Z.eqb_neq in E1.
  rewrite andb_true_iff, !Z.eqb_eq.
  split.
  - intros [Hm Hz]. split; [lia|]. right. split; [|exact Hz].
    destruct (Z_lt_ge_dec (size request - len) 0) as [Hneg|Hpos].
    + rewrite <- (Z.mod_add _ 1) in Hm by lia.
      rewrite Z.mod_small in Hm by lia. lia.
    + rewrite Z.mod_small in Hm by lia. lia.
  - intros [_ [Heq | [Heq Hz]]]; [lia|]. split; [|exact Hz].
    rewrite Z.mod_small by lia. lia.
Qed.

Lemma ftp_check_name_len_spec_witness :
  ftp_check_name_len (RamFS.request 10 1 OpenFileRO 2 0 RamFS.path_a) = true <->
  0 < 2 /\
  (Z.of_nat (strnlen (RamFS.padded RamFS.path_a) 239) = 2 \/
   (2 = Z.of_nat (strnlen (RamFS.padded RamFS.path_a) 239) + 1 /\
    nth 238 (RamFS.padded RamFS.path_a) 0 = 0)).
Proof.
  apply (ftp_check_name_len_spec (RamFS.request 10 1 OpenFileRO 2 0 RamFS.path_a)).
  simpl. lia.
Defined.

(** ** Record fields

    [fields] reduces the projections of the updated records and nothing
    else. *)
Ltac fields :=
  cbn [offset chan seq_number opcode req_opcode burst_complete size session
       sysid compid data with_offset with_seq_number with_opcode
       with_burst_complete with_size with_data
       fd mode current_session last_send_ms need_banner_send_mask
       with_fd with_mode with_current_session with_last_send_ms
       with_need_banner_send_mask
       ftp reply fs clock ticks trace upd_ftp upd_reply set_fs log
       fst snd] in *.

(** ** Error replies *)

Lemma ftp_error_fields {FS : Type} {F : Filesystem FS}
  (response : pending_ftp) (error : FTP_ERROR) (e : Z) :
  opcode (ftp_error response error e) = Nack /\
  seq_number (ftp_error response error e) = seq_number response /\
  req_opcode (ftp_error response error e) = req_opcode response /\
  offset (ftp_error response error e) = offset response /\
  chan (ftp_error response error e) = chan response /\
  session (ftp_error response error e) = session response /\
  sysid (ftp_error response error e) = sysid response /\
  compid (ftp_error response error e) = compid response /\
  burst_complete (ftp_error response error e) = burst_complete response /\
  length (data (ftp_error response error e)) = length (data response).
Proof.
  unfold ftp_error.
  destruct error; try (destruct (e =? EEXIST); [|destruct (e =? ENOENT)]);
    fields; rewrite ?length_store; repeat split; reflexivity.
Qed.

(** ** Rename *)

Lemma rename_payload_ok_iff (request : pending_ftp) :
  0 <= size request < 256 ->
  let len1 := strnlen (data request) 237 in
  let len2 := strnlen (skipn (len1 + 1) (data request)) (239 - len1 - 1) in
  rename_payload_ok request = true <->
  nth len1 (data request) 0 = 0 /\
  (Z.of_nat (len1 + len2 + 1) = size request \/
   (size request - Z.of_nat (len1 + len2) = 2 /\
    nth 238 (data request) 0 = 0)).
Proof.
  intros Hsz len1 len2. unfold rename_payload_ok, DATA_LEN, SIZE_T_MOD.
  change (239 - 2)%nat with 237%nat. change (239 - 1)%nat with 238%nat.
  fold len1.
  replace (239 - (len1 + 1))%nat with (239 - len1 - 1)%nat by lia.
  fold len2.
  pose proof (strnlen_le (data request) 237) as H1. fold len1 in H1.
  pose proof (strnlen_le (skipn (len1 + 1) (data request)) (239 - len1 - 1)) as H2.
  fold len2 in H2.
  rewrite negb_true_iff, !orb_false_iff, !negb_false_iff, andb_false_iff,
    negb_false_iff, negb_false_iff, andb_true_iff, !Z.eqb_eq, Z.eqb_neq.
  assert (Hm : (size request - Z.of_nat (len1 + len2)) mod 2 ^ 32 = 2
               <-> size request - Z.of_nat (len1 + len2) = 2).
  { destruct (Z_lt_ge_dec (size request - Z.of_nat (len1 + len2)) 0).
    - rewrite <- (Z.mod_add _ 1) by lia. rewrite Z.mod_small by lia. lia.
    - rewrite Z.mod_small by lia. lia. }
  rewrite Hm. split.
  - intros [H _]. exact H.
  - intros [Hz Hc]. split; [split; [exact Hz | exact Hc]|].
    destruct Hc as [Hc|[Hc _]]; lia.
Qed.

(** ** The reply pump *)

Lemma sent_cons_send (r : pending_ftp) (t : list event) :
  sent (EvSend r :: t) = sent t ++ [r].
Proof. reflexivity. Qed.

Lemma one_handle_now (t : list event) :
  one_handle_always t -> (length (open_handles t) <= 1)%nat.
Proof.
  destruct t as [|e t]; simpl; [lia | tauto].
Qed.

Lemma ftp_push_replies_frame {FS : Type} {F : Filesystem FS}
  (r : pending_ftp) (w : World FS) :
  let w' := ftp_push_replies r w in
  reply w' = reply w /\ fs w' = fs w /\ clock w' = clock w /\
  ticks w' = S (ticks w) /\
  fd (ftp w') = fd (ftp w) /\ mode (ftp w') = mode (ftp w) /\
  current_session (ftp w') = current_session (ftp w) /\
  last_send_ms (ftp w') =
    (if is_TerminateSession (req_opcode r) then 0
     else clock w (ticks w) mod UINT32_MOD) /\
  sent (trace w') = sent (trace w) ++ [r] /\
  open_handles (trace w') = open_handles (trace w) /\
  (one_handle_always (trace w) -> one_handle_always (trace w')).
Proof.
  unfold ftp_push_replies, millis.
  destruct (is_TerminateSession (req_opcode r)); fields;
    match goal with |- context [negb ?b] => destruct b end;
    cbn [negb]; fields; cbn [sent open_handles one_handle_always];
    repeat split; auto using one_handle_now.
Qed.

(** With no banner owed to the channel of the message, the pump changes
    last_send_ms and nothing else of the session state, and the message
    is the only event. *)
Lemma ftp_push_replies_no_banner {FS : Type} {F : Filesystem FS}
  (r : pending_ftp) (w : World FS) :
  Z.land (need_banner_send_mask (ftp w)) (chan_bit (chan r)) = 0 ->
  ftp (ftp_push_replies r w)
  = with_last_send_ms
      (if is_TerminateSession (req_opcode r) then 0
       else clock w (ticks w) mod UINT32_MOD) (ftp w) /\
  trace (ftp_push_replies r w) = EvSend r :: trace w.
Proof.
  intros Hm. unfold ftp_push_replies, millis.
  destruct (is_TerminateSession (req_opcode r)); fields; rewrite Hm;
    cbn [Z.eqb negb]; fields; unfold with_last_send_ms; fields; auto.
Qed.

(** ** The retransmit fast path *)

Lemma is_rerequest_true (request cached : pending_ftp) :
  is_rerequest request cached = true <->
  sysid request = sysid cached /\ compid request = compid cached /\
  session request = session cached /\
  seq_number request + 1 = seq_number cached.
Proof.
  unfold is_rerequest. rewrite !andb_true_iff, !Z.eqb_eq. tauto.
Qed.

(** C1: a request that matches the cached reply on sysid, compid and
    session, and whose seq_number + 1 is the cached seq_number, makes the
    worker hand the cached reply, as it is, to the reply pump and dispatch
    nothing: the one message sent is the cached reply, and the cached
    reply, the filesystem, the open descriptors and fd, mode and
    current_session are as they were.  The resend does change the
    session state in one place: last_send_ms becomes the reading of the
    clock at the resend, or 0 when the cached reply answers a
    TerminateSession; with no banner owed to the channel of the cached
    reply nothing else of the session state changes and the message is
    the only event. *)
Theorem retransmit_resends_cached_reply {FS : Type} {F : Filesystem FS}
  (request : pending_ftp) (w : World FS) :
  sysid request = sysid (reply w) ->
  compid request = compid (reply w) ->
  session request = session (reply w) ->
  seq_number request + 1 = seq_number (reply w) ->
  let w' := ftp_worker_step request w in
  w' = ftp_push_replies (reply w) w /\
  sent (trace w') = sent (trace w) ++ [reply w] /\
  reply w' = reply w /\
  same_session w w' /\
  last_send_ms (ftp w') =
    (if is_TerminateSession (req_opcode (reply w)) then 0 else now_ms w) /\
  (Z.land (need_banner_send_mask (ftp w)) (chan_bit (chan (reply w))) = 0 ->
   ftp w' =
     with_last_send_ms
       (if is_TerminateSession (req_opcode (reply w)) then 0 else now_ms w)
       (ftp w) /\
   trace w' = EvSend (reply w) :: trace w).
Proof.
  intros H1 H2 H3 H4 w'. subst w'. unfold ftp_worker_step.
  rewrite (proj2 (is_rerequest_true request (reply w))) by auto.
  pose proof (ftp_push_replies_frame (reply w) w) as H. cbv zeta in H.
  split; [reflexivity|]. split; [apply H|]. split; [apply H|].
  split; [unfold same_session; intuition|].
  split; [apply H|].
  intros Hm. exact (ftp_push_replies_no_banner (reply w) w Hm).
Qed.

Lemma retransmit_resends_cached_reply_witness :
  let request := RamFS.open_a in
  let w := RamFS.opened in
  let w' := ftp_worker_step request w in
  w' = ftp_push_replies (reply w) w /\
  sent (trace w') = sent (trace w) ++ [reply w] /\
  reply w' = reply w /\
  same_session w w' /\
  last_send_ms (ftp w') =
    (if is_TerminateSession (req_opcode (reply w)) then 0 else now_ms w) /\
  (Z.land (need_banner_send_mask (ftp w)) (chan_bit (chan (reply w))) = 0 ->
   ftp w' =
     with_last_send_ms
       (if is_TerminateSession (req_opcode (reply w)) then 0 else now_ms w)
       (ftp w) /\
   trace w' = EvSend (reply w) :: trace w).
Proof.
  apply (retransmit_resends_cached_reply RamFS.open_a RamFS.opened);
    reflexivity.
Defined.

(** C1 as it was claimed fails: the resend changes the session state.
    A second copy of the request that opened the file, arriving when the
    clock reads 2000, is answered from the cache, and last_send_ms, which
    was 1000, is 2000 afterwards. *)
Lemma retransmit_changes_last_send_ms_counterexample :
  let request := RamFS.open_a in
  let w := RamFS.opened in
  let w' := ftp_worker_step request w in
  (sysid request = sysid (reply w) /\ compid request = compid (reply w) /\
   session request = session (reply w) /\
   seq_number request + 1 = seq_number (reply w)) /\
  sent (trace w') = sent (trace w) ++ [reply w] /\
  last_send_ms (ftp w) = 1000 /\
  last_send_ms (ftp w') = 2000 /\
  ftp w' <> ftp w.
Proof.
  cbv zeta.
  split; [repeat split|].
  split; [vm_compute; reflexivity|].
  split; [vm_compute; reflexivity|].
  split; [vm_compute; reflexivity|].
  intros H. apply (f_equal last_send_ms) in H. vm_compute in H. discriminate.
Qed.

(** ** The session check *)

(** An error other than FailErrno: the code in data[0], size 1. *)
Lemma ftp_error_plain {FS : Type} {F : Filesystem FS}
  (response : pending_ftp) (error : FTP_ERROR) (e : Z) :
  length (data response) = DATA_LEN ->
  error <> FailErrno ->
  opcode (ftp_error response error e) = Nack /\
  nth 0 (data (ftp_error response error e)) 0 = error_code error /\
  size (ftp_error response error e) = 1.
Proof.
  intros Hlen Hne.
  assert (H0 : nth 0 (store 0 (error_code error) (data response)) 0
               = error_code error).
  { apply nth_store_same. rewrite Hlen. unfold DATA_LEN. lia. }
  destruct error; try congruence; unfold ftp_error; fields; auto.
Qed.

Lemma prepared_fields {FS : Type} {F : Filesystem FS}
  (request : pending_ftp) (w : World FS) :
  ftp (prepared request w) = ftp w /\
  reply (prepared request w) = setup_reply request /\
  fs (prepared request w) = fs w /\
  clock (prepared request w) = clock w /\
  ticks (prepared request w) = S (ticks w) /\
  trace (prepared request w) = trace w.
Proof. unfold prepared, millis. fields. repeat split. Qed.

(** A request that is not a re-request and whose size is in range reaches
    the session check. *)
Lemma ftp_worker_step_checked {FS : Type} {F : Filesystem FS}
  (request : pending_ftp) (w : World FS) :
  is_rerequest request (reply w) = false ->
  size request <= 239 ->
  ftp_worker_step request w =
  let w1 := prepared request w in
  if negb (session request =? current_session (ftp w))
     && is_terminate_or_reset (opcode request)
  then ftp_push_replies (with_opcode Ack (setup_reply request))
         (upd_reply (with_opcode Ack) w1)
  else if negb (fd (ftp w) =? -1)
          && negb (session request =? current_session (ftp w))
          && (idle_ms w <? FTP_SESSION_TIMEOUT)
  then ftp_push_replies
         (ftp_error (setup_reply request) InvalidSession (errno (fs w)))
         (reply_error InvalidSession w1)
  else
    let '(o, w2) := dispatch request (now_ms w) (reclaim_idle request (now_ms w) w1) in
    finish o w2.
Proof.
  intros Hre Hsz. unfold ftp_worker_step. rewrite Hre.
  assert (Hgt : (size request >? Z.of_nat DATA_LEN) = false).
  { unfold DATA_LEN. rewrite Z.gtb_ltb. apply Z.ltb_ge. lia. }
  rewrite Hgt. unfold prepared, idle_ms, now_ms, millis, reply_error. fields.
  reflexivity.
Qed.

Lemma same_session_push {FS : Type} {F : Filesystem FS}
  (r : pending_ftp) (w0 w : World FS) :
  same_session w0 w -> same_session w0 (ftp_push_replies r w).
Proof.
  unfold same_session. intros H.
  pose proof (ftp_push_replies_frame r w) as P. cbv zeta in P.
  intuition congruence.
Qed.

Lemma close_session_fields {FS : Type} {F : Filesystem FS} (w : World FS) :
  fd (ftp (close_session w)) = -1 /\
  current_session (ftp (close_session w)) = -1 /\
  mode (ftp (close_session w)) = mode (ftp w) /\
  last_send_ms (ftp (close_session w)) = last_send_ms (ftp w) /\
  reply (close_session w) = reply w /\
  fs (close_session w) = fs_close (fd (ftp w)) (fs w) /\
  trace (close_session w) = EvClose (fd (ftp w)) :: trace w.
Proof. unfold close_session, FS_close. fields. repeat split. Qed.




(** ** Preconditions on the open file *)

Lemma reclaim_idle_same_session {FS : Type} {F : Filesystem FS}
  (request : pending_ftp) (now : Z) (w : World FS) :
  fd (ftp w) = -1 \/ session request = current_session (ftp w) ->
  reclaim_idle request now w = w.
Proof.
  intros [H|H]; unfold reclaim_idle; rewrite H.
  - reflexivity.
  - rewrite Z.eqb_refl. cbn [negb andb]. rewrite andb_false_r. reflexivity.
Qed.

(** A request whose session check passes without a reclaim is
    dispatched in the prepared world. *)
Lemma ftp_worker_step_dispatch {FS : Type} {F : Filesystem FS}
  (request : pending_ftp) (w : World FS) :
  is_rerequest request (reply w) = false ->
  size request <= 239 ->
  is_terminate_or_reset (opcode request) = false
    \/ session request = current_session (ftp w) ->
  fd (ftp w) = -1 \/ session request = current_session (ftp w) ->
  ftp_worker_step request w =
  (let '(o, w2) := dispatch request (now_ms w) (prepared request w) in
   finish o w2).
Proof.
  intros Hre Hsz Ht Hf.
  rewrite (ftp_worker_step_checked request w Hre Hsz). cbv zeta.
  destruct (prepared_fields request w) as (Pf & _).
  assert (H1 : negb (session request =? current_session (ftp w))
               && is_terminate_or_reset (opcode request) = false).
  { destruct Ht as [Ht|Ht]; [rewrite Ht; apply andb_false_r|].
    rewrite Ht, Z.eqb_refl. reflexivity. }
  assert (H2 : negb (fd (ftp w) =? -1)
               && negb (session request =? current_session (ftp w))
               && (idle_ms w <? FTP_SESSION_TIMEOUT) = false).
  { destruct Hf as [Hf|Hf]; [rewrite Hf; reflexivity|].
    rewrite Hf, Z.eqb_refl. cbn [negb]. rewrite andb_false_r. reflexivity. }
  rewrite H1, H2.
  rewrite reclaim_idle_same_session by (rewrite Pf; exact Hf).
  reflexivity.
Qed.

(** The reply of a step that ends by sending an error set on the prepared
    reply. *)
Lemma push_prepared_error {FS : Type} {F : Filesystem FS}
  (request : pending_ftp) (error : FTP_ERROR) (w : World FS) :
  error <> FailErrno ->
  let w' := ftp_push_replies (reply (reply_error error (prepared request w)))
              (reply_error error (prepared request w)) in
  exists r,
    sent (trace w') = sent (trace w) ++ [r] /\ reply w' = r /\
    opcode r = Nack /\ nth 0 (data r) 0 = error_code error /\ size r = 1 /\
    same_session w w'.
Proof.
  intros Hne w'. subst w'.
  destruct (prepared_fields request w) as (Pf & Pr & Ps & Pc & Pt & Ptr).
  set (w1 := reply_error error (prepared request w)).
  exists (reply w1).
  pose proof (ftp_push_replies_frame (reply w1) w1) as P. cbv zeta in P.
  assert (Hw1 : same_session w w1).
  { unfold same_session, w1, reply_error. fields. rewrite Pf, Ps, Ptr.
    repeat split. }
  assert (Htr : trace w1 = trace w) by (unfold w1, reply_error; fields; exact Ptr).
  rewrite Htr in P.
  assert (Hr : reply w1 = ftp_error (setup_reply request) error
                            (errno (fs (prepared request w)))).
  { unfold w1, reply_error. fields. rewrite Pr. reflexivity. }
  assert (Hlen : length (data (setup_reply request)) = DATA_LEN)
    by apply repeat_length.
  destruct (ftp_error_plain (setup_reply request) error
              (errno (fs (prepared request w))) Hlen Hne) as (E1 & E2 & E3).
  rewrite <- Hr in E1, E2, E3.
  split; [apply P|]. split; [apply P|].
  split; [exact E1|]. split; [exact E2|]. split; [exact E3|].
  apply same_session_push. exact Hw1.
Qed.

(** C10: at the dispatcher, with no file open, ReadFile, WriteFile and
    BurstReadFile set the error FileNotFound, and with a file open (for
    OpenFileRO: open and not idle for more than 3000 ms, so the handler
    does not reclaim it) OpenFileRO, OpenFileWO and CreateFile set the
    error Fail, in each case without calling the filesystem.  For a
    request that reaches the dispatcher without a reclaim (no file open,
    or the request's own session owns it) the reply sent is the Nack with
    that code and size 1, and the session and the filesystem are as they
    were. *)
Theorem open_file_precondition_errors {FS : Type} {F : Filesystem FS}
  (request : pending_ftp) (w : World FS) :
  (forall now : Z,
     (fd (ftp w) = -1 ->
      opcode request = ReadFile \/ opcode request = WriteFile
        \/ opcode request = BurstReadFile ->
      dispatch request now w = (PushReply, reply_error FileNotFound w)) /\
     (fd (ftp w) <> -1 ->
      opcode request = OpenFileWO \/ opcode request = CreateFile
        \/ (opcode request = OpenFileRO
            /\ (now - last_send_ms (ftp w)) mod UINT32_MOD
               <= FTP_SESSION_TIMEOUT) ->
      dispatch request now w = (PushReply, reply_error Fail w))) /\
  (is_rerequest request (reply w) = false ->
   size request <= 239 ->
   let w' := ftp_worker_step request w in
   (fd (ftp w) = -1 ->
    opcode request = ReadFile \/ opcode request = WriteFile
      \/ opcode request = BurstReadFile ->
    exists r,
      sent (trace w') = sent (trace w) ++ [r] /\ reply w' = r /\
      opcode r = Nack /\ nth 0 (data r) 0 = error_code FileNotFound /\
      size r = 1 /\ same_session w w') /\
   (fd (ftp w) <> -1 ->
    session request = current_session (ftp w) ->
    opcode request = OpenFileWO \/ opcode request = CreateFile
      \/ (opcode request = OpenFileRO /\ idle_ms w <= FTP_SESSION_TIMEOUT) ->
    exists r,
      sent (trace w') = sent (trace w) ++ [r] /\ reply w' = r /\
      opcode r = Nack /\ nth 0 (data r) 0 = error_code Fail /\
      size r = 1 /\ same_session w w')).
Proof.
  assert (Hclosed : forall (now : Z) (w0 : World FS),
            fd (ftp w0) = -1 ->
            opcode request = ReadFile \/ opcode request = WriteFile
              \/ opcode request = BurstReadFile ->
            dispatch request now w0 = (PushReply, reply_error FileNotFound w0)).
  { intros now w0 Hfd Hop. unfold dispatch.
    destruct Hop as [H|[H|H]]; rewrite H;
      unfold op_read, op_write, op_burst_read; rewrite Hfd; reflexivity. }
  assert (Hopen : forall (now : Z) (w0 : World FS),
            fd (ftp w0) <> -1 ->
            opcode request = OpenFileWO \/ opcode request = CreateFile
              \/ (opcode request = OpenFileRO
                  /\ (now - last_send_ms (ftp w0)) mod UINT32_MOD
                     <= FTP_SESSION_TIMEOUT) ->
            dispatch request now w0 = (PushReply, reply_error Fail w0)).
  { intros now w0 Hfd Hop. apply Z.eqb_neq in Hfd. unfold dispatch.
    destruct Hop as [H|[H|[H Hidle]]]; rewrite H.
    - unfold op_open_wo. rewrite Hfd. reflexivity.
    - unfold op_open_wo. rewrite Hfd. reflexivity.
    - unfold op_open_ro. rewrite Hfd. cbn [negb andb].
      assert (Hgt : ((now - last_send_ms (ftp w0)) mod UINT32_MOD
                     >? FTP_SESSION_TIMEOUT) = false).
      { rewrite Z.gtb_ltb. apply Z.ltb_ge. exact Hidle. }
      rewrite Hgt, Hfd. reflexivity. }
  split; [intros now; split; [apply Hclosed | apply Hopen]|].
  intros Hre Hsz w'. subst w'.
  destruct (prepared_fields request w) as (Pf & Pr & Ps & Pc & Pt & Ptr).
  split.
  - intros Hfd Hop.
    rewrite ftp_worker_step_dispatch; auto;
      [| left; destruct Hop as [H|[H|H]]; rewrite H; reflexivity].
    rewrite Hclosed by (try rewrite Pf; assumption). cbn [finish].
    apply push_prepared_error. discriminate.
  - intros Hfd Hs Hop.
    rewrite ftp_worker_step_dispatch; auto.
    rewrite Hopen; [| rewrite Pf; exact Hfd | rewrite Pf; exact Hop].
    cbn [finish]. apply push_prepared_error. discriminate.
Qed.

Lemma open_file_precondition_errors_witness :
  let request := RamFS.request 20 1 ReadFile 10 0 [] in
  let w' := ftp_worker_step request RamFS.boot in
  exists r,
    sent (trace w') = sent (trace RamFS.boot) ++ [r] /\ reply w' = r /\
    opcode r = Nack /\ nth 0 (data r) 0 = error_code FileNotFound /\
    size r = 1 /\ same_session RamFS.boot w'.
Proof.
  assert (Hsz : size (RamFS.request 20 1 ReadFile 10 0 []) <= 239)
    by (vm_compute; discriminate).
  apply (proj1 (proj2 (open_file_precondition_errors
                         (RamFS.request 20 1 ReadFile 10 0 []) RamFS.boot)
                  eq_refl Hsz)).
  - reflexivity.
  - left. reflexivity.
Defined.

(** ** Handlers that leave the session and the trace alone *)

Lemma same_header_refl (r : pending_ftp) : same_header r r.
Proof. unfold same_header. repeat split. Qed.

Lemma same_header_trans (a b c : pending_ftp) :
  same_header a b -> same_header b c -> same_header a c.
Proof. unfold same_header. intuition congruence. Qed.

Lemma same_header_ftp_error {FS : Type} {F : Filesystem FS}
  (r : pending_ftp) (error : FTP_ERROR) (e : Z) :
  same_header r (ftp_error r error e).
Proof.
  pose proof (ftp_error_fields r error e). unfold same_header. intuition.
Qed.

Lemma quiet_refl {FS : Type} {F : Filesystem FS} (w : World FS) : quiet w w.
Proof. unfold quiet. auto using same_header_refl. Qed.

Lemma quiet_trans {FS : Type} {F : Filesystem FS} (a b c : World FS) :
  quiet a b -> quiet b c -> quiet a c.
Proof.
  unfold quiet. intros (A1 & A2 & A3 & A4 & A5) (B1 & B2 & B3 & B4 & B5).
  do 4 (split; [congruence|]). eapply same_header_trans; eauto.
Qed.

Lemma quiet_reply_error {FS : Type} {F : Filesystem FS}
  (error : FTP_ERROR) (w : World FS) : quiet w (reply_error error w).
Proof.
  unfold quiet, reply_error. fields.
  do 4 (split; [reflexivity|]). apply same_header_ftp_error.
Qed.

Lemma quiet_set_fs {FS : Type} {F : Filesystem FS} (s : FS) (w : World FS) :
  quiet w (set_fs s w).
Proof. unfold quiet. fields. auto using same_header_refl. Qed.

Lemma quiet_upd_reply {FS : Type} {F : Filesystem FS}
  (f : pending_ftp -> pending_ftp) (w : World FS) :
  same_header (reply w) (f (reply w)) -> quiet w (upd_reply f w).
Proof. unfold quiet. fields. auto. Qed.

(** Splits the goal along every test of the handler. *)
Ltac branches :=
  repeat match goal with
  | |- context [match ?x with _ => _ end] => destruct x eqn:?
  end.

(** Closes [quiet w (...)] for a composition of [reply_error], [set_fs]
    and updates of the body of the reply. *)
Ltac quiet_steps :=
  repeat first
    [ apply quiet_refl
    | (eapply quiet_trans; [| apply quiet_reply_error])
    | (eapply quiet_trans; [| apply quiet_set_fs])
    | (eapply quiet_trans;
       [| apply quiet_upd_reply; unfold same_header; fields;
          repeat split; reflexivity]) ].

Lemma quiet_op_read {FS : Type} {F : Filesystem FS}
  (request : pending_ftp) (w : World FS) : quiet w (op_read request w).
Proof. unfold op_read. branches; quiet_steps. Qed.

Lemma quiet_op_write {FS : Type} {F : Filesystem FS}
  (request : pending_ftp) (w : World FS) : quiet w (op_write request w).
Proof. unfold op_write. branches; quiet_steps. Qed.

Lemma quiet_op_mkdir {FS : Type} {F : Filesystem FS}
  (request : pending_ftp) (w : World FS) : quiet w (op_mkdir request w).
Proof. unfold op_mkdir. branches; quiet_steps. Qed.

Lemma quiet_op_unlink {FS : Type} {F : Filesystem FS}
  (request : pending_ftp) (w : World FS) : quiet w (op_unlink request w).
Proof. unfold op_unlink. branches; quiet_steps. Qed.

Lemma quiet_op_crc32 {FS : Type} {F : Filesystem FS}
  (request : pending_ftp) (w : World FS) : quiet w (op_crc32 request w).
Proof. unfold op_crc32. branches; quiet_steps. Qed.

Lemma quiet_op_rename {FS : Type} {F : Filesystem FS}
  (request : pending_ftp) (w : World FS) : quiet w (op_rename request w).
Proof. unfold op_rename. branches; quiet_steps. Qed.

Lemma quiet_skip_entries {FS : Type} {F : Filesystem FS}
  (entries : list dirent) (skip : Z) (path : list Z) (w : World FS) :
  quiet w (snd (skip_entries entries skip path w)).
Proof.
  revert skip w. induction entries as [|entry rest IH]; intros skip w;
    cbn [skip_entries].
  - destruct (skip >? 0); apply quiet_refl.
  - destruct (skip >? 0); [|apply quiet_refl].
    destruct (gen_dir_entry (Z.of_nat DATA_LEN) path entry (fs w))
      as [[needed bytes] s].
    destruct ((needed <? 0) || (needed >? Z.of_nat DATA_LEN));
      (eapply quiet_trans; [|apply IH]); quiet_steps.
Qed.

Lemma quiet_pack_entries {FS : Type} {F : Filesystem FS}
  (entries : list dirent) (index : Z) (path : list Z) (w : World FS) :
  quiet w (snd (pack_entries entries index path w)).
Proof.
  revert index w. induction entries as [|entry rest IH]; intros index w;
    cbn [pack_entries].
  - apply quiet_refl.
  - destruct (gen_dir_entry (Z.of_nat DATA_LEN - index) path entry (fs w))
      as [[required bytes] s].
    destruct (required <? 0); [eapply quiet_trans; [|apply IH]; quiet_steps|].
    destruct (required + index >=? Z.of_nat DATA_LEN);
      [cbn [snd]; quiet_steps | eapply quiet_trans; [|apply IH]; quiet_steps].
Qed.

Lemma quiet_ftp_list_dir {FS : Type} {F : Filesystem FS}
  (request : pending_ftp) (w : World FS) : quiet w (ftp_list_dir request w).
Proof.
  unfold ftp_list_dir, FS_closedir.
  destruct (negb (ftp_check_name_len request)); [quiet_steps|].
  destruct (fs_opendir (list_dir_path request)
              (fs (upd_reply (with_offset (offset request)) w))) as [dir s].
  destruct dir as [entries|]; [|quiet_steps].
  match goal with |- context [skip_entries ?a ?b ?c ?d] =>
    pose proof (quiet_skip_entries a b c d) as Q;
    destruct (skip_entries a b c d) as [[rest|] w1]
  end; cbn [snd] in Q.
  - match goal with |- context [pack_entries ?a ?b ?c ?d] =>
      pose proof (quiet_pack_entries a b c d) as Q2;
      destruct (pack_entries a b c d) as [index w2]
    end; cbn [snd] in Q2.
    assert (Q3 : quiet w w2).
    { eapply quiet_trans; [|exact Q2]. eapply quiet_trans; [|exact Q].
      quiet_steps. }
    destruct (index =? 0); [|destruct (index <? Z.of_nat DATA_LEN)];
      (eapply quiet_trans; [exact Q3|]); quiet_steps.
  - eapply quiet_trans; [|quiet_steps].
    eapply quiet_trans; [|exact Q]. quiet_steps.
Qed.

(** ** The single-file discipline *)

Lemma session_inv_quiet {FS : Type} {F : Filesystem FS} (w w' : World FS) :
  quiet w w' -> session_inv w -> session_inv w'.
Proof.
  unfold quiet, session_inv. intros (Hf & Ht & _). rewrite Hf, Ht. auto.
Qed.

Lemma session_inv_push {FS : Type} {F : Filesystem FS}
  (r : pending_ftp) (w : World FS) :
  session_inv w -> session_inv (ftp_push_replies r w).
Proof.
  unfold session_inv. intros (H1 & H2 & H3).
  pose proof (ftp_push_replies_frame r w) as P. cbv zeta in P.
  destruct P as (_ & _ & _ & _ & Pfd & _ & Pcs & _ & _ & Ph & Pone).
  rewrite Ph, Pfd, Pcs. auto.
Qed.

Lemma session_inv_close_session {FS : Type} {F : Filesystem FS} (w : World FS) :
  session_inv w -> session_inv (close_session w).
Proof.
  unfold session_inv, close_session, FS_close. fields.
  cbn [one_handle_always open_handles]. intros (H1 & H2 & H3).
  rewrite H2.
  assert (Hrm : remove_handle (fd (ftp w))
                  (if fd (ftp w) =? -1 then [] else [fd (ftp w)]) = []).
  { destruct (fd (ftp w) =? -1); cbn [remove_handle]; [reflexivity|].
    rewrite Z.eqb_refl. reflexivity. }
  rewrite Hrm. cbn [length Z.eqb]. repeat split; auto; lia.
Qed.

Lemma session_inv_op_terminate {FS : Type} {F : Filesystem FS} (w : World FS) :
  session_inv w -> session_inv (op_terminate w).
Proof.
  unfold session_inv, op_terminate, FS_close. intros (H1 & H2 & H3).
  destruct (fd (ftp w) =? -1) eqn:E; cbn [negb]; fields;
    cbn [one_handle_always open_handles].
  - rewrite E. apply Z.eqb_eq in E. repeat split; auto.
  - rewrite H2. cbn [remove_handle]. rewrite Z.eqb_refl.
    cbn [length Z.eqb]. repeat split; auto; lia.
Qed.

Lemma session_inv_reclaim_idle {FS : Type} {F : Filesystem FS}
  (request : pending_ftp) (now : Z) (w : World FS) :
  session_inv w -> session_inv (reclaim_idle request now w).
Proof.
  intros H. unfold reclaim_idle.
  match goal with |- context [if ?b then _ else _] => destruct b end;
    auto using session_inv_close_session.
Qed.

(** Opening a file when none is open (lines 291-297 and 368-375). *)
Lemma session_inv_open {FS : Type} {F : Filesystem FS}
  (path : list Z) (flags : open_flags) (sess : Z) (m : FTP_FILE_MODE)
  (w : World FS) :
  0 <= sess ->
  fd (ftp w) = -1 ->
  session_inv w ->
  let '(h, w1) := FS_open path flags w in
  let w2 := upd_ftp (with_fd h) w1 in
  (h = -1 -> session_inv w2) /\
  (h <> -1 ->
   session_inv (upd_ftp (fun s => with_current_session sess (with_mode m s)) w2)).
Proof.
  intros Hs Hfd (H1 & H2 & H3). unfold FS_open.
  destruct (fs_open path flags (fs w)) as [h s].
  rewrite Hfd in H2. cbn [Z.eqb] in H2.
  destruct (h =? -1) eqn:E.
  - apply Z.eqb_eq in E. subst h. split; [|congruence]. intros _.
    unfold session_inv. fields. rewrite H2. cbn [Z.eqb].
    repeat split; auto; intros _; apply H3; exact Hfd.
  - apply Z.eqb_neq in E. split; [congruence|]. intros _.
    unfold session_inv. fields. cbn [one_handle_always open_handles].
    rewrite H2. apply Z.eqb_neq in E. rewrite E. apply Z.eqb_neq in E.
    cbn [length]. repeat split; auto; try lia.
Qed.

Lemma session_inv_op_open_wo {FS : Type} {F : Filesystem FS}
  (request : pending_ftp) (w : World FS) :
  0 <= session request ->
  session_inv w -> session_inv (op_open_wo request w).
Proof.
  intros Hs H. unfold op_open_wo.
  destruct (fd (ftp w) =? -1) eqn:E; cbn [negb];
    [|eapply session_inv_quiet; [apply quiet_reply_error | exact H]].
  apply Z.eqb_eq in E.
  destruct (negb (ftp_check_name_len request));
    [eapply session_inv_quiet; [apply quiet_reply_error | exact H]|].
  match goal with |- context [FS_open ?p ?f w] =>
    pose proof (session_inv_open p f (session request) Write w Hs E H) as O;
    destruct (FS_open p f w) as [h w1]
  end.
  destruct O as [O1 O2].
  destruct (h =? -1) eqn:Eh.
  - apply Z.eqb_eq in Eh.
    eapply session_inv_quiet; [apply quiet_reply_error | auto].
  - apply Z.eqb_neq in Eh.
    eapply session_inv_quiet; [|apply O2; exact Eh]. quiet_steps.
Qed.

Lemma session_inv_op_open_ro {FS : Type} {F : Filesystem FS}
  (request : pending_ftp) (now : Z) (w : World FS) :
  0 <= session request ->
  session_inv w -> session_inv (op_open_ro request now w).
Proof.
  intros Hs H. unfold op_open_ro.
  match goal with |- context [if ?b then close_session w else w] =>
    assert (H0 : session_inv (if b then close_session w else w))
      by (destruct b; auto using session_inv_close_session);
    generalize dependent (if b then close_session w else w)
  end.
  clear H w. intros w H.
  destruct (fd (ftp w) =? -1) eqn:E; cbn [negb];
    [|eapply session_inv_quiet; [apply quiet_reply_error | exact H]].
  apply Z.eqb_eq in E.
  destruct (negb (ftp_check_name_len request));
    [eapply session_inv_quiet; [apply quiet_reply_error | exact H]|].
  destruct (fs_stat (request_path request) (fs w)) as [[rc st] s].
  destruct (negb (rc =? 0)).
  { eapply session_inv_quiet; [|exact H]. quiet_steps. }
  assert (H' : session_inv (set_fs s w))
    by (eapply session_inv_quiet; [apply quiet_set_fs | exact H]).
  assert (E' : fd (ftp (set_fs s w)) = -1) by exact E.
  match goal with |- context [FS_open ?p ?f (set_fs s w)] =>
    pose proof (session_inv_open p f (session request) Read (set_fs s w)
                  Hs E' H') as O;
    destruct (FS_open p f (set_fs s w)) as [h w1]
  end.
  destruct O as [O1 O2].
  destruct (h =? -1) eqn:Eh.
  - apply Z.eqb_eq in Eh.
    eapply session_inv_quiet; [apply quiet_reply_error | auto].
  - apply Z.eqb_neq in Eh. specialize (O2 Eh).
    match goal with |- context [if ?b then _ else _] => destruct b end.
    + unfold session_inv in *. fields. exact O2.
    + unfold session_inv in *. fields. exact O2.
Qed.

(** ** The burst loop *)

Lemma blit_all (src buf : list Z) :
  length src = length buf -> blit 0 src buf = src.
Proof.
  revert buf; induction src as [|c src IH]; intros [|h t] H; simpl in *;
    try lia; auto.
  f_equal. apply IH. lia.
Qed.

(** The payload of a burst reply: the bytes read, then zeros. *)
Lemma burst_payload (bytes buf : list Z) :
  length buf = DATA_LEN ->
  (length bytes <= DATA_LEN)%nat ->
  (if negb (Z.of_nat (length bytes) =? Z.of_nat DATA_LEN)
   then zero_from (Z.to_nat (Z.of_nat (length bytes))) (blit 0 bytes buf)
   else blit 0 bytes buf)
  = bytes ++ repeat 0 (DATA_LEN - length bytes).
Proof.
  intros Hb Hl.
  destruct (Z.of_nat (length bytes) =? Z.of_nat DATA_LEN) eqn:E; cbn [negb].
  - apply Z.eqb_eq in E. apply Nat2Z.inj in E.
    rewrite blit_all by lia. rewrite E, Nat.sub_diag. cbn [repeat].
    rewrite app_nil_r. reflexivity.
  - rewrite Nat2Z.id, blit_zero_from by lia. rewrite Hb. reflexivity.
Qed.

Lemma seq_number_next (s i : Z) :
  ((s + 1 + i) mod UINT16_MOD + 1) mod UINT16_MOD
  = (s + 1 + (i + 1)) mod UINT16_MOD.
Proof.
  unfold UINT16_MOD. rewrite Z.add_mod_idemp_l by lia. f_equal. lia.
Qed.

(** The reply buffer after a read of [bytes] (lines 516-525). *)
Lemma burst_buffer {FS : Type} {F : Filesystem FS}
  (bytes : list Z) (w : World FS) :
  length (data (reply w)) = DATA_LEN ->
  (length bytes <= DATA_LEN)%nat ->
  (if negb (Z.of_nat (length bytes) =? Z.of_nat DATA_LEN)
   then upd_reply (fun r =>
          with_data (zero_from (Z.to_nat (Z.of_nat (length bytes))) (data r)) r)
          (upd_reply (fun r => with_data (blit 0 bytes (data r)) r) w)
   else upd_reply (fun r => with_data (blit 0 bytes (data r)) r) w)
  = upd_reply (with_data (bytes ++ repeat 0 (DATA_LEN - length bytes))) w.
Proof.
  intros Hb Hl. rewrite <- (burst_payload bytes (data (reply w)) Hb Hl).
  destruct (negb (Z.of_nat (length bytes) =? Z.of_nat DATA_LEN));
    unfold upd_reply, with_data; fields; reflexivity.
Qed.

Lemma burst_loop_spec {FS : Type} {F : Filesystem FS}
  (request : pending_ftp) (max_read : Z) (n : nat) :
  1 <= max_read <= 239 ->
  forall (i : Z) (w : World FS),
  burst_ready request i (reply w) ->
  let '(chunks, e, s') := read_chunks n (fd (ftp w)) max_read (fs w) in
  let w' := burst_loop n i request max_read w in
  sent (trace w') = sent (trace w) ++ burst_acks request max_read i chunks /\
  fs w' = s' /\
  fd (ftp w') = fd (ftp w) /\ mode (ftp w') = mode (ftp w) /\
  current_session (ftp w') = current_session (ftp w) /\
  open_handles (trace w') = open_handles (trace w) /\
  (one_handle_always (trace w) -> one_handle_always (trace w')) /\
  (length chunks <= n)%nat /\
  burst_ready request (i + Z.of_nat (length chunks)) (reply w') /\
  match e with
  | BurstWindow =>
      length chunks = n /\
      (chunks = [] -> w' = w) /\ (chunks <> [] -> opcode (reply w') = Ack)
  | BurstEOF =>
      opcode (reply w') = Nack /\ size (reply w') = 1 /\
      nth 0 (data (reply w')) 0 = error_code EndOfFile
  | BurstError => opcode (reply w') = Nack
  end.
Proof.
  intros Hmr. induction n as [|n IH]; intros i w Hready.
  - cbn [read_chunks burst_loop burst_acks length]. rewrite app_nil_r, Z.add_0_r.
    do 8 (split; [auto|]). split; [exact Hready|].
    split; [reflexivity|]. split; [reflexivity|]. congruence.
  - cbn [read_chunks burst_loop].
    replace (Z.min (Z.of_nat DATA_LEN) max_read) with max_read
      by (unfold DATA_LEN; lia).
    destruct Hready as (R1 & R2 & R3 & R4 & R5 & R6 & R7).
    destruct (fs_read (fd (ftp w)) max_read (fs w)) as [[raw|] s1].
    2:{ (* the read failed *)
      cbn [burst_acks length]. rewrite app_nil_r, Z.add_0_r.
      unfold reply_error. fields.
      pose proof (ftp_error_fields (reply w) FailErrno (errno s1)) as E.
      destruct E as (E1 & E2 & E3 & E4 & E5 & E6 & E7 & E8 & E9 & E10).
      unfold burst_ready.
      repeat split; auto; try lia; try congruence. }
    set (bytes := firstn (Z.to_nat max_read) raw).
    assert (Hbl : (length bytes <= DATA_LEN)%nat).
    { unfold bytes, DATA_LEN. rewrite length_firstn. lia. }
    assert (Hbm : Z.of_nat (length bytes) <= max_read).
    { unfold bytes. rewrite length_firstn. lia. }
    clearbody bytes.
    rewrite (burst_buffer bytes (set_fs s1 w)) by (fields; auto).
    set (payload := bytes ++ repeat 0 (DATA_LEN - length bytes)).
    assert (Hpl : length payload = DATA_LEN).
    { unfold payload. rewrite length_app, repeat_length. lia. }
    destruct bytes as [|b bytes'].
    + (* end of file *)
      change (Z.of_nat (length (@nil Z)) =? 0) with true. cbv iota.
      cbn [burst_acks length]. rewrite app_nil_r, Z.add_0_r.
      unfold reply_error. fields.
      match goal with |- context [ftp_error ?r EndOfFile ?e] =>
        pose proof (ftp_error_fields r EndOfFile e) as E;
        pose proof (ftp_error_plain r EndOfFile e) as E';
        set (nack := ftp_error r EndOfFile e) in *
      end.
      fields.
      destruct E as (E1 & E2 & E3 & E4 & E5 & E6 & E7 & E8 & E9 & E10).
      destruct E' as (E1' & E2' & E3'); [exact Hpl | discriminate |].
      unfold burst_ready.
      repeat split; auto; try lia; try congruence.
    + (* a chunk: its ACK goes out and the loop goes on *)
      set (bytes := b :: bytes') in *.
      assert (Hpos : 0 < Z.of_nat (length bytes)).
      { unfold bytes. cbn [length]. lia. }
      assert (Hne : (Z.of_nat (length bytes) =? 0) = false)
        by (apply Z.eqb_neq; lia).
      rewrite Hne.
      set (ack := burst_ack request max_read i bytes).
      set (w_pre := upd_reply _ (upd_reply (with_data payload) (set_fs s1 w))).
      assert (Hack : reply w_pre = ack).
      { unfold w_pre, ack, burst_ack. fields.
        unfold with_size, with_burst_complete, with_offset, with_opcode,
          with_data. fields.
        rewrite R2, R3, R4, R5, R6, R7.
        rewrite (Z.mod_small (Z.of_nat (length bytes)) 256) by lia.
        reflexivity. }
      rewrite Hack.
      pose proof (ftp_push_replies_frame ack w_pre) as P. cbv zeta in P.
      destruct P as (P1 & P2 & P3 & P4 & P5 & P6 & P7 & P8 & P9 & P10 & P11).
      set (w_sent := ftp_push_replies ack w_pre) in *.
      match goal with |- context [burst_loop n (i + 1) request max_read ?W] =>
        set (w_next := W)
      end.
      assert (Hnext : burst_ready request (i + 1) (reply w_next)
                      /\ ftp w_next = ftp w_sent /\ fs w_next = fs w_sent
                      /\ trace w_next = trace w_sent
                      /\ opcode (reply w_next) = Ack).
      { unfold w_next.
        destruct (Z.of_nat (length bytes) <? max_read); fields;
          rewrite P1, Hack; unfold burst_ready, ack, burst_ack; fields;
          rewrite seq_number_next; repeat split; exact Hpl. }
      destruct Hnext as (N1 & N2 & N3 & N4 & N5).
      specialize (IH (i + 1) w_next N1).
      rewrite N2, N3, N4, P5, P2 in IH.
      assert (Hfs : fs w_pre = s1) by reflexivity.
      assert (Hfd : fd (ftp w_pre) = fd (ftp w)) by reflexivity.
      assert (Htr : trace w_pre = trace w) by reflexivity.
      rewrite Hfs, Hfd in IH. rewrite Htr in P9, P10, P11.
      destruct (read_chunks n (fd (ftp w)) max_read s1) as [[chunks e] s'].
      change (match bytes with
              | [] => @pair _ FS (@pair (list (list Z)) _ [] BurstEOF) s1
              | _ :: _ => (bytes :: chunks, e, s')
              end) with (bytes :: chunks, e, s').
      destruct IH as (I1 & I2 & I3 & I4 & I5 & I6 & I7 & I8 & I9 & I10).
      cbn [burst_acks length]. fold ack.
      rewrite I1, P9, <- app_assoc. cbn [app].
      split; [reflexivity|]. split; [exact I2|].
      split; [rewrite I3; reflexivity|].
      split; [rewrite I4, P6; reflexivity|].
      split; [rewrite I5, P7; reflexivity|].
      split; [rewrite I6, P10; reflexivity|].
      split; [auto|].
      split; [lia|].
      split.
      { replace (i + Z.of_nat (S (length chunks)))
          with (i + 1 + Z.of_nat (length chunks)) by lia. exact I9. }
      destruct e; auto.
      destruct I10 as (J1 & J2 & J3).
      split; [lia|]. split; [discriminate|]. intros _.
      destruct chunks as [|c chunks'].
      * rewrite (J2 eq_refl). exact N5.
      * apply J3. discriminate.
Qed.

(** ** Handlers that send nothing and keep the header of the reply *)

Lemma mute_refl {FS : Type} {F : Filesystem FS} (w : World FS) : mute w w.
Proof. unfold mute. auto using same_header_refl. Qed.

Lemma mute_trans {FS : Type} {F : Filesystem FS} (a b c : World FS) :
  mute a b -> mute b c -> mute a c.
Proof.
  unfold mute. intros (A1 & A2) (B1 & B2).
  split; [congruence | eapply same_header_trans; eauto].
Qed.

Lemma mute_quiet {FS : Type} {F : Filesystem FS} (w w' : World FS) :
  quiet w w' -> mute w w'.
Proof.
  unfold quiet, mute. intros (_ & Ht & _ & _ & Hh). rewrite Ht. auto.
Qed.

Lemma mute_upd_ftp {FS : Type} {F : Filesystem FS}
  (f : ftp_state -> ftp_state) (w : World FS) : mute w (upd_ftp f w).
Proof. unfold mute. fields. auto using same_header_refl. Qed.

Lemma mute_log_open {FS : Type} {F : Filesystem FS} (h : Z) (w : World FS) :
  mute w (log (EvOpen h) w).
Proof. unfold mute. fields. cbn [sent]. auto using same_header_refl. Qed.

Lemma mute_log_close {FS : Type} {F : Filesystem FS} (h : Z) (w : World FS) :
  mute w (log (EvClose h) w).
Proof. unfold mute. fields. cbn [sent]. auto using same_header_refl. Qed.

Lemma mute_FS_open {FS : Type} {F : Filesystem FS}
  (path : list Z) (flags : open_flags) (w : World FS) :
  mute w (snd (FS_open path flags w)).
Proof.
  unfold FS_open. destruct (fs_open path flags (fs w)) as [h s].
  destruct (h =? -1); cbn [snd].
  - apply mute_quiet, quiet_set_fs.
  - eapply mute_trans; [apply mute_quiet, quiet_set_fs | apply mute_log_open].
Qed.

Ltac mute_steps :=
  repeat first
    [ apply mute_refl
    | assumption
    | (eapply mute_trans; [| apply mute_quiet; apply quiet_reply_error])
    | (eapply mute_trans; [| apply mute_quiet; apply quiet_set_fs])
    | (eapply mute_trans; [| apply mute_upd_ftp])
    | (eapply mute_trans; [| apply mute_log_open])
    | (eapply mute_trans; [| apply mute_log_close])
    | (eapply mute_trans;
       [| apply mute_quiet; apply quiet_upd_reply; unfold same_header; fields;
          repeat split; reflexivity])
    | (eapply mute_trans; [| eassumption]) ].

Ltac branches' :=
  repeat (cbv beta iota zeta;
          match goal with
          | |- context [FS_open ?p ?f ?w] =>
              pose proof (mute_FS_open p f w);
              destruct (FS_open p f w) as [? ?]; cbn [snd] in *
          | |- context [match ?x with _ => _ end] => destruct x eqn:?
          end).

Lemma mute_close_session {FS : Type} {F : Filesystem FS} (w : World FS) :
  mute w (close_session w).
Proof. unfold close_session, FS_close. mute_steps. Qed.

Lemma mute_reclaim_idle {FS : Type} {F : Filesystem FS}
  (request : pending_ftp) (now : Z) (w : World FS) :
  mute w (reclaim_idle request now w).
Proof.
  unfold reclaim_idle.
  match goal with |- context [if ?b then _ else _] => destruct b end;
    [apply mute_close_session | apply mute_refl].
Qed.

Lemma mute_op_terminate {FS : Type} {F : Filesystem FS} (w : World FS) :
  mute w (op_terminate w).
Proof. unfold op_terminate, FS_close. branches'; mute_steps. Qed.

Lemma mute_op_open_wo {FS : Type} {F : Filesystem FS}
  (request : pending_ftp) (w : World FS) : mute w (op_open_wo request w).
Proof. unfold op_open_wo. branches'; mute_steps. Qed.

Lemma mute_op_open_ro {FS : Type} {F : Filesystem FS}
  (request : pending_ftp) (now : Z) (w : World FS) :
  mute w (op_open_ro request now w).
Proof.
  unfold op_open_ro.
  match goal with |- context [if ?b then close_session w else w] =>
    assert (H0 : mute w (if b then close_session w else w))
      by (destruct b; [apply mute_close_session | apply mute_refl]);
    generalize dependent (if b then close_session w else w)
  end.
  intros w1 H1. eapply mute_trans; [exact H1|].
  branches'; mute_steps.
Qed.

(** ** The dispatcher as a whole *)

Lemma burst_max_read_range (request : pending_ftp) :
  0 <= size request <= 239 -> 1 <= burst_max_read request <= 239.
Proof.
  intros H. unfold burst_max_read, DATA_LEN.
  destruct (size request =? 0) eqn:E; [lia|]. apply Z.eqb_neq in E. lia.
Qed.

Lemma burst_ready_setup (request : pending_ftp) :
  burst_ready request 0 (setup_reply request).
Proof.
  unfold burst_ready, setup_reply. fields. rewrite Z.add_0_r.
  repeat split.
Qed.

(** What the burst opcode does when the file is open for reading and the
    seek succeeds (lines 512-555). *)
Lemma op_burst_read_loop {FS : Type} {F : Filesystem FS}
  (request : pending_ftp) (w : World FS) (pos : Z) (s : FS) :
  fd (ftp w) <> -1 -> mode (ftp w) = Read ->
  fs_lseek (fd (ftp w)) (offset request) (fs w) = (pos, s) -> pos <> -1 ->
  op_burst_read request w =
  (let w' := burst_loop transfer_size 0 request (burst_max_read request)
               (set_fs s w) in
   (if negb (is_Nack (opcode (reply w'))) then SkipPush else PushReply, w')).
Proof.
  intros Hfd Hm Hl Hp. unfold op_burst_read.
  apply Z.eqb_neq in Hfd, Hp. rewrite Hfd, Hm, Hl, Hp. cbv zeta.
  destruct (negb _); reflexivity.
Qed.

Lemma session_inv_op_burst_read {FS : Type} {F : Filesystem FS}
  (request : pending_ftp) (w : World FS) :
  0 <= size request <= 239 ->
  reply w = setup_reply request ->
  session_inv w -> session_inv (snd (op_burst_read request w)).
Proof.
  intros Hsz Hr H. unfold op_burst_read.
  destruct (fd (ftp w) =? -1);
    [eapply session_inv_quiet; [apply quiet_reply_error | exact H]|].
  destruct (mode (ftp w));
    [|eapply session_inv_quiet; [apply quiet_reply_error | exact H]].
  destruct (fs_lseek (fd (ftp w)) (offset request) (fs w)) as [pos s].
  destruct (pos =? -1).
  { eapply session_inv_quiet; [|exact H]. cbn [snd]. quiet_steps. }
  pose proof (burst_loop_spec request (burst_max_read request) transfer_size
                (burst_max_read_range request Hsz) 0 (set_fs s w)) as B.
  fields. rewrite Hr in B. specialize (B (burst_ready_setup request)).
  destruct (read_chunks transfer_size (fd (ftp w)) (burst_max_read request) s)
    as [[chunks e] s'].
  cbv zeta in B.
  destruct B as (_ & _ & B3 & _ & B5 & B6 & B7 & _).
  set (w' := burst_loop transfer_size 0 request (burst_max_read request)
               (set_fs s w)) in *.
  assert (Hinv : session_inv w').
  { unfold session_inv in *. rewrite B3, B5, B6.
    destruct H as (H1 & H2 & H3). auto. }
  destruct (negb (is_Nack (opcode (reply w')))); exact Hinv.
Qed.

Lemma session_inv_dispatch {FS : Type} {F : Filesystem FS}
  (request : pending_ftp) (now : Z) (w : World FS) :
  0 <= session request ->
  0 <= size request <= 239 ->
  reply w = setup_reply request ->
  session_inv w -> session_inv (snd (dispatch request now w)).
Proof.
  intros Hs Hsz Hr H. unfold dispatch.
  destruct (opcode request); cbn [snd];
    auto using session_inv_op_terminate, session_inv_op_open_ro,
      session_inv_op_open_wo, session_inv_op_burst_read;
    (eapply session_inv_quiet; [|exact H]);
    auto using quiet_reply_error, quiet_ftp_list_dir, quiet_op_read,
      quiet_op_write, quiet_op_mkdir, quiet_op_unlink, quiet_op_crc32,
      quiet_op_rename, quiet_refl.
Qed.

Lemma session_inv_finish {FS : Type} {F : Filesystem FS}
  (o : outcome) (w : World FS) : session_inv w -> session_inv (finish o w).
Proof. destruct o; cbn [finish]; auto using session_inv_push. Qed.

Lemma session_inv_same {FS : Type} {F : Filesystem FS} (w w' : World FS) :
  ftp w' = ftp w -> trace w' = trace w -> session_inv w -> session_inv w'.
Proof. unfold session_inv. intros -> ->. auto. Qed.

Lemma session_inv_step {FS : Type} {F : Filesystem FS}
  (request : pending_ftp) (w : World FS) :
  0 <= session request -> 0 <= size request ->
  session_inv w -> session_inv (ftp_worker_step request w).
Proof.
  intros Hs Hsz H.
  destruct (is_rerequest request (reply w)) eqn:Hre.
  { unfold ftp_worker_step. rewrite Hre. apply session_inv_push, H. }
  destruct (Z_le_gt_dec (size request) 239) as [Hle|Hgt].
  - rewrite (ftp_worker_step_checked request w Hre Hle). cbv zeta.
    destruct (prepared_fields request w) as (Pf & Pr & Ps & Pc & Pt & Ptr).
    assert (H1 : session_inv (prepared request w))
      by (apply (session_inv_same w); auto).
    destruct (negb (session request =? current_session (ftp w))
              && is_terminate_or_reset (opcode request)).
    { apply session_inv_push. eapply session_inv_same; [| |exact H1]; reflexivity. }
    destruct (negb (fd (ftp w) =? -1)
              && negb (session request =? current_session (ftp w))
              && (idle_ms w <? FTP_SESSION_TIMEOUT)).
    { apply session_inv_push. eapply session_inv_same; [| |exact H1]; reflexivity. }
    pose proof (session_inv_reclaim_idle request (now_ms w) _ H1) as H2.
    pose proof (mute_reclaim_idle request (now_ms w) (prepared request w)) as M.
    assert (Hr : reply (reclaim_idle request (now_ms w) (prepared request w))
                 = setup_reply request).
    { unfold reclaim_idle, close_session, FS_close.
      destruct (_ && _); fields; exact Pr. }
    pose proof (session_inv_dispatch request (now_ms w) _ Hs (conj Hsz Hle) Hr H2)
      as H3.
    destruct (dispatch request (now_ms w)
                (reclaim_idle request (now_ms w) (prepared request w)))
      as [o w2].
    apply session_inv_finish. exact H3.
  - unfold ftp_worker_step. rewrite Hre.
    assert (Egt : (size request >? Z.of_nat DATA_LEN) = true).
    { unfold DATA_LEN. rewrite Z.gtb_ltb. apply Z.ltb_lt. lia. }
    rewrite Egt. apply session_inv_push.
    eapply session_inv_same; [| |exact H]; reflexivity.
Qed.

Lemma session_inv_initial {FS : Type} {F : Filesystem FS}
  (s : FS) (clk : nat -> Z) : session_inv (initial_world s clk).
Proof.
  unfold session_inv, initial_world. fields.
  cbn [one_handle_always open_handles Z.eqb]. tauto.
Qed.

(** C3: along any sequence of requests (each with a session id that is a
    byte and a size that is a byte), starting from a state in which the
    single-file discipline holds, it holds ever after: at every instant at
    most one descriptor is open, the open descriptors are exactly [fd],
    and a file is open if and only if a session owns it.  It holds at
    start-up. *)
Theorem single_open_file_invariant {FS : Type} {F : Filesystem FS}
  (requests : list pending_ftp) (w : World FS) :
  Forall (fun r => 0 <= session r < 256 /\ 0 <= size r < 256) requests ->
  session_inv w ->
  let w' := ftp_worker requests w in
  one_handle_always (trace w') /\
  open_handles (trace w') = (if fd (ftp w') =? -1 then [] else [fd (ftp w')]) /\
  (fd (ftp w') <> -1 <-> current_session (ftp w') <> -1).
Proof.
  intros Hwf. revert w. induction Hwf as [|request rest [Hs Hsz] _ IH];
    intros w H; cbn [ftp_worker].
  - destruct H as (H1 & H2 & H3). repeat split; auto; tauto.
  - apply IH. apply session_inv_step; [lia | lia | exact H].
Qed.

Lemma single_open_file_invariant_witness :
  let w' := ftp_worker
              [RamFS.open_a; RamFS.request 11 1 BurstReadFile 0 0 [];
               RamFS.request 20 2 TerminateSession 0 0 [];
               RamFS.request 21 2 OpenFileRO 2 0 RamFS.path_a]
              RamFS.boot in
  one_handle_always (trace w') /\
  open_handles (trace w') = (if fd (ftp w') =? -1 then [] else [fd (ftp w')]) /\
  (fd (ftp w') <> -1 <-> current_session (ftp w') <> -1).
Proof.
  apply (single_open_file_invariant
           [RamFS.open_a; RamFS.request 11 1 BurstReadFile 0 0 [];
            RamFS.request 20 2 TerminateSession 0 0 [];
            RamFS.request 21 2 OpenFileRO 2 0 RamFS.path_a] RamFS.boot).
  - repeat (apply Forall_cons; [vm_compute; intuition discriminate|]).
    apply Forall_nil.
  - vm_compute. intuition.
Defined.

(** ** The replies of one request *)

Lemma burst_acks_nth (request : pending_ftp) (max_read : Z)
  (chunks : list (list Z)) :
  forall (i : Z) (j : nat) (r : pending_ftp),
  nth_error (burst_acks request max_read i chunks) j = Some r ->
  seq_number r = (seq_number request + 1 + (i + Z.of_nat j)) mod UINT16_MOD /\
  req_opcode r = opcode request /\ opcode r = Ack.
Proof.
  induction chunks as [|c chunks IH]; intros i j r H.
  - destruct j; discriminate.
  - destruct j as [|j]; cbn [burst_acks nth_error] in H.
    + injection H as <-. unfold burst_ack. fields. rewrite Z.add_0_r. auto.
    + apply IH in H. destruct H as (H1 & H2 & H3).
      rewrite H1. repeat split; auto. f_equal. lia.
Qed.

Lemma length_burst_acks (request : pending_ftp) (max_read : Z)
  (chunks : list (list Z)) (i : Z) :
  length (burst_acks request max_read i chunks) = length chunks.
Proof.
  revert i. induction chunks as [|c chunks IH]; intros i; cbn [burst_acks length];
    auto.
Qed.

Lemma mute_dispatch {FS : Type} {F : Filesystem FS}
  (request : pending_ftp) (now : Z) (w : World FS) :
  opcode request <> BurstReadFile ->
  mute w (snd (dispatch request now w)).
Proof.
  intros Hne. unfold dispatch.
  destruct (opcode request); try congruence; cbn [snd];
    auto using mute_op_terminate, mute_op_open_ro, mute_op_open_wo, mute_refl;
    apply mute_quiet;
    auto using quiet_reply_error, quiet_ftp_list_dir, quiet_op_read,
      quiet_op_write, quiet_op_mkdir, quiet_op_unlink, quiet_op_crc32,
      quiet_op_rename, quiet_refl.
  quiet_steps.
Qed.

(** The messages a dispatch sends: message number [j] carries the
    request's sequence number plus [1 + j], and the reply it leaves
    carries the next one. *)
Lemma dispatch_sends {FS : Type} {F : Filesystem FS}
  (request : pending_ftp) (now : Z) (w : World FS) :
  0 <= size request <= 239 ->
  reply w = setup_reply request ->
  exists l,
    sent (trace (snd (dispatch request now w))) = sent (trace w) ++ l /\
    (forall j r, nth_error l j = Some r ->
       seq_number r = (seq_number request + 1 + Z.of_nat j) mod UINT16_MOD /\
       req_opcode r = opcode request /\ opcode r = Ack) /\
    seq_number (reply (snd (dispatch request now w)))
      = (seq_number request + 1 + Z.of_nat (length l)) mod UINT16_MOD /\
    req_opcode (reply (snd (dispatch request now w))) = opcode request /\
    (opcode request <> BurstReadFile -> l = []).
Proof.
  intros Hsz Hr.
  assert (Hmute : forall w', mute w w' ->
    sent (trace w') = sent (trace w) ++ [] /\
    (forall j r, nth_error (@nil pending_ftp) j = Some r ->
       seq_number r = (seq_number request + 1 + Z.of_nat j) mod UINT16_MOD /\
       req_opcode r = opcode request /\ opcode r = Ack) /\
    seq_number (reply w')
      = (seq_number request + 1 + Z.of_nat (@length pending_ftp [])) mod UINT16_MOD /\
    req_opcode (reply w') = opcode request /\
    (opcode request <> BurstReadFile -> @nil pending_ftp = [])).
  { intros w' (M1 & M2 & M3 & _). rewrite app_nil_r, M2, M3, Hr.
    cbn [length Z.of_nat]. rewrite Z.add_0_r. unfold setup_reply. fields.
    split; [exact M1|]. split; [intros [|j] r0 Hj; discriminate|].
    repeat split; auto. }
  assert (Hcase : opcode request = BurstReadFile
                  \/ opcode request <> BurstReadFile).
  { destruct (opcode request); (left; reflexivity) || (right; discriminate). }
  destruct Hcase as [Eop|Hne];
    [|exists []; apply Hmute; apply mute_dispatch; exact Hne].
  (* BurstReadFile *)
  assert (Hd : dispatch request now w = op_burst_read request w)
    by (unfold dispatch; rewrite Eop; reflexivity).
  rewrite Hd. clear Hd. unfold op_burst_read.
  destruct (fd (ftp w) =? -1);
    [exists []; apply Hmute, mute_quiet, quiet_reply_error|].
  destruct (mode (ftp w));
    [|exists []; apply Hmute, mute_quiet, quiet_reply_error].
  destruct (fs_lseek (fd (ftp w)) (offset request) (fs w)) as [pos s].
  destruct (pos =? -1).
  { exists []. apply Hmute, mute_quiet. cbn [snd]. quiet_steps. }
  pose proof (burst_loop_spec request (burst_max_read request) transfer_size
                (burst_max_read_range request Hsz) 0 (set_fs s w)) as B.
  fields. rewrite Hr in B. specialize (B (burst_ready_setup request)).
  destruct (read_chunks transfer_size (fd (ftp w)) (burst_max_read request) s)
    as [[chunks e] s'].
  cbv zeta in B.
  destruct B as (B1 & _ & _ & _ & _ & _ & _ & _ & B9 & _).
  set (w' := burst_loop transfer_size 0 request (burst_max_read request)
               (set_fs s w)) in *.
  exists (burst_acks request (burst_max_read request) 0 chunks).
  assert (Hsnd : forall b : bool, snd (if b then (SkipPush, w') else (PushReply, w'))
                                  = w') by (intros []; reflexivity).
  rewrite Hsnd, length_burst_acks.
  destruct B9 as (_ & R2 & R3 & _).
  split; [exact B1|]. split.
  - intros j r Hj. apply burst_acks_nth in Hj. rewrite Z.add_0_l in Hj.
    exact Hj.
  - rewrite Z.add_0_l in R2. repeat split; auto. congruence.
Qed.

Lemma nth_error_snoc {A : Type} (l : list A) (x y : A) (j : nat) :
  nth_error (l ++ [x]) j = Some y ->
  ((j < length l)%nat /\ nth_error l j = Some y) \/ (j = length l /\ y = x).
Proof.
  intros H. destruct (Nat.lt_ge_cases j (length l)) as [Hlt|Hge].
  - left. rewrite nth_error_app1 in H by exact Hlt. auto.
  - right. rewrite nth_error_app2 in H by exact Hge.
    destruct (j - length l)%nat as [|k] eqn:E.
    + cbn in H. injection H as <-. split; [lia | reflexivity].
    + cbn in H. destruct k; discriminate.
Qed.

(** One reply, sent from the prepared reply with its body changed. *)
Lemma single_reply_numbers (request r : pending_ftp) :
  same_header (setup_reply request) r ->
  forall j x, nth_error [r] j = Some x ->
  seq_number x = (seq_number request + 1 + Z.of_nat j) mod UINT16_MOD /\
  req_opcode x = opcode request.
Proof.
  intros (H1 & H2 & _) [|[|j]] x Hj; try discriminate.
  injection Hj as <-. rewrite H1, H2. unfold setup_reply. fields.
  rewrite Z.add_0_r. auto.
Qed.

(** C4, as the code has it: a request answered from the cache gets the
    cached reply, whose seq_number is the request's plus one; any other
    request gets replies that all echo its opcode in req_opcode, and of
    which number j (from 0) carries the request's seq_number + 1 + j
    modulo 2^16.  Only BurstReadFile gets more than one reply, so every
    other reply carries the request's seq_number + 1 modulo 2^16. *)
Theorem reply_sequence_numbers {FS : Type} {F : Filesystem FS}
  (request : pending_ftp) (w : World FS) :
  0 <= size request < 256 ->
  let w' := ftp_worker_step request w in
  exists l,
    sent (trace w') = sent (trace w) ++ l /\
    (is_rerequest request (reply w) = true ->
     l = [reply w] /\ seq_number (reply w) = seq_number request + 1) /\
    (is_rerequest request (reply w) = false ->
     (forall j r, nth_error l j = Some r ->
        seq_number r = (seq_number request + 1 + Z.of_nat j) mod UINT16_MOD /\
        req_opcode r = opcode request) /\
     (opcode request <> BurstReadFile -> (length l <= 1)%nat)).
Proof.
  intros Hsz w'. subst w'.
  destruct (is_rerequest request (reply w)) eqn:Hre.
  { unfold ftp_worker_step. rewrite Hre. exists [reply w].
    pose proof (ftp_push_replies_frame (reply w) w) as P. cbv zeta in P.
    split; [apply P|]. split; [|discriminate]. intros _. split; [reflexivity|].
    apply is_rerequest_true in Hre. symmetry. apply Hre. }
  destruct (prepared_fields request w) as (Pf & Pr & Ps & Pc & Pt & Ptr).
  destruct (Z_le_gt_dec (size request) 239) as [Hle|Hgt].
  - rewrite (ftp_worker_step_checked request w Hre Hle). cbv zeta.
    destruct (negb (session request =? current_session (ftp w))
              && is_terminate_or_reset (opcode request)).
    { exists [with_opcode Ack (setup_reply request)].
      match goal with |- context [ftp_push_replies ?r ?x] =>
        pose proof (ftp_push_replies_frame r x) as P end.
      cbv zeta in P. fields. rewrite Ptr in P.
      split; [apply P|]. split; [discriminate|]. intros _. split; [|auto].
      apply single_reply_numbers. unfold same_header. fields. repeat split. }
    destruct (negb (fd (ftp w) =? -1)
              && negb (session request =? current_session (ftp w))
              && (idle_ms w <? FTP_SESSION_TIMEOUT)).
    { exists [ftp_error (setup_reply request) InvalidSession (errno (fs w))].
      match goal with |- context [ftp_push_replies ?r ?x] =>
        pose proof (ftp_push_replies_frame r x) as P end.
      cbv zeta in P. unfold reply_error in P. fields. rewrite Ptr in P.
      split; [apply P|]. split; [discriminate|]. intros _. split; [|auto].
      apply single_reply_numbers, same_header_ftp_error. }
    set (w1 := reclaim_idle request (now_ms w) (prepared request w)).
    pose proof (mute_reclaim_idle request (now_ms w) (prepared request w)) as M.
    fold w1 in M. destruct M as (M1 & _). rewrite Ptr in M1.
    assert (Hr : reply w1 = setup_reply request).
    { unfold w1, reclaim_idle, close_session, FS_close.
      destruct (_ && _); fields; exact Pr. }
    destruct (dispatch_sends request (now_ms w) w1 (conj (proj1 Hsz) Hle) Hr)
      as (l & D1 & D2 & D3 & D4 & D5).
    rewrite M1 in D1.
    destruct (dispatch request (now_ms w) w1) as [o w2]. cbn [snd] in *.
    destruct o; cbn [finish].
    + exists (l ++ [reply w2]).
      pose proof (ftp_push_replies_frame (reply w2) w2) as P. cbv zeta in P.
      destruct P as (_ & _ & _ & _ & _ & _ & _ & _ & P9 & _).
      rewrite P9, D1, <- app_assoc.
      split; [reflexivity|]. split; [discriminate|]. intros _. split.
      * intros j r Hj. apply nth_error_snoc in Hj.
        destruct Hj as [[_ Hj]|[-> ->]]; [|auto].
        destruct (D2 j r Hj) as (A & B & _). auto.
      * intros Hne. rewrite (D5 Hne). cbn. lia.
    + exists l. split; [exact D1|]. split; [discriminate|]. intros _.
      split; [|intros Hne; rewrite (D5 Hne); cbn; lia].
      intros j r Hj. destruct (D2 j r Hj) as (A & B & _). auto.
    + exists l. split; [exact D1|]. split; [discriminate|]. intros _.
      split; [|intros Hne; rewrite (D5 Hne); cbn; lia].
      intros j r Hj. destruct (D2 j r Hj) as (A & B & _). auto.
  - unfold ftp_worker_step. rewrite Hre.
    assert (Egt : (size request >? Z.of_nat DATA_LEN) = true).
    { unfold DATA_LEN. rewrite Z.gtb_ltb. apply Z.ltb_lt. lia. }
    rewrite Egt.
    exists [ftp_error (setup_reply request) InvalidDataSize (errno (fs w))].
    match goal with |- context [ftp_push_replies ?r ?x] =>
      pose proof (ftp_push_replies_frame r x) as P end.
    cbv zeta in P. unfold reply_error in P. fields.
    split; [apply P|]. split; [discriminate|]. intros _. split; [|auto].
    apply single_reply_numbers, same_header_ftp_error.
Qed.

Lemma reply_sequence_numbers_witness :
  let request := RamFS.request 11 1 BurstReadFile 0 0 [] in
  let w' := ftp_worker_step request RamFS.opened in
  exists l,
    sent (trace w') = sent (trace RamFS.opened) ++ l /\
    (is_rerequest request (reply RamFS.opened) = true ->
     l = [reply RamFS.opened]
     /\ seq_number (reply RamFS.opened) = seq_number request + 1) /\
    (is_rerequest request (reply RamFS.opened) = false ->
     (forall j r, nth_error l j = Some r ->
        seq_number r = (seq_number request + 1 + Z.of_nat j) mod UINT16_MOD /\
        req_opcode r = opcode request) /\
     (opcode request <> BurstReadFile -> (length l <= 1)%nat)).
Proof.
  apply (reply_sequence_numbers (RamFS.request 11 1 BurstReadFile 0 0 [])
           RamFS.opened).
  vm_compute. intuition discriminate.
Defined.

(** C4 as it was claimed fails: the second reply of a burst read carries
    the request's seq_number + 2, and a reply sent again from the cache
    echoes the opcode of the request that produced it, not that of the
    request that triggered the resend. *)
Lemma reply_seq_plus_one_counterexample :
  (let request := RamFS.request 11 1 BurstReadFile 0 0 [] in
   let w' := ftp_worker_step request RamFS.opened in
   exists l r,
     sent (trace w') = sent (trace RamFS.opened) ++ l /\ In r l /\
     seq_number r <> (seq_number request + 1) mod UINT16_MOD) /\
  (let request := RamFS.request 10 1 ReadFile 0 0 [] in
   let w' := ftp_worker_step request RamFS.opened in
   exists l r,
     sent (trace w') = sent (trace RamFS.opened) ++ l /\ In r l /\
     req_opcode r <> opcode request).
Proof.
  split.
  - exists (skipn 1 (sent (trace (ftp_worker_step
                       (RamFS.request 11 1 BurstReadFile 0 0 []) RamFS.opened)))).
    exists (nth 2 (sent (trace (ftp_worker_step
                       (RamFS.request 11 1 BurstReadFile 0 0 []) RamFS.opened)))
              zero_reply).
    split; [vm_compute; reflexivity|].
    split; [vm_compute; right; left; reflexivity|].
    vm_compute. discriminate.
  - exists [reply RamFS.opened]. exists (reply RamFS.opened).
    split; [vm_compute; reflexivity|].
    split; [left; reflexivity|].
    vm_compute. discriminate.
Qed.

(** ** Burst read *)

Lemma burst_acks_nth_ack (request : pending_ftp) (max_read : Z)
  (chunks : list (list Z)) :
  forall (i : Z) (j : nat) (bytes : list Z),
  nth_error chunks j = Some bytes ->
  nth_error (burst_acks request max_read i chunks) j
  = Some (burst_ack request max_read (i + Z.of_nat j) bytes).
Proof.
  induction chunks as [|c chunks IH]; intros i j bytes H.
  - destruct j; discriminate.
  - destruct j as [|j]; cbn [burst_acks nth_error] in *.
    + injection H as <-. rewrite Z.add_0_r. reflexivity.
    + rewrite (IH (i + 1) j bytes H). do 2 f_equal. lia.
Qed.

(** C5: a BurstReadFile request from the session that owns a file open
    for reading, once the seek has succeeded.  The chunk size is 239 when
    the request's size is 0 and the request's size otherwise; at most 500
    chunks are read; chunk number i (from 0) is answered by an ACK with
    offset = request.offset + i * max_read (32 bits), size = the bytes
    read, the bytes followed by zeros as data, and burst_complete set
    exactly when fewer than max_read bytes were read or i = 499; a read of
    zero bytes ends the stream with an EndOfFile Nack, and after 500 ACKs
    nothing more is sent. *)
Theorem burst_read_stream {FS : Type} {F : Filesystem FS}
  (request : pending_ftp) (w : World FS) (pos : Z) (s : FS) :
  is_rerequest request (reply w) = false ->
  0 <= size request <= 239 ->
  opcode request = BurstReadFile ->
  fd (ftp w) <> -1 ->
  mode (ftp w) = Read ->
  session request = current_session (ftp w) ->
  fs_lseek (fd (ftp w)) (offset request) (fs w) = (pos, s) ->
  pos <> -1 ->
  let max_read := burst_max_read request in
  let '(chunks, e, s') := read_chunks 500 (fd (ftp w)) max_read s in
  let w' := ftp_worker_step request w in
  max_read = (if size request =? 0 then 239 else size request) /\
  (length chunks <= 500)%nat /\
  fs w' = s' /\
  exists tail,
    sent (trace w') = sent (trace w) ++ burst_acks request max_read 0 chunks ++ tail /\
    (forall (i : nat) (bytes : list Z),
       nth_error chunks i = Some bytes ->
       exists r,
         nth_error (burst_acks request max_read 0 chunks) i = Some r /\
         opcode r = Ack /\
         offset r = (offset request + Z.of_nat i * max_read) mod UINT32_MOD /\
         size r = Z.of_nat (length bytes) /\
         data r = bytes ++ repeat 0 (239 - length bytes) /\
         burst_complete r
         = ((Z.of_nat (length bytes) <? max_read) || (Z.of_nat i =? 499))) /\
    match e with
    | BurstWindow => length chunks = 500%nat /\ tail = []
    | BurstEOF =>
        exists nack, tail = [nack] /\ opcode nack = Nack /\
                     nth 0 (data nack) 0 = error_code EndOfFile /\
                     size nack = 1
    | BurstError => exists nack, tail = [nack] /\ opcode nack = Nack
    end.
Proof.
  intros Hre Hsz Hop Hfd Hm Hs Hl Hp max_read.
  destruct (prepared_fields request w) as (Pf & Pr & Ps & Pc & Pt & Ptr).
  pose proof (burst_loop_spec request max_read transfer_size
                (burst_max_read_range request Hsz) 0
                (set_fs s (prepared request w))) as B.
  fields. rewrite Pf, Pr in B. specialize (B (burst_ready_setup request)).
  change transfer_size with 500%nat in B.
  destruct (read_chunks 500 (fd (ftp w)) max_read s) as [[chunks e] s'].
  cbv zeta in B.
  destruct B as (B1 & B2 & _ & _ & _ & _ & _ & B8 & _ & B10).
  rewrite Ptr in B1.
  rewrite (ftp_worker_step_dispatch request w Hre (proj2 Hsz))
    by (right; exact Hs).
  assert (Hd : dispatch request (now_ms w) (prepared request w)
               = op_burst_read request (prepared request w))
    by (unfold dispatch; rewrite Hop; reflexivity).
  rewrite Hd. clear Hd.
  rewrite (op_burst_read_loop request (prepared request w) pos s);
    try rewrite Pf; try rewrite Ps; auto.
  cbv zeta. fold max_read. change transfer_size with 500%nat.
  set (w2 := burst_loop 500 0 request max_read (set_fs s (prepared request w)))
    in *.
  split; [reflexivity|]. split; [exact B8|].
  assert (Hacks : forall (i : nat) (bytes : list Z),
            nth_error chunks i = Some bytes ->
            exists r,
              nth_error (burst_acks request max_read 0 chunks) i = Some r /\
              opcode r = Ack /\
              offset r = (offset request + Z.of_nat i * max_read) mod UINT32_MOD /\
              size r = Z.of_nat (length bytes) /\
              data r = bytes ++ repeat 0 (239 - length bytes) /\
              burst_complete r
              = ((Z.of_nat (length bytes) <? max_read) || (Z.of_nat i =? 499))).
  { intros i bytes Hi. exists (burst_ack request max_read (0 + Z.of_nat i) bytes).
    split; [apply burst_acks_nth_ack; exact Hi|].
    rewrite Z.add_0_l. unfold burst_ack. fields. repeat split. }
  destruct e.
  - (* the window of 500 packets is used up *)
    destruct B10 as (J1 & _ & J3).
    assert (Hack : opcode (reply w2) = Ack).
    { apply J3. destruct chunks; [discriminate J1 | discriminate]. }
    rewrite Hack. cbn [is_Nack negb finish].
    split; [exact B2|]. exists []. rewrite app_nil_r. auto.
  - (* a read of zero bytes *)
    destruct B10 as (J1 & J2 & J3). rewrite J1. cbn [is_Nack negb finish].
    pose proof (ftp_push_replies_frame (reply w2) w2) as P. cbv zeta in P.
    destruct P as (_ & P2 & _ & _ & _ & _ & _ & _ & P9 & _).
    split; [rewrite P2; exact B2|].
    exists [reply w2]. rewrite P9, B1, <- app_assoc.
    split; [reflexivity|]. split; [exact Hacks|].
    exists (reply w2). auto.
  - (* a failed read *)
    rewrite B10. cbn [is_Nack negb finish].
    pose proof (ftp_push_replies_frame (reply w2) w2) as P. cbv zeta in P.
    destruct P as (_ & P2 & _ & _ & _ & _ & _ & _ & P9 & _).
    split; [rewrite P2; exact B2|].
    exists [reply w2]. rewrite P9, B1, <- app_assoc.
    split; [reflexivity|]. split; [exact Hacks|].
    exists (reply w2). auto.
Qed.

Lemma burst_read_stream_witness :
  let request := RamFS.request 11 1 BurstReadFile 0 0 [] in
  let w' := ftp_worker_step request RamFS.opened in
  exists tail nack,
    sent (trace w')
    = sent (trace RamFS.opened)
      ++ burst_acks request 239 0 [repeat 7 239; repeat 7 61] ++ tail /\
    tail = [nack] /\ opcode nack = Nack /\
    nth 0 (data nack) 0 = error_code EndOfFile /\ size nack = 1.
Proof.
  assert (Hsz : 0 <= size (RamFS.request 11 1 BurstReadFile 0 0 []) <= 239)
    by (vm_compute; intuition discriminate).
  assert (Hfd : fd (ftp RamFS.opened) <> -1) by (vm_compute; discriminate).
  assert (Hpos : 0 <> -1) by discriminate.
  pose proof (burst_read_stream (RamFS.request 11 1 BurstReadFile 0 0 [])
                RamFS.opened 0
                (snd (RamFS.lseek 3 0 (fs RamFS.opened)))
                eq_refl Hsz eq_refl Hfd eq_refl eq_refl eq_refl Hpos) as H.
  cbv zeta in H.
  eassert (E : read_chunks 500 (fd (ftp RamFS.opened))
                 (burst_max_read (RamFS.request 11 1 BurstReadFile 0 0 []))
                 (snd (RamFS.lseek 3 0 (fs RamFS.opened))) = _)
    by (vm_compute; reflexivity).
  rewrite E in H. clear E.
  destruct H as (_ & _ & _ & tail & Hsent & _ & nack & Htail & Hnack).
  exists tail, nack. split; [exact Hsent|]. split; [exact Htail | exact Hnack].
Defined.

(** ** Rename *)

(** C7: a Rename request that reaches the dispatcher.  With
    len1 = strnlen(data, 237) and len2 = strnlen(data + len1 + 1,
    239 - len1 - 1), the payload passes the check exactly when
    data[len1] = 0 and either len1 + len2 + 1 = size, or
    size - (len1 + len2) = 2 and data[238] = 0.  When it passes, rename is
    called on the two names and the reply is an ACK, or the errno Nack if
    rename fails; when it does not, the reply is a Nack with
    InvalidDataSize and the filesystem is not called.  The payloads
    "a\0b\0" with size 4 and "a\0b" with size 3 pass; "ab" with size 2
    does not. *)
Theorem rename_validation {FS : Type} {F : Filesystem FS}
  (request : pending_ftp) (now : Z) (w : World FS) :
  0 <= size request < 256 ->
  opcode request = Rename ->
  length (data (reply w)) = DATA_LEN ->
  let len1 := strnlen (data request) 237 in
  let len2 := strnlen (skipn (len1 + 1) (data request)) (239 - len1 - 1) in
  let buf := store 238 0 (data request) in
  (rename_payload_ok request = true <->
   nth len1 (data request) 0 = 0 /\
   (Z.of_nat (len1 + len2 + 1) = size request \/
    (size request - Z.of_nat (len1 + len2) = 2 /\
     nth 238 (data request) 0 = 0))) /\
  (rename_payload_ok request = true ->
   dispatch request now w =
   (PushReply,
    let '(rc, s) := fs_rename (cstr buf) (cstr (skipn (len1 + 1) buf)) (fs w) in
    if rc =? 0 then upd_reply (with_opcode Ack) (set_fs s w)
    else reply_error FailErrno (set_fs s w))) /\
  (rename_payload_ok request = false ->
   dispatch request now w = (PushReply, reply_error InvalidDataSize w) /\
   fs (reply_error InvalidDataSize w) = fs w /\
   opcode (reply (reply_error InvalidDataSize w)) = Nack /\
   nth 0 (data (reply (reply_error InvalidDataSize w))) 0
   = error_code InvalidDataSize /\
   size (reply (reply_error InvalidDataSize w)) = 1) /\
  rename_payload_ok (RamFS.request 1 1 Rename 4 0 [97; 0; 98; 0]) = true /\
  rename_payload_ok (RamFS.request 1 1 Rename 3 0 [97; 0; 98]) = true /\
  rename_payload_ok (RamFS.request 1 1 Rename 2 0 [97; 98]) = false.
Proof.
  intros Hsz Hop Hlen len1 len2 buf.
  assert (Hd : dispatch request now w = (PushReply, op_rename request w))
    by (unfold dispatch; rewrite Hop; reflexivity).
  split; [apply rename_payload_ok_iff; exact Hsz|].
  split; [|split].
  - intros Hok. rewrite Hd. unfold op_rename. rewrite Hok. cbn [negb].
    change (DATA_LEN - 2)%nat with 237%nat.
    change (DATA_LEN - 1)%nat with 238%nat.
    fold len1. fold buf.
    destruct (fs_rename (cstr buf) (cstr (skipn (len1 + 1) buf)) (fs w))
      as [rc s].
    destruct (rc =? 0); reflexivity.
  - intros Hno. rewrite Hd. unfold op_rename. rewrite Hno. cbn [negb].
    split; [reflexivity|]. split; [reflexivity|].
    unfold reply_error. fields.
    apply ftp_error_plain; [exact Hlen | discriminate].
  - repeat split; vm_compute; reflexivity.
Qed.

Lemma rename_validation_witness :
  let w := initial_world RamFS.disk_a RamFS.clock_1s in
  snd (dispatch RamFS.rename_a_b 0 w)
  = upd_reply (with_opcode Ack)
      (set_fs (snd (RamFS.rename [97] [98] RamFS.disk_a)) w).
Proof.
  assert (Hsz : 0 <= size RamFS.rename_a_b < 256)
    by (vm_compute; intuition discriminate).
  pose proof (rename_validation RamFS.rename_a_b 0
                (initial_world RamFS.disk_a RamFS.clock_1s)
                Hsz eq_refl eq_refl) as H.
  cbv zeta in H. destruct H as (_ & Hok & _).
  cbv zeta. rewrite (Hok eq_refl). reflexivity.
Defined.

(** ** Directory listing *)

Lemma nth_blit_below (i j : nat) (src buf : list Z) :
  (j < i)%nat -> nth j (blit i src buf) 0 = nth j buf 0.
Proof.
  revert i j src; induction buf as [|h t IH]; intros [|i] [|j] src H;
    simpl; try lia; auto.
  apply IH. lia.
Qed.

Lemma nth_blit_in (i k : nat) (src buf : list Z) :
  (k < length src)%nat -> (i + k < length buf)%nat ->
  nth (i + k) (blit i src buf) 0 = nth k src 0.
Proof.
  revert i k src; induction buf as [|h t IH]; intros i k src Hk Hb;
    simpl in Hb; [lia|].
  destruct i as [|i].
  - destruct src as [|c src]; simpl in Hk; [lia|].
    destruct k as [|k]; simpl; [reflexivity|].
    apply (IH 0%nat k src); lia.
  - simpl. apply IH; lia.
Qed.

(** What gen_dir_entry can return: -1 with nothing or one NUL stored, or
    what snprintf returns for some text. *)
Lemma gen_dir_entry_cases {FS : Type} {F : Filesystem FS}
  (space : Z) (path : list Z) (entry : dirent) (s : FS) :
  let '(required, bytes, _) := gen_dir_entry space path entry s in
  (required = -1 /\ (length bytes <= 1)%nat /\ (bytes <> [] -> 3 <= space)) \/
  (3 <= space /\ exists text, (required, bytes) = snprintf space text).
Proof.
  unfold gen_dir_entry.
  destruct (space <? 3) eqn:E.
  { left. cbn. repeat split; auto. congruence. }
  apply Z.ltb_ge in E.
  destruct (HAVE_DIRENT_DTYPE && _ && _).
  { left. cbn. repeat split; auto. }
  destruct (if HAVE_DIRENT_DTYPE then is_DT_file (d_type entry) else true).
  - destruct (fs_stat _ s) as [[rc st] s1].
    destruct (negb (rc =? 0)); [left; cbn; repeat split; auto|].
    destruct (negb HAVE_DIRENT_DTYPE && st_isdir st);
      right; (split; [exact E|]); eexists; reflexivity.
  - right. split; [exact E|]. eexists; reflexivity.
Qed.

(** The bytes gen_dir_entry stores fit the space it was given; when the
    returned length is below the space, they are that many bytes and the
    closing NUL. *)
Lemma gen_dir_entry_bytes {FS : Type} {F : Filesystem FS}
  (space : Z) (path : list Z) (entry : dirent) (s : FS) :
  0 <= space ->
  let '(required, bytes, _) := gen_dir_entry space path entry s in
  -1 <= required /\ Z.of_nat (length bytes) <= space /\
  (0 <= required < space -> Z.of_nat (length bytes) = required + 1).
Proof.
  intros Hsp. pose proof (gen_dir_entry_cases space path entry s) as C.
  destruct (gen_dir_entry space path entry s) as [[required bytes] s'].
  destruct C as [(C1 & C2 & C3)|(C1 & text & C2)].
  - subst required. split; [lia|]. split; [|lia].
    destruct bytes as [|b bytes]; [cbn; lia|].
    assert (3 <= space) by (apply C3; discriminate). lia.
  - unfold snprintf in C2. injection C2 as -> ->.
    rewrite length_app, length_firstn. cbn [length]. lia.
Qed.

Lemma pack_entries_frame {FS : Type} {F : Filesystem FS}
  (entries : list dirent) (path : list Z) :
  forall (index : Z) (w : World FS),
  0 <= index <= 239 ->
  length (data (reply w)) = DATA_LEN ->
  let '(index', w') := pack_entries entries index path w in
  index <= index' <= 239 /\
  length (data (reply w')) = DATA_LEN /\
  (forall j, (j < Z.to_nat index)%nat ->
     nth j (data (reply w')) 0 = nth j (data (reply w)) 0).
Proof.
  induction entries as [|entry rest IH]; intros index w Hi Hl;
    cbn [pack_entries].
  - repeat split; auto; lia.
  - change (Z.of_nat DATA_LEN) with 239.
    pose proof (gen_dir_entry_bytes (239 - index) path entry (fs w)) as G.
    destruct (gen_dir_entry (239 - index) path entry (fs w))
      as [[required bytes] s1].
    destruct G as (G1 & G2 & G3); [lia|].
    set (w1 := upd_reply _ (set_fs s1 w)).
    assert (Hl1 : length (data (reply w1)) = DATA_LEN)
      by (unfold w1; fields; rewrite length_blit; exact Hl).
    assert (Hf1 : forall j, (j < Z.to_nat index)%nat ->
              nth j (data (reply w1)) 0 = nth j (data (reply w)) 0).
    { intros j Hj. unfold w1. fields. apply nth_blit_below. exact Hj. }
    destruct (required <? 0) eqn:E1.
    { specialize (IH index w1 Hi Hl1).
      destruct (pack_entries rest index path w1) as [index' w'].
      destruct IH as (I1 & I2 & I3). repeat split; auto; try lia.
      intros j Hj. rewrite I3 by exact Hj. apply Hf1. exact Hj. }
    apply Z.ltb_ge in E1.
    destruct (required + index >=? 239) eqn:E2.
    { repeat split; auto; lia. }
    rewrite Z.geb_leb in E2. apply Z.leb_gt in E2.
    rewrite (Z.mod_small (index + (required + 1)) 256) by lia.
    assert (Hi2 : 0 <= index + (required + 1) <= 239) by lia.
    specialize (IH (index + (required + 1)) w1 Hi2 Hl1).
    destruct (pack_entries rest (index + (required + 1)) path w1)
      as [index' w'].
    destruct IH as (I1 & I2 & I3). repeat split; auto; try lia.
    intros j Hj. rewrite I3 by lia. apply Hf1. exact Hj.
Qed.

Lemma skip_entries_length {FS : Type} {F : Filesystem FS}
  (entries : list dirent) (path : list Z) :
  forall (skip : Z) (w : World FS),
  length (data (reply w)) = DATA_LEN ->
  length (data (reply (snd (skip_entries entries skip path w)))) = DATA_LEN.
Proof.
  induction entries as [|entry rest IH]; intros skip w Hl; cbn [skip_entries].
  - destruct (skip >? 0); exact Hl.
  - destruct (skip >? 0); [|exact Hl].
    destruct (gen_dir_entry (Z.of_nat DATA_LEN) path entry (fs w))
      as [[needed bytes] s1].
    destruct (_ || _); apply IH; fields; rewrite length_blit; exact Hl.
Qed.

(** Skipping as many entries as the directory has, or more, leaves none
    for packing. *)
Lemma skip_entries_exhausts {FS : Type} {F : Filesystem FS}
  (entries : list dirent) (path : list Z) :
  forall (skip : Z) (w : World FS),
  Z.of_nat (length entries) <= skip ->
  fst (skip_entries entries skip path w) = None \/
  fst (skip_entries entries skip path w) = Some [].
Proof.
  induction entries as [|entry rest IH]; intros skip w Hlen;
    cbn [skip_entries].
  - destruct (skip >? 0); cbn [fst]; auto.
  - cbn [length] in Hlen.
    assert (Hgt : (skip >? 0) = true)
      by (rewrite Z.gtb_ltb; apply Z.ltb_lt; lia).
    rewrite Hgt.
    destruct (gen_dir_entry (Z.of_nat DATA_LEN) path entry (fs w))
      as [[needed bytes] s1].
    destruct (_ || _); apply IH; lia.
Qed.

(** C8: a ListDirectory request whose path passes the name check and
    whose directory opens.  Skipping: with the skip counter at 0 nothing
    is skipped; a directory that ends while the counter is above 0 ends
    the skipping with nothing to pack; otherwise each entry read is given
    to gen_dir_entry, and the counter stays when the result is negative
    or above 239 and goes down by one when the result is between 0 and
    239.  Packing: it ends with the index where it is when the directory
    ends; an entry whose result is negative is dropped, the first entry
    that does not fit in what is left of data ends the packing, and an
    entry that fits is stored with its closing NUL at the index, which
    moves past it; the stored record is still there, below the index,
    when packing ends.  The reply: EndOfFile when the directory ends
    during skipping or no entry was packed; otherwise an ACK whose size
    is the index, with the packed records below the index and zeros from
    the index on.  In particular an offset that is not below the number
    of entries of the directory is answered with EndOfFile. *)
Theorem list_directory_spec {FS : Type} {F : Filesystem FS}
  (request : pending_ftp) (w : World FS) (entries : list dirent) (s : FS) :
  ftp_check_name_len request = true ->
  length (data (reply w)) = DATA_LEN ->
  fs_opendir (list_dir_path request) (fs w) = (Some entries, s) ->
  let path := list_dir_path request in
  (forall (l : list dirent) (w0 : World FS),
     skip_entries l 0 path w0 = (Some l, w0)) /\
  (forall (skip : Z) (w0 : World FS),
     0 < skip -> skip_entries [] skip path w0 = (None, w0)) /\
  (forall (entry : dirent) (rest : list dirent) (skip : Z) (w0 : World FS),
     0 < skip ->
     let '(needed, bytes, s1) := gen_dir_entry 239 path entry (fs w0) in
     let w1 := upd_reply (fun r => with_data (blit 0 bytes (data r)) r)
                 (set_fs s1 w0) in
     (needed < 0 \/ 239 < needed ->
      skip_entries (entry :: rest) skip path w0
      = skip_entries rest skip path w1) /\
     (0 <= needed <= 239 ->
      skip_entries (entry :: rest) skip path w0
      = skip_entries rest (skip - 1) path w1)) /\
  (forall (index : Z) (w0 : World FS),
     pack_entries [] index path w0 = (index, w0)) /\
  (forall (entry : dirent) (rest : list dirent) (index : Z) (w0 : World FS),
     0 <= index <= 239 ->
     length (data (reply w0)) = DATA_LEN ->
     let '(required, bytes, s1) :=
       gen_dir_entry (239 - index) path entry (fs w0) in
     let w1 := upd_reply (fun r =>
                 with_data (blit (Z.to_nat index) bytes (data r)) r)
                 (set_fs s1 w0) in
     (required < 0 ->
      pack_entries (entry :: rest) index path w0
      = pack_entries rest index path w1) /\
     (0 <= required -> 239 <= required + index ->
      pack_entries (entry :: rest) index path w0 = (index, w1)) /\
     (0 <= required -> required + index < 239 ->
      pack_entries (entry :: rest) index path w0
      = pack_entries rest (index + required + 1) path w1 /\
      Z.of_nat (length bytes) = required + 1 /\
      index + required + 1
      <= fst (pack_entries (entry :: rest) index path w0) <= 239 /\
      forall k, (k < length bytes)%nat ->
        nth (Z.to_nat index + k)
          (data (reply (snd (pack_entries (entry :: rest) index path w0)))) 0
        = nth k bytes 0)) /\
  (let w0 := set_fs s (upd_reply (with_offset (offset request)) w) in
   let r := reply (ftp_list_dir request w) in
   match skip_entries entries (offset request) path w0 with
   | (None, _) =>
       opcode r = Nack /\ nth 0 (data r) 0 = error_code EndOfFile /\ size r = 1
   | (Some rest, w1) =>
     let '(index, w2) := pack_entries rest 0 path w1 in
     0 <= index <= 239 /\
     (index = 0 ->
      opcode r = Nack /\ nth 0 (data r) 0 = error_code EndOfFile /\ size r = 1) /\
     (index <> 0 ->
      opcode r = Ack /\ size r = index /\
      (forall j, (Z.to_nat index <= j < 239)%nat -> nth j (data r) 0 = 0) /\
      (forall j, (j < Z.to_nat index)%nat ->
         nth j (data r) 0 = nth j (data (reply w2)) 0))
   end) /\
  (Z.of_nat (length entries) <= offset request ->
   let r := reply (ftp_list_dir request w) in
   opcode r = Nack /\ nth 0 (data r) 0 = error_code EndOfFile /\ size r = 1).
Proof.
  intros Hck Hlen Hdir path.
  assert (Hreply :
    let w0 := set_fs s (upd_reply (with_offset (offset request)) w) in
    let r := reply (ftp_list_dir request w) in
    match skip_entries entries (offset request) path w0 with
    | (None, _) =>
        opcode r = Nack /\ nth 0 (data r) 0 = error_code EndOfFile /\ size r = 1
    | (Some rest, w1) =>
      let '(index, w2) := pack_entries rest 0 path w1 in
      0 <= index <= 239 /\
      (index = 0 ->
       opcode r = Nack /\ nth 0 (data r) 0 = error_code EndOfFile /\ size r = 1) /\
      (index <> 0 ->
       opcode r = Ack /\ size r = index /\
       (forall j, (Z.to_nat index <= j < 239)%nat -> nth j (data r) 0 = 0) /\
       (forall j, (j < Z.to_nat index)%nat ->
          nth j (data r) 0 = nth j (data (reply w2)) 0))
    end).
  { cbv zeta. unfold ftp_list_dir. rewrite Hck. cbn [negb]. fields.
    rewrite Hdir. fold path.
    set (w0 := set_fs s (upd_reply (with_offset (offset request)) w)).
    pose proof (skip_entries_length entries path (offset request) w0 Hlen) as Hl1.
    destruct (skip_entries entries (offset request) path w0) as [[rest|] w1];
      cbn [snd] in Hl1.
    + pose proof (pack_entries_frame rest path 0 w1) as Frame.
      destruct (pack_entries rest 0 path w1) as [index w2].
      destruct Frame as (F1 & F2 & F3); [lia | exact Hl1 |].
      split; [lia|].
      destruct (index =? 0) eqn:E0.
      * apply Z.eqb_eq in E0. split; [|congruence]. intros _.
        unfold FS_closedir, reply_error. fields.
        apply ftp_error_plain; [exact F2 | discriminate].
      * apply Z.eqb_neq in E0. split; [congruence|]. intros _.
        unfold FS_closedir.
        destruct (index <? Z.of_nat DATA_LEN) eqn:E1; fields.
        -- split; [reflexivity|]. split; [reflexivity|]. split.
           ++ intros j Hj. apply nth_zero_from; [lia|].
              rewrite F2. unfold DATA_LEN. lia.
           ++ intros j Hj. unfold zero_from.
              rewrite app_nth1 by (rewrite length_firstn, F2; unfold DATA_LEN; lia).
              rewrite nth_firstn.
              destruct (j <? Z.to_nat index)%nat eqn:Ej; [reflexivity|].
              apply Nat.ltb_ge in Ej. lia.
        -- apply Z.ltb_ge in E1. change (Z.of_nat DATA_LEN) with 239 in E1.
           split; [reflexivity|]. split; [reflexivity|]. split.
           ++ intros j Hj. lia.
           ++ intros j Hj. reflexivity.
    + unfold FS_closedir, reply_error. fields.
      apply ftp_error_plain; [exact Hl1 | discriminate]. }
  split; [|split; [|split; [|split; [|split; [|split]]]]].
  - intros l w0. destruct l; reflexivity.
  - intros skip w0 Hskip. cbn [skip_entries].
    assert (Hgt : (skip >? 0) = true) by (rewrite Z.gtb_ltb; apply Z.ltb_lt; lia).
    rewrite Hgt. reflexivity.
  - intros entry rest skip w0 Hskip.
    cbn [skip_entries]. change (Z.of_nat DATA_LEN) with 239.
    assert (Hgt : (skip >? 0) = true) by (rewrite Z.gtb_ltb; apply Z.ltb_lt; lia).
    rewrite Hgt.
    destruct (gen_dir_entry 239 path entry (fs w0)) as [[needed bytes] s1].
    cbv zeta. split.
    + intros [Hneg|Hbig].
      * apply Z.ltb_lt in Hneg. rewrite Hneg. reflexivity.
      * assert (H2 : (needed >? 239) = true)
          by (rewrite Z.gtb_ltb; apply Z.ltb_lt; lia).
        rewrite H2, orb_true_r. reflexivity.
    + intros Hfit.
      assert (H1 : (needed <? 0) = false) by (apply Z.ltb_ge; lia).
      assert (H2 : (needed >? 239) = false)
        by (rewrite Z.gtb_ltb; apply Z.ltb_ge; lia).
      rewrite H1, H2. reflexivity.
  - intros index w0. reflexivity.
  - intros entry rest index w0 Hi Hl0.
    pose proof (pack_entries_frame rest path) as Frame.
    pose proof (gen_dir_entry_bytes (239 - index) path entry (fs w0)) as G.
    cbn [pack_entries]. change (Z.of_nat DATA_LEN) with 239.
    destruct (gen_dir_entry (239 - index) path entry (fs w0))
      as [[required bytes] s1].
    destruct G as (G1 & G2 & G3); [lia|].
    cbv zeta.
    set (w1 := upd_reply _ (set_fs s1 w0)).
    assert (Hl1 : length (data (reply w1)) = DATA_LEN)
      by (unfold w1; fields; rewrite length_blit; exact Hl0).
    split; [|split].
    + intros Hneg. apply Z.ltb_lt in Hneg. rewrite Hneg. reflexivity.
    + intros H0 Hbig.
      assert (H1 : (required <? 0) = false) by (apply Z.ltb_ge; lia).
      assert (H2 : (required + index >=? 239) = true)
        by (rewrite Z.geb_leb; apply Z.leb_le; lia).
      rewrite H1, H2. reflexivity.
    + intros H0 Hfit.
      assert (H1 : (required <? 0) = false) by (apply Z.ltb_ge; lia).
      assert (H2 : (required + index >=? 239) = false)
        by (rewrite Z.geb_leb; apply Z.leb_gt; lia).
      rewrite H1, H2.
      rewrite (Z.mod_small (index + (required + 1)) 256) by lia.
      replace (index + (required + 1)) with (index + required + 1) by lia.
      split; [reflexivity|]. split; [apply G3; lia|].
      assert (Hi2 : 0 <= index + required + 1 <= 239) by lia.
      specialize (Frame (index + required + 1) w1 Hi2 Hl1).
      destruct (pack_entries rest (index + required + 1) path w1)
        as [index' w']. cbn [fst snd].
      destruct Frame as (F1 & _ & F3).
      split; [lia|].
      intros k Hk.
      assert (Hlb : Z.of_nat (length bytes) = required + 1) by (apply G3; lia).
      rewrite F3 by lia.
      unfold w1. fields. apply nth_blit_in; [exact Hk|].
      rewrite Hl0. unfold DATA_LEN. lia.
  - exact Hreply.
  - intros Hoff. cbv zeta in *.
    set (w0 := set_fs s (upd_reply (with_offset (offset request)) w)) in *.
    destruct (skip_entries_exhausts entries path (offset request) w0 Hoff)
      as [Hn|Hn];
      destruct (skip_entries entries (offset request) path w0) as [[rest|] w1];
      cbn [fst] in Hn; try discriminate; try exact Hreply.
    injection Hn as ->. cbn [pack_entries] in Hreply.
    apply Hreply. reflexivity.
Qed.

Lemma list_directory_spec_witness :
  let w := initial_world RamFS.disk_d RamFS.clock_1s in
  let r := reply (ftp_list_dir (RamFS.list_d 1) w) in
  let r2 := reply (ftp_list_dir (RamFS.list_d 2) w) in
  (opcode r = Ack /\ size r = 8 /\
   (forall j, (8 <= j < 239)%nat -> nth j (data r) 0 = 0)) /\
  (opcode r2 = Nack /\ nth 0 (data r2) 0 = error_code EndOfFile /\
   size r2 = 1).
Proof.
  split.
  - pose proof (list_directory_spec (RamFS.list_d 1)
                  (initial_world RamFS.disk_d RamFS.clock_1s)
                  [mk_dirent [120] DT_REG; mk_dirent [121; 121] DT_REG]
                  RamFS.disk_d eq_refl eq_refl eq_refl) as H.
    cbv zeta in H. destruct H as (_ & _ & _ & _ & _ & H & _).
    match type of H with
    | match ?e with _ => _ end =>
        let v := eval vm_compute in e in
        replace e with v in H by (vm_compute; reflexivity)
    end.
    cbv beta iota in H.
    match type of H with
    | let '(_, _) := ?e in _ =>
        let v := eval vm_compute in e in
        replace e with v in H by (vm_compute; reflexivity)
    end.
    cbv beta iota in H.
    destruct H as (_ & _ & H). destruct H as (H1 & H2 & H3 & _); [discriminate|].
    split; [exact H1|]. split; [exact H2|]. exact H3.
  - pose proof (list_directory_spec (RamFS.list_d 2)
                  (initial_world RamFS.disk_d RamFS.clock_1s)
                  [mk_dirent [120] DT_REG; mk_dirent [121; 121] DT_REG]
                  RamFS.disk_d eq_refl eq_refl eq_refl) as H.
    cbv zeta in H. destruct H as (_ & _ & _ & _ & _ & _ & H).
    apply H. vm_compute. discriminate.
Defined.

(** ** Every Nack comes from ftp_error *)

Lemma nack_shape_reply_error {FS : Type} {F : Filesystem FS}
  (error : FTP_ERROR) (w : World FS) :
  length (data (reply w)) = DATA_LEN ->
  nack_shape (reply (reply_error error w)).
Proof.
  intros Hl _. exists (reply w), error, (errno (fs w)). auto.
Qed.

Lemma FS_open_reply {FS : Type} {F : Filesystem FS}
  (path : list Z) (flags : open_flags) (w : World FS) :
  reply (snd (FS_open path flags w)) = reply w.
Proof.
  unfold FS_open. destruct (fs_open path flags (fs w)) as [h s].
  destruct (h =? -1); reflexivity.
Qed.

(** Closes the leaves of a handler: an error set on a reply whose payload
    is full, or a reply whose opcode is Ack. *)
Ltac shape_leaf Hl :=
  first
    [ apply nack_shape_reply_error; fields;
      rewrite ?length_blit, ?length_store, ?repeat_length; assumption
    | let Hn := fresh in intros Hn; fields; discriminate Hn ].

Ltac shape_branches Hl :=
  repeat (cbv beta iota zeta;
          match goal with
          | |- context [FS_open ?p ?f ?w] =>
              let E := fresh in
              let w' := fresh "w" in
              pose proof (FS_open_reply p f w) as E;
              destruct (FS_open p f w) as [? w']; cbn [snd] in E;
              assert (length (data (reply w')) = DATA_LEN)
                by (rewrite E; fields; exact Hl)
          | |- context [match ?x with _ => _ end] => destruct x eqn:?
          end).

Lemma nack_shape_op_read {FS : Type} {F : Filesystem FS}
  (request : pending_ftp) (w : World FS) :
  length (data (reply w)) = DATA_LEN -> nack_shape (reply (op_read request w)).
Proof. intros Hl. unfold op_read. shape_branches Hl; shape_leaf Hl. Qed.

Lemma nack_shape_op_write {FS : Type} {F : Filesystem FS}
  (request : pending_ftp) (w : World FS) :
  length (data (reply w)) = DATA_LEN -> nack_shape (reply (op_write request w)).
Proof. intros Hl. unfold op_write. shape_branches Hl; shape_leaf Hl. Qed.

Lemma nack_shape_op_mkdir {FS : Type} {F : Filesystem FS}
  (request : pending_ftp) (w : World FS) :
  length (data (reply w)) = DATA_LEN -> nack_shape (reply (op_mkdir request w)).
Proof. intros Hl. unfold op_mkdir. shape_branches Hl; shape_leaf Hl. Qed.

Lemma nack_shape_op_unlink {FS : Type} {F : Filesystem FS}
  (request : pending_ftp) (w : World FS) :
  length (data (reply w)) = DATA_LEN -> nack_shape (reply (op_unlink request w)).
Proof. intros Hl. unfold op_unlink. shape_branches Hl; shape_leaf Hl. Qed.

Lemma nack_shape_op_crc32 {FS : Type} {F : Filesystem FS}
  (request : pending_ftp) (w : World FS) :
  length (data (reply w)) = DATA_LEN -> nack_shape (reply (op_crc32 request w)).
Proof. intros Hl. unfold op_crc32. shape_branches Hl; shape_leaf Hl. Qed.

Lemma nack_shape_op_rename {FS : Type} {F : Filesystem FS}
  (request : pending_ftp) (w : World FS) :
  length (data (reply w)) = DATA_LEN -> nack_shape (reply (op_rename request w)).
Proof. intros Hl. unfold op_rename. shape_branches Hl; shape_leaf Hl. Qed.

Lemma nack_shape_op_terminate {FS : Type} {F : Filesystem FS} (w : World FS) :
  nack_shape (reply (op_terminate w)).
Proof.
  unfold op_terminate, FS_close.
  destruct (negb (fd (ftp w) =? -1)); intros Hn; fields; discriminate Hn.
Qed.

Lemma nack_shape_op_open_wo {FS : Type} {F : Filesystem FS}
  (request : pending_ftp) (w : World FS) :
  length (data (reply w)) = DATA_LEN ->
  nack_shape (reply (op_open_wo request w)).
Proof. intros Hl. unfold op_open_wo. shape_branches Hl; shape_leaf Hl. Qed.

Lemma nack_shape_op_open_ro {FS : Type} {F : Filesystem FS}
  (request : pending_ftp) (now : Z) (w : World FS) :
  length (data (reply w)) = DATA_LEN ->
  nack_shape (reply (op_open_ro request now w)).
Proof.
  intros Hl. unfold op_open_ro.
  match goal with |- context [if ?b then close_session w else w] =>
    assert (H0 : length (data (reply (if b then close_session w else w)))
                 = DATA_LEN)
      by (destruct b; unfold close_session, FS_close; fields; exact Hl);
    generalize dependent (if b then close_session w else w)
  end.
  clear Hl. intros w1 Hl.
  shape_branches Hl; shape_leaf Hl.
Qed.

Lemma nack_shape_ftp_list_dir {FS : Type} {F : Filesystem FS}
  (request : pending_ftp) (w : World FS) :
  length (data (reply w)) = DATA_LEN ->
  nack_shape (reply (ftp_list_dir request w)).
Proof.
  intros Hl. unfold ftp_list_dir, FS_closedir.
  destruct (negb (ftp_check_name_len request)); [shape_leaf Hl|].
  destruct (fs_opendir (list_dir_path request)
              (fs (upd_reply (with_offset (offset request)) w))) as [dir s].
  destruct dir as [entries|]; [|shape_leaf Hl].
  match goal with |- context [skip_entries ?a ?b ?c ?d] =>
    pose proof (skip_entries_length a c b d Hl) as Hl1;
    destruct (skip_entries a b c d) as [[rest|] w1]
  end; cbn [snd] in Hl1.
  - pose proof (pack_entries_frame rest (list_dir_path request) 0 w1) as Frame.
    destruct (pack_entries rest 0 (list_dir_path request) w1) as [index w2].
    destruct Frame as (_ & Hl2 & _); [lia | exact Hl1 |].
    destruct (index =? 0).
    + fields. apply nack_shape_reply_error. exact Hl2.
    + destruct (index <? Z.of_nat DATA_LEN); intros Hn; fields; discriminate Hn.
  - fields. apply nack_shape_reply_error. exact Hl1.
Qed.

Lemma burst_loop_shape {FS : Type} {F : Filesystem FS}
  (request : pending_ftp) (max_read : Z) (n : nat) :
  1 <= max_read <= 239 ->
  forall (i : Z) (w : World FS),
  length (data (reply w)) = DATA_LEN ->
  opcode (reply w) <> Nack ->
  nack_shape (reply (burst_loop n i request max_read w)).
Proof.
  intros Hmr. induction n as [|n IH]; intros i w Hl Hop.
  - cbn [burst_loop]. intros Hn. contradiction.
  - cbn [burst_loop].
    replace (Z.min (Z.of_nat DATA_LEN) max_read) with max_read
      by (unfold DATA_LEN; lia).
    destruct (fs_read (fd (ftp w)) max_read (fs w)) as [[raw|] s1];
      [|apply nack_shape_reply_error; exact Hl].
    set (bytes := firstn (Z.to_nat max_read) raw).
    assert (Hbl : (length bytes <= DATA_LEN)%nat).
    { unfold bytes, DATA_LEN. rewrite length_firstn. lia. }
    clearbody bytes.
    rewrite (burst_buffer bytes (set_fs s1 w)) by (fields; auto).
    set (payload := bytes ++ repeat 0 (DATA_LEN - length bytes)).
    assert (Hpl : length payload = DATA_LEN).
    { unfold payload. rewrite length_app, repeat_length. lia. }
    destruct (Z.of_nat (length bytes) =? 0).
    + apply nack_shape_reply_error. fields. exact Hpl.
    + apply IH.
      * pose proof (ftp_push_replies_frame) as P.
        match goal with |- context [ftp_push_replies ?r ?x] =>
          specialize (P r x); cbv zeta in P; destruct P as (P1 & _)
        end.
        destruct (Z.of_nat (length bytes) <? max_read); fields; rewrite P1;
          fields; exact Hpl.
      * pose proof (ftp_push_replies_frame) as P.
        match goal with |- context [ftp_push_replies ?r ?x] =>
          specialize (P r x); cbv zeta in P; destruct P as (P1 & _)
        end.
        destruct (Z.of_nat (length bytes) <? max_read); fields; rewrite P1;
          fields; discriminate.
Qed.

Lemma nack_shape_op_burst_read {FS : Type} {F : Filesystem FS}
  (request : pending_ftp) (w : World FS) :
  0 <= size request <= 239 ->
  length (data (reply w)) = DATA_LEN ->
  opcode (reply w) <> Nack ->
  nack_shape (reply (snd (op_burst_read request w))).
Proof.
  intros Hsz Hl Hop. unfold op_burst_read.
  destruct (fd (ftp w) =? -1); [apply nack_shape_reply_error; exact Hl|].
  destruct (mode (ftp w)); [|apply nack_shape_reply_error; exact Hl].
  destruct (fs_lseek (fd (ftp w)) (offset request) (fs w)) as [pos s].
  destruct (pos =? -1); [apply nack_shape_reply_error; exact Hl|].
  pose proof (burst_loop_shape request (burst_max_read request) transfer_size
                (burst_max_read_range request Hsz) 0 (set_fs s w) Hl Hop) as B.
  destruct (negb _); exact B.
Qed.

Lemma nack_shape_dispatch {FS : Type} {F : Filesystem FS}
  (request : pending_ftp) (now : Z) (w : World FS) :
  0 <= size request <= 239 ->
  reply w = setup_reply request ->
  fst (dispatch request now w) = Eat \/
  nack_shape (reply (snd (dispatch request now w))).
Proof.
  intros Hsz Hr.
  assert (Hl : length (data (reply w)) = DATA_LEN)
    by (rewrite Hr; apply repeat_length).
  assert (Hop : opcode (reply w) <> Nack) by (rewrite Hr; discriminate).
  unfold dispatch.
  destruct (opcode request); cbn [fst snd]; auto; right;
    auto using nack_shape_op_terminate, nack_shape_ftp_list_dir,
      nack_shape_op_open_ro, nack_shape_op_read, nack_shape_op_open_wo,
      nack_shape_op_write, nack_shape_op_mkdir, nack_shape_op_unlink,
      nack_shape_op_crc32, nack_shape_op_burst_read, nack_shape_op_rename,
      nack_shape_reply_error.
  intros Hn. fields. discriminate Hn.
Qed.

(** The messages of a step that does not answer from the cache: every
    Nack among them is what ftp_error made. *)
Lemma ftp_worker_step_nacks {FS : Type} {F : Filesystem FS}
  (request : pending_ftp) (w : World FS) :
  0 <= size request < 256 ->
  is_rerequest request (reply w) = false ->
  exists l,
    sent (trace (ftp_worker_step request w)) = sent (trace w) ++ l /\
    forall r, In r l -> nack_shape r.
Proof.
  intros Hsz Hre.
  destruct (prepared_fields request w) as (Pf & Pr & Ps & Pc & Pt & Ptr).
  assert (Hlen : length (data (setup_reply request)) = DATA_LEN)
    by apply repeat_length.
  assert (Hone : forall response error e,
            length (data response) = DATA_LEN ->
            forall r, In r [ftp_error response error e] -> nack_shape r).
  { intros response error e Hl r [<-|[]] _. exists response, error, e. auto. }
  destruct (Z_le_gt_dec (size request) 239) as [Hle|Hgt].
  - rewrite (ftp_worker_step_checked request w Hre Hle). cbv zeta.
    destruct (negb (session request =? current_session (ftp w))
              && is_terminate_or_reset (opcode request)).
    { exists [with_opcode Ack (setup_reply request)].
      match goal with |- context [ftp_push_replies ?r ?x] =>
        pose proof (ftp_push_replies_frame r x) as P end.
      cbv zeta in P. fields. rewrite Ptr in P.
      split; [apply P|]. intros r [<-|[]] Hn. discriminate Hn. }
    destruct (negb (fd (ftp w) =? -1)
              && negb (session request =? current_session (ftp w))
              && (idle_ms w <? FTP_SESSION_TIMEOUT)).
    { exists [ftp_error (setup_reply request) InvalidSession (errno (fs w))].
      match goal with |- context [ftp_push_replies ?r ?x] =>
        pose proof (ftp_push_replies_frame r x) as P end.
      cbv zeta in P. unfold reply_error in P. fields. rewrite Ptr in P.
      split; [apply P | apply Hone; exact Hlen]. }
    set (w1 := reclaim_idle request (now_ms w) (prepared request w)).
    pose proof (mute_reclaim_idle request (now_ms w) (prepared request w)) as M.
    fold w1 in M. destruct M as (M1 & _). rewrite Ptr in M1.
    assert (Hr : reply w1 = setup_reply request).
    { unfold w1, reclaim_idle, close_session, FS_close.
      destruct (_ && _); fields; exact Pr. }
    destruct (dispatch_sends request (now_ms w) w1 (conj (proj1 Hsz) Hle) Hr)
      as (l & D1 & D2 & _).
    pose proof (nack_shape_dispatch request (now_ms w) w1
                  (conj (proj1 Hsz) Hle) Hr) as S.
    rewrite M1 in D1.
    assert (Hacks : forall r, In r l -> nack_shape r).
    { intros r Hin Hn. apply In_nth_error in Hin. destruct Hin as [j Hj].
      destruct (D2 j r Hj) as (_ & _ & A). congruence. }
    destruct (dispatch request (now_ms w) w1) as [o w2]. cbn [fst snd] in *.
    destruct o; cbn [finish].
    + exists (l ++ [reply w2]).
      pose proof (ftp_push_replies_frame (reply w2) w2) as P. cbv zeta in P.
      destruct P as (_ & _ & _ & _ & _ & _ & _ & _ & P9 & _).
      rewrite P9, D1, <- app_assoc. split; [reflexivity|].
      intros r Hin. apply in_app_or in Hin.
      destruct Hin as [Hin|[<-|[]]]; [apply Hacks; exact Hin|].
      destruct S as [S|S]; [discriminate S | exact S].
    + exists l. auto.
    + exists l. auto.
  - unfold ftp_worker_step. rewrite Hre.
    assert (Egt : (size request >? Z.of_nat DATA_LEN) = true).
    { unfold DATA_LEN. rewrite Z.gtb_ltb. apply Z.ltb_lt. lia. }
    rewrite Egt.
    exists [ftp_error (setup_reply request) InvalidDataSize (errno (fs w))].
    match goal with |- context [ftp_push_replies ?r ?x] =>
      pose proof (ftp_push_replies_frame r x) as P end.
    cbv zeta in P. unfold reply_error in P. fields.
    split; [apply P | apply Hone; exact Hlen].
Qed.

(** C9: a failure reply is a Nack that carries the error code in data[0]
    with size 1; FailErrno becomes FileExists for EEXIST, FileNotFound for
    ENOENT, and otherwise keeps its code and adds errno, as a byte, in
    data[1] with size 2.  This is what ftp_error makes of a reply, and
    every Nack that the worker sends for a request it does not answer from
    the cache is made by ftp_error. *)
Theorem ftp_error_spec {FS : Type} {F : Filesystem FS}
  (response : pending_ftp) (error : FTP_ERROR) (e : Z) :
  length (data response) = DATA_LEN ->
  let r := ftp_error response error e in
  (opcode r = Nack /\
   (error <> FailErrno ->
      nth 0 (data r) 0 = error_code error /\ size r = 1) /\
   (error = FailErrno -> e = EEXIST ->
      nth 0 (data r) 0 = error_code FileExists /\ size r = 1) /\
   (error = FailErrno -> e = ENOENT ->
      nth 0 (data r) 0 = error_code FileNotFound /\ size r = 1) /\
   (error = FailErrno -> e <> EEXIST -> e <> ENOENT ->
      nth 0 (data r) 0 = error_code FailErrno /\
      nth 1 (data r) 0 = e mod 256 /\
      (0 <= e < 256 -> nth 1 (data r) 0 = e) /\
      size r = 2)) /\
  (forall (request : pending_ftp) (w : World FS),
     0 <= size request < 256 ->
     is_rerequest request (reply w) = false ->
     exists l,
       sent (trace (ftp_worker_step request w)) = sent (trace w) ++ l /\
       forall x, In x l -> opcode x = Nack ->
         exists (response' : pending_ftp) (error' : FTP_ERROR) (e' : Z),
           length (data response') = DATA_LEN /\
           x = ftp_error response' error' e').
Proof.
  intros Hlen r. subst r.
  assert (H0 : forall v, nth 0 (store 0 v (data response)) 0 = v).
  { intros v. apply nth_store_same. rewrite Hlen. unfold DATA_LEN. lia. }
  split; [|exact ftp_worker_step_nacks].
  split; [apply ftp_error_fields|].
  split; [|split; [|split]].
  - intros Hne. destruct error; try congruence; unfold ftp_error; fields;
      (split; [apply H0 | reflexivity]).
  - intros -> ->. unfold ftp_error. rewrite Z.eqb_refl. fields.
    split; [|reflexivity].
    apply nth_store_same. rewrite length_store, Hlen. unfold DATA_LEN. lia.
  - intros -> ->. unfold ftp_error.
    destruct (ENOENT =? EEXIST) eqn:E.
    { apply Z.eqb_eq in E. symmetry in E. destruct (errno_distinct E). }
    rewrite Z.eqb_refl. fields. split; [|reflexivity].
    apply nth_store_same. rewrite length_store, Hlen. unfold DATA_LEN. lia.
  - intros -> H1 H2. unfold ftp_error.
    apply Z.eqb_neq in H1, H2. rewrite H1, H2. fields.
    assert (Hd1 : nth 1 (store 1 (e mod 256)
                           (store 0 (error_code FailErrno) (data response))) 0
                  = e mod 256).
    { apply nth_store_same. rewrite length_store, Hlen. unfold DATA_LEN. lia. }
    repeat split.
    + rewrite nth_store_other by lia. apply H0.
    + exact Hd1.
    + intros Hr. rewrite Hd1. apply Z.mod_small. exact Hr.
Qed.

Lemma ftp_error_spec_witness :
  let r := @ftp_error RamFS.t _ zero_reply FailErrno 5 in
  opcode r = Nack /\ nth 0 (data r) 0 = 2 /\ nth 1 (data r) 0 = 5 /\ size r = 2.
Proof.
  pose proof (ftp_error_spec (F := RamFS.filesystem) zero_reply FailErrno 5
                eq_refl) as H.
  cbv zeta in H. destruct H as [[Hop [_ [_ [_ Hdef]]]] _].
  assert (Hne1 : 5 <> @EEXIST _ RamFS.filesystem) by discriminate.
  assert (Hne2 : 5 <> @ENOENT _ RamFS.filesystem) by discriminate.
  destruct (Hdef eq_refl Hne1 Hne2) as [H0 [_ [H1 Hs]]].
  cbv zeta. split; [exact Hop|]. split; [exact H0|].
  split; [apply H1; lia | exact Hs].
Defined.

(** ** The frame codec *)

Lemma find_first_match {A : Type} (f : A -> Z) (l : list A) (x : A) :
  NoDup (map f l) -> In x l -> find (fun y => f y =? f x) l = Some x.
Proof.
  induction l as [|a l IH]; intros Hnd Hin; [contradiction|].
  cbn [map] in Hnd. inversion Hnd as [|? ? Hna Hnd']; subst.
  cbn [find]. destruct Hin as [->|Hin].
  - rewrite Z.eqb_refl. reflexivity.
  - destruct (f a =? f x) eqn:E.
    + apply Z.eqb_eq in E. exfalso. apply Hna. rewrite E.
      apply in_map. exact Hin.
    + apply IH; assumption.
Qed.

Lemma find_no_match {A : Type} (f : A -> Z) (l : list A) (b : Z) :
  ~ In b (map f l) -> find (fun y => f y =? b) l = None.
Proof.
  induction l as [|a l IH]; intros Hn; [reflexivity|].
  cbn [find]. cbn [map In] in Hn.
  destruct (f a =? b) eqn:E.
  - apply Z.eqb_eq in E. tauto.
  - apply IH. tauto.
Qed.

Lemma named_op_to_u8 {E : Enumerators} (op : FTP_OP) :
  In op named_ops -> FTP_OP_to_u8 op = enumerator op.
Proof.
  intros H. destruct op; try reflexivity.
  cbn in H. repeat (destruct H as [H|H]; [discriminate|]). contradiction.
Qed.

(** A byte cast to FTP_OP and back is the same byte. *)
Lemma FTP_OP_to_u8_of_byte {E : Enumerators} (b : Z) :
  FTP_OP_to_u8 (u8_to_FTP_OP b) = b.
Proof.
  unfold u8_to_FTP_OP.
  destruct (find (fun op => enumerator op =? b) named_ops) as [op|] eqn:Hf;
    [|reflexivity].
  apply find_some in Hf. destruct Hf as [Hin Hb]. apply Z.eqb_eq in Hb.
  rewrite named_op_to_u8 by exact Hin. exact Hb.
Qed.

Lemma u8_to_FTP_OP_of_op {E : Enumerators} (op : FTP_OP) :
  decoded_op op -> u8_to_FTP_OP (FTP_OP_to_u8 op) = op.
Proof.
  intros Hd. unfold u8_to_FTP_OP.
  assert (Hnamed : In op named_ops ->
            find (fun o => enumerator o =? FTP_OP_to_u8 op) named_ops = Some op).
  { intros Hin. rewrite named_op_to_u8 by exact Hin.
    apply find_first_match; [apply enumerator_distinct | exact Hin]. }
  destruct op;
    try (rewrite Hnamed; [reflexivity | cbn; tauto]).
  cbn [FTP_OP_to_u8]. cbn [decoded_op] in Hd.
  rewrite find_no_match by apply Hd. reflexivity.
Qed.

Lemma decoded_op_of_byte {E : Enumerators} (b : Z) :
  is_byte b -> decoded_op (u8_to_FTP_OP b).
Proof.
  intros Hb. unfold u8_to_FTP_OP.
  destruct (find (fun op => enumerator op =? b) named_ops) as [op|] eqn:Hf.
  - apply find_some in Hf. destruct Hf as [Hin _].
    destruct op; cbn [decoded_op]; auto.
    cbn in Hin. repeat (destruct Hin as [Hin|Hin]; [discriminate|]).
    contradiction.
  - cbn [decoded_op]. split; [exact Hb|].
    intros Hin. apply in_map_iff in Hin. destruct Hin as (op & Hv & Hin).
    apply (find_none _ _ Hf) in Hin. cbv beta in Hin.
    rewrite Hv, Z.eqb_refl in Hin. discriminate.
Qed.

Lemma le16toh_le16 (v : Z) (rest : list Z) :
  0 <= v < UINT16_MOD -> le16toh (le16 v ++ rest) = v.
Proof.
  unfold UINT16_MOD, le16toh, le16. intros Hv. cbn [app nth].
  change (2 ^ 16) with 65536 in Hv.
  Z.div_mod_to_equations. lia.
Qed.

Lemma le32toh_le32 (v : Z) (rest : list Z) :
  0 <= v < UINT32_MOD -> le32toh (le32 v ++ rest) = v.
Proof.
  unfold UINT32_MOD, le32toh, le32. intros Hv. cbn [app nth].
  change (2 ^ 32) with 4294967296 in Hv.
  Z.div_mod_to_equations. lia.
Qed.

Lemma blit_nil (i : nat) (buf : list Z) : blit i [] buf = buf.
Proof.
  revert i. induction buf as [|h t IH]; intros [|j]; cbn [blit]; auto.
  rewrite IH. reflexivity.
Qed.

(** The twelve bytes of the header, then the data. *)
Lemma reply_payload_layout {E : Enumerators} (r : pending_ftp) :
  length (data r) = DATA_LEN ->
  reply_payload r
  = le16 (seq_number r)
    ++ [ session r; FTP_OP_to_u8 (opcode r); size r;
         FTP_OP_to_u8 (req_opcode r);
         if burst_complete r then 1 else 0; 0 ]
    ++ le32 (offset r) ++ data r.
Proof.
  intros Hl. unfold reply_payload, PAYLOAD_LEN, le16, le32.
  rewrite firstn_all2 by (rewrite Hl; apply Nat.le_refl).
  replace (repeat 0 251) with (repeat 0 12 ++ repeat 0 DATA_LEN)
    by (rewrite <- repeat_app; reflexivity).
  assert (Ht : length (data r) = length (repeat 0 DATA_LEN))
    by (rewrite repeat_length; exact Hl).
  generalize dependent (repeat 0 DATA_LEN). intros tail Ht.
  cbn [repeat app store blit].
  rewrite blit_nil, blit_all by exact Ht. reflexivity.
Qed.
(** Every field of a reply that is in the range of its C type is read
    back from the payload laid out for it. *)
Lemma reply_payload_read_back {E : Enumerators} (r : pending_ftp) :
  wf_request r -> decoded_op (opcode r) -> decoded_op (req_opcode r) ->
  request_of_packet (chan r) (sysid r) (compid r) (reply_payload r) = r.
Proof.
  intros (Hseq & _ & _ & _ & _ & Hoff & Hlen) Hop Hreq.
  rewrite (reply_payload_layout r Hlen).
  unfold request_of_packet.
  rewrite (le16toh_le16 _ _ Hseq).
  unfold le16 at 1 2 3 4 5 6 7. cbn [app nth skipn].
  rewrite (le32toh_le32 _ _ Hoff).
  rewrite !u8_to_FTP_OP_of_op by assumption.
  unfold le32, PAYLOAD_LEN. cbn [app skipn].
  change (251 - 12)%nat with DATA_LEN.
  rewrite firstn_all2 by (rewrite Hlen; apply Nat.le_refl).
  assert (Hb : negb ((if burst_complete r then 1 else 0) =? 0) = burst_complete r)
    by (destruct (burst_complete r); reflexivity).
  rewrite Hb. destruct r; reflexivity.
Qed.

(** X1: The message that send_ftp_reply hands to the link addresses the
    requester and carries 251 bytes from which request_of_packet reads
    back every field of the reply; nothing is sent unless the transmit
    buffer is above 33 and the link has room for the message. *)
Theorem send_ftp_reply_round_trip {E : Enumerators}
  (r : pending_ftp) (txbuf_is_greater_33 have_payload_space : bool) :
  wf_request r -> decoded_op (opcode r) -> decoded_op (req_opcode r) ->
  match send_ftp_reply txbuf_is_greater_33 have_payload_space r with
  | None => txbuf_is_greater_33 && have_payload_space = false
  | Some m =>
      txbuf_is_greater_33 && have_payload_space = true /\
      msg_chan m = chan r /\ target_network m = 0 /\
      target_system m = sysid r /\ target_component m = compid r /\
      length (msg_payload m) = PAYLOAD_LEN /\
      nth 7 (msg_payload m) 0 = 0 /\
      request_of_packet (chan r) (sysid r) (compid r) (msg_payload m) = r
  end.
Proof.
  intros Hwf Hop Hreq.
  unfold send_ftp_reply.
  destruct txbuf_is_greater_33; [|reflexivity].
  destruct have_payload_space; [|reflexivity].
  cbn [negb andb msg_chan target_network target_system target_component
       msg_payload].
  repeat (split; [reflexivity|]).
  split; [unfold reply_payload; rewrite !length_blit, !length_store,
            !length_blit; apply repeat_length|].
  split; [|apply reply_payload_read_back; assumption].
  rewrite (reply_payload_layout r (proj2 (proj2 (proj2 (proj2 (proj2
             (proj2 Hwf))))))).
  reflexivity.
Qed.

Lemma send_ftp_reply_round_trip_witness :
  let r := RamFS.request 11 1 Ack 4 0 [44; 1; 0; 0] in
  match send_ftp_reply true true r with
  | None => true && true = false
  | Some m =>
      true && true = true /\
      msg_chan m = chan r /\ target_network m = 0 /\
      target_system m = sysid r /\ target_component m = compid r /\
      length (msg_payload m) = PAYLOAD_LEN /\
      nth 7 (msg_payload m) 0 = 0 /\
      request_of_packet (chan r) (sysid r) (compid r) (msg_payload m) = r
  end.
Proof.
  apply (send_ftp_reply_round_trip (RamFS.request 11 1 Ack 4 0 [44; 1; 0; 0])
           true true).
  - unfold wf_request. vm_compute. intuition discriminate.
  - exact I.
  - exact I.
Defined.

Ltac bytes_in_range Hb :=
  repeat match type of Hb with
         | Forall _ (_ :: _) =>
             apply Forall_cons_iff in Hb;
             let B := fresh "B" in destruct Hb as [B Hb]; unfold is_byte in B
         end.

(** X2: A request decoded from any 251 bytes has every field in the range
    of its C type, 239 bytes of data, and opcodes that are enumerators or
    bytes that no enumerator has. *)
Theorem request_of_packet_wf {E : Enumerators}
  (c s k : Z) (p : list Z) :
  wf_payload p -> is_byte s -> is_byte k ->
  let request := request_of_packet c s k p in
  wf_request request /\ Forall is_byte (data request) /\
  decoded_op (opcode request) /\ decoded_op (req_opcode request) /\
  chan request = c /\ sysid request = s /\ compid request = k.
Proof.
  intros [Hlen Hb] Hs Hk request. subst request.
  unfold PAYLOAD_LEN in Hlen.
  destruct p as [|b0 [|b1 [|b2 [|b3 [|b4 [|b5 [|b6 [|b7 [|b8 [|b9 [|b10
                [|b11 p]]]]]]]]]]]]; try discriminate Hlen.
  bytes_in_range Hb. unfold is_byte in *.
  cbn [length] in Hlen.
  assert (Hl : length p = DATA_LEN) by (unfold DATA_LEN; lia).
  unfold request_of_packet, wf_request, le16toh, le32toh, PAYLOAD_LEN,
    UINT16_MOD, UINT32_MOD.
  change (251 - 12)%nat with DATA_LEN.
  cbn [skipn nth offset chan seq_number opcode req_opcode size session sysid
       compid data].
  rewrite firstn_all2 by (rewrite Hl; apply Nat.le_refl).
  split; [repeat split; try lia; exact Hl|].
  split; [exact Hb|].
  split; [apply decoded_op_of_byte; assumption|].
  split; [apply decoded_op_of_byte; assumption|].
  auto.
Qed.

Lemma request_of_packet_wf_witness :
  let request := request_of_packet 0 255 190 (repeat 7 251) in
  wf_request request /\ Forall is_byte (data request) /\
  decoded_op (opcode request) /\ decoded_op (req_opcode request) /\
  chan request = 0 /\ sysid request = 255 /\ compid request = 190.
Proof.
  apply (request_of_packet_wf 0 255 190 (repeat 7 251)).
  - split; [reflexivity|]. apply Forall_forall. intros x Hx.
    apply repeat_spec in Hx. subst x. unfold is_byte. lia.
  - unfold is_byte. lia.
  - unfold is_byte. lia.
Defined.

(** X3: Laying out again a request decoded from 251 bytes gives the same
    bytes exactly when the reserved byte 7 is zero and the
    burst_complete byte is 0 or 1: the decoder keeps everything else. *)
Theorem reply_payload_request_of_packet {E : Enumerators}
  (c s k : Z) (p : list Z) :
  wf_payload p ->
  (reply_payload (request_of_packet c s k p) = p
   <-> nth 7 p 0 = 0 /\ nth 6 p 0 <= 1).
Proof.
  intros [Hlen Hb].
  unfold PAYLOAD_LEN in Hlen.
  destruct p as [|b0 [|b1 [|b2 [|b3 [|b4 [|b5 [|b6 [|b7 [|b8 [|b9 [|b10
                [|b11 p]]]]]]]]]]]]; try discriminate Hlen.
  bytes_in_range Hb. unfold is_byte in *.
  cbn [length] in Hlen.
  assert (Hl : length p = DATA_LEN) by (unfold DATA_LEN; lia).
  rewrite reply_payload_layout;
    unfold request_of_packet, le16toh, le32toh, le16, le32, PAYLOAD_LEN;
    change (251 - 12)%nat with DATA_LEN;
    cbn [skipn nth offset chan seq_number opcode req_opcode size session sysid
         compid data burst_complete app];
    rewrite ?firstn_all2 by (rewrite Hl; apply Nat.le_refl); [|exact Hl].
  rewrite !FTP_OP_to_u8_of_byte.
  split.
  - intros Heq. injection Heq as _ _ E6 E7.
    split; [symmetry; exact E7|].
    destruct (b6 =? 0); cbn [negb] in E6; lia.
  - intros [E7 E6]. subst b7.
    assert (E6' : (if negb (b6 =? 0) then 1 else 0) = b6).
    { destruct (Z.eqb_spec b6 0); cbn [negb]; lia. }
    rewrite E6'.
    repeat f_equal; Z.div_mod_to_equations; lia.
Qed.

Lemma reply_payload_request_of_packet_witness :
  reply_payload (request_of_packet 0 255 190 (repeat 0 251)) = repeat 0 251
  <-> nth 7 (repeat 0 251) 0 = 0 /\ nth 6 (repeat 0 251) 0 <= 1.
Proof.
  apply (reply_payload_request_of_packet 0 255 190 (repeat 0 251)).
  split; [reflexivity|]. apply Forall_forall. intros x Hx.
  apply repeat_spec in Hx. subst x. unfold is_byte. lia.
Defined.

(** ** Start-up and the request queue *)

Lemma push_firstn (q : list pending_ftp) (request : pending_ftp) :
  (length q <= QUEUE_SIZE)%nat ->
  snd (push q request) = firstn QUEUE_SIZE (q ++ [request]).
Proof.
  intros Hq. unfold push.
  destruct (length q <? QUEUE_SIZE)%nat eqn:E; cbn [snd].
  - apply Nat.ltb_lt in E. rewrite firstn_all2; [reflexivity|].
    rewrite length_app. cbn [length]. lia.
  - apply Nat.ltb_ge in E.
    rewrite firstn_app. replace (QUEUE_SIZE - length q)%nat with 0%nat by lia.
    cbn [firstn]. rewrite app_nil_r, firstn_all2 by lia. reflexivity.
Qed.

Lemma firstn_firstn_app {A : Type} (n : nat) (a b : list A) :
  firstn n (firstn n a ++ b) = firstn n (a ++ b).
Proof.
  revert a. induction n as [|n IH]; intros a; [reflexivity|].
  destruct a as [|x a]; [reflexivity|].
  cbn [firstn app]. rewrite IH. reflexivity.
Qed.

Lemma handle_file_transfer_protocol_queued {E : Enumerators}
  (a : arrival) (s : Frontend) (q : list pending_ftp) :
  enabled a -> ftp_requests s = Some q ->
  handle_file_transfer_protocol (arr_host a) (arr_chan a) (arr_sysid a)
    (arr_compid a) (arr_payload a) s
  = mk_Frontend (Some (snd (push q (arrived_request a)))) (threads s)
      (warnings s).
Proof.
  unfold enabled, handle_file_transfer_protocol, ftp_init.
  intros -> Hq. rewrite Hq. cbv iota. rewrite Hq. reflexivity.
Qed.

(** X4: Once the queue exists and while FTP is not disabled, the queue after
    any run of arrivals holds the first five of what was queued followed
    by the arrivals in their order: what arrives at a full queue is
    dropped, and neither a warning nor a thread comes of it. *)
Theorem receive_keeps_first_five {E : Enumerators}
  (l : list arrival) (s : Frontend) (q : list pending_ftp) :
  ftp_requests s = Some q ->
  (length q <= QUEUE_SIZE)%nat ->
  Forall enabled l ->
  receive l s
  = mk_Frontend (Some (firstn QUEUE_SIZE (q ++ map arrived_request l)))
      (threads s) (warnings s).
Proof.
  revert s q. induction l as [|a l IH]; intros s q Hq Hlen Hen.
  - cbn [receive map]. rewrite app_nil_r, firstn_all2 by exact Hlen.
    destruct s; cbn in *; congruence.
  - apply Forall_cons_iff in Hen. destruct Hen as [Ha Hl].
    cbn [receive map].
    rewrite (handle_file_transfer_protocol_queued a s q Ha Hq).
    rewrite (IH _ (snd (push q (arrived_request a)))); auto.
    + cbn [threads warnings]. f_equal. f_equal.
      rewrite push_firstn by exact Hlen.
      rewrite firstn_firstn_app, <- app_assoc. reflexivity.
    + rewrite push_firstn by exact Hlen. rewrite length_firstn. lia.
Qed.

Lemma receive_keeps_first_five_witness :
  let a := mk_arrival (mk_Host false true true) 0 255 190 (repeat 0 251) in
  receive (repeat a 7) (mk_Frontend (Some []) 1 0)
  = mk_Frontend
      (Some (firstn QUEUE_SIZE ([] ++ map arrived_request (repeat a 7)))) 1 0.
Proof.
  apply (receive_keeps_first_five
           (repeat (mk_arrival (mk_Host false true true) 0 255 190
                      (repeat 0 251)) 7)
           (mk_Frontend (Some []) 1 0) []).
  - reflexivity.
  - cbn. lia.
  - apply Forall_forall. intros x Hx. apply repeat_spec in Hx. subst x.
    reflexivity.
Defined.

Lemma length_push (q : list pending_ftp) (request : pending_ftp) :
  (length q <= QUEUE_SIZE)%nat ->
  (length (snd (push q request)) <= QUEUE_SIZE)%nat.
Proof.
  intros Hq. rewrite push_firstn by exact Hq. rewrite length_firstn. lia.
Qed.

Lemma front_ok_handle {E : Enumerators} (a : arrival) (s : Frontend) :
  front_ok s ->
  front_ok (handle_file_transfer_protocol (arr_host a) (arr_chan a)
              (arr_sysid a) (arr_compid a) (arr_payload a) s).
Proof.
  unfold front_ok, handle_file_transfer_protocol, ftp_init. intros Hs.
  destruct (ftp_disabled (arr_host a)); [cbn; discriminate|].
  destruct (ftp_requests s) as [q0|] eqn:Hq0.
  - rewrite Hq0. cbn [ftp_requests threads]. intros q Hq.
    injection Hq as <-. destruct (Hs q0 eq_refl) as [H1 H2].
    split; [apply length_push; exact H1 | exact H2].
  - destruct (negb (new_requests_ok (arr_host a))); [cbn; discriminate|].
    destruct (negb (thread_create_ok (arr_host a))); [cbn; discriminate|].
    cbn [ftp_requests threads]. intros q Hq. injection Hq as <-.
    split; [unfold QUEUE_SIZE; cbn; lia | lia].
Qed.

Lemma one_worker_handle {E : Enumerators} (a : arrival) (s : Frontend) :
  enabled a -> one_worker s ->
  one_worker (handle_file_transfer_protocol (arr_host a) (arr_chan a)
                (arr_sysid a) (arr_compid a) (arr_payload a) s).
Proof.
  unfold enabled, one_worker, handle_file_transfer_protocol, ftp_init.
  intros -> Hs.
  destruct (ftp_requests s) as [q0|] eqn:Hq0.
  - rewrite Hq0. cbn [ftp_requests threads]. exact Hs.
  - destruct (negb (new_requests_ok (arr_host a))); [cbn; exact Hs|].
    destruct (negb (thread_create_ok (arr_host a))); [cbn; exact Hs|].
    cbn [ftp_requests threads]. rewrite Hs. reflexivity.
Qed.

Lemma front_ok_receive {E : Enumerators} (l : list arrival) (s : Frontend) :
  front_ok s -> front_ok (receive l s).
Proof.
  revert s. induction l as [|a l IH]; intros s Hs; cbn [receive]; auto.
  apply IH, front_ok_handle, Hs.
Qed.

Lemma one_worker_receive {E : Enumerators} (l : list arrival) (s : Frontend) :
  Forall enabled l -> one_worker s -> one_worker (receive l s).
Proof.
  revert s. induction l as [|a l IH]; intros s Hl Hs; cbn [receive]; auto.
  apply Forall_cons_iff in Hl. destruct Hl as [Ha Hl].
  apply IH; [exact Hl | apply one_worker_handle; assumption].
Qed.

(** X5: From start-up on, whatever arrives and whatever the host answers: a
    queue exists only with a worker thread created for it and never
    holds more than five requests; and as long as FTP is not reported
    disabled, there is one worker thread exactly when there is a queue,
    and never a second one. *)
Theorem front_end_invariants {E : Enumerators} (l : list arrival) :
  let s := receive l cold in
  (forall q, ftp_requests s = Some q ->
     (length q <= QUEUE_SIZE)%nat /\ (1 <= threads s)%nat) /\
  (Forall enabled l ->
     (threads s <= 1)%nat /\ (ftp_requests s <> None <-> threads s = 1%nat)).
Proof.
  intros s. subst s. split.
  - apply front_ok_receive. intros q Hq. discriminate Hq.
  - intros Hl.
    assert (H : one_worker (receive l cold))
      by (apply one_worker_receive; [exact Hl | reflexivity]).
    unfold one_worker in H.
    destruct (ftp_requests (receive l cold)); rewrite H;
      (split; [lia|]); split; congruence.
Qed.

Lemma front_end_invariants_witness :
  let a := mk_arrival (mk_Host false true true) 0 255 190 (repeat 0 251) in
  let s := receive [a; a] cold in
  (threads s <= 1)%nat /\ (ftp_requests s <> None <-> threads s = 1%nat).
Proof.
  apply (proj2 (front_end_invariants
                  (repeat (mk_arrival (mk_Host false true true) 0 255 190
                             (repeat 0 251)) 2))).
  repeat constructor.
Defined.

(** X6: A message that arrives while FTP is reported disabled is lost with
    everything that was queued, and a warning is sent; the next message
    that finds FTP enabled and the host able to allocate gets a new queue
    and one more worker thread, whether or not one was started before. *)
Theorem disabled_then_enabled {E : Enumerators}
  (a b : arrival) (s : Frontend) :
  ftp_disabled (arr_host a) = true ->
  arr_host b = mk_Host false true true ->
  receive [a] s = mk_Frontend None (threads s) (S (warnings s)) /\
  receive [a; b] s
  = mk_Frontend (Some [arrived_request b]) (S (threads s)) (S (warnings s)).
Proof.
  intros Ha Hb. cbn [receive].
  unfold handle_file_transfer_protocol, ftp_init. rewrite Ha, Hb.
  cbn. split; reflexivity.
Qed.

Lemma disabled_then_enabled_witness :
  let a := mk_arrival (mk_Host true true true) 0 255 190 (repeat 0 251) in
  let b := mk_arrival (mk_Host false true true) 0 255 190 (repeat 0 251) in
  let s := mk_Frontend (Some [arrived_request b]) 1 0 in
  receive [a] s = mk_Frontend None (threads s) (S (warnings s)) /\
  receive [a; b] s
  = mk_Frontend (Some [arrived_request b]) (S (threads s)) (S (warnings s)).
Proof.
  apply (disabled_then_enabled
           (mk_arrival (mk_Host true true true) 0 255 190 (repeat 0 251))
           (mk_arrival (mk_Host false true true) 0 255 190 (repeat 0 251))
           (mk_Frontend
              (Some [arrived_request
                       (mk_arrival (mk_Host false true true) 0 255 190
                          (repeat 0 251))]) 1 0));
    reflexivity.
Defined.

(** ** Requests that are refused or ignored *)

(** Sending an error, other than FailErrno, set on the reply of a world
    that has the session, the filesystem and the trace of [w]. *)
Lemma push_reply_error {FS : Type} {F : Filesystem FS}
  (error : FTP_ERROR) (w w1 : World FS) :
  error <> FailErrno ->
  length (data (reply w1)) = DATA_LEN ->
  ftp w1 = ftp w -> fs w1 = fs w -> trace w1 = trace w ->
  let w' := ftp_push_replies (reply (reply_error error w1))
              (reply_error error w1) in
  exists r,
    sent (trace w') = sent (trace w) ++ [r] /\ reply w' = r /\
    opcode r = Nack /\ nth 0 (data r) 0 = error_code error /\ size r = 1 /\
    same_header (reply w1) r /\ same_session w w'.
Proof.
  intros Hne Hlen Hf Hs Ht w'. subst w'.
  set (w2 := reply_error error w1).
  exists (reply w2).
  pose proof (ftp_push_replies_frame (reply w2) w2) as P. cbv zeta in P.
  assert (Hw2 : same_session w w2).
  { unfold same_session, w2, reply_error. fields. rewrite Hf, Hs, Ht.
    repeat split. }
  assert (Htr : trace w2 = trace w) by (unfold w2, reply_error; fields; exact Ht).
  rewrite Htr in P.
  assert (Hr : reply w2 = ftp_error (reply w1) error (errno (fs w1)))
    by reflexivity.
  destruct (ftp_error_plain (reply w1) error (errno (fs w1)) Hlen Hne)
    as (E1 & E2 & E3).
  rewrite <- Hr in E1, E2, E3.
  split; [apply P|]. split; [apply P|].
  split; [exact E1|]. split; [exact E2|]. split; [exact E3|].
  split; [rewrite Hr; apply same_header_ftp_error|].
  apply same_session_push. exact Hw2.
Qed.

(** X7: A request whose size is above 239 is answered with a Nack carrying
    InvalidDataSize before the session is looked at and whatever its
    opcode: the reply echoes the request's opcode and session, carries
    its seq_number plus one, and the session and the filesystem are as
    they were. *)
Theorem oversize_request_refused {FS : Type} {F : Filesystem FS}
  (request : pending_ftp) (w : World FS) :
  is_rerequest request (reply w) = false ->
  239 < size request ->
  let w' := ftp_worker_step request w in
  exists r,
    sent (trace w') = sent (trace w) ++ [r] /\ reply w' = r /\
    opcode r = Nack /\ nth 0 (data r) 0 = error_code InvalidDataSize /\
    size r = 1 /\
    seq_number r = (seq_number request + 1) mod UINT16_MOD /\
    req_opcode r = opcode request /\ session r = session request /\
    same_session w w'.
Proof.
  intros Hre Hsz w'. subst w'. unfold ftp_worker_step. rewrite Hre.
  assert (Hgt : (size request >? Z.of_nat DATA_LEN) = true).
  { unfold DATA_LEN. apply Z.gtb_lt. lia. }
  rewrite Hgt.
  destruct (push_reply_error InvalidDataSize w
              (upd_reply (fun _ => setup_reply request) w))
    as (r & H1 & H2 & H3 & H4 & H5 & H6 & H7);
    try reflexivity; try discriminate.
  exists r. fields.
  destruct H6 as (S1 & S2 & S3 & _).
  repeat (split; [assumption|]). auto.
Qed.

Lemma oversize_request_refused_witness :
  let request := RamFS.request 20 2 TerminateSession 240 0 [] in
  let w' := ftp_worker_step request RamFS.opened in
  exists r,
    sent (trace w') = sent (trace RamFS.opened) ++ [r] /\ reply w' = r /\
    opcode r = Nack /\ nth 0 (data r) 0 = error_code InvalidDataSize /\
    size r = 1 /\
    seq_number r = (seq_number request + 1) mod UINT16_MOD /\
    req_opcode r = opcode request /\ session r = session request /\
    same_session RamFS.opened w'.
Proof.
  apply (oversize_request_refused
           (RamFS.request 20 2 TerminateSession 240 0 []) RamFS.opened).
  - vm_compute. reflexivity.
  - vm_compute. reflexivity.
Defined.

(** X8: A stray Ack or Nack that reaches the dispatcher (no file is open, or
    the message comes from the session that owns the file) gets no reply:
    nothing is sent and the session and the filesystem are as they were.
    The cached reply, though, is now the blank reply prepared for the
    message, so a request that follows with the same addresses, session
    and seq_number is answered from the cache with that blank reply. *)
Theorem stray_ack_is_eaten {FS : Type} {F : Filesystem FS}
  (request : pending_ftp) (w : World FS) :
  is_rerequest request (reply w) = false ->
  size request <= 239 ->
  opcode request = Ack \/ opcode request = Nack ->
  fd (ftp w) = -1 \/ session request = current_session (ftp w) ->
  let w' := ftp_worker_step request w in
  trace w' = trace w /\ ftp w' = ftp w /\ fs w' = fs w /\
  reply w' = setup_reply request /\
  (forall next : pending_ftp,
     sysid next = sysid request -> compid next = compid request ->
     session next = session request -> seq_number next = seq_number request ->
     seq_number request < 65535 ->
     0 <= seq_number request ->
     sent (trace (ftp_worker_step next w'))
     = sent (trace w) ++ [setup_reply request]).
Proof.
  intros Hre Hsz Hop Hf w'. subst w'.
  assert (Ht : is_terminate_or_reset (opcode request) = false
               \/ session request = current_session (ftp w))
    by (left; destruct Hop as [-> | ->]; reflexivity).
  rewrite (ftp_worker_step_dispatch request w Hre Hsz Ht Hf).
  destruct (prepared_fields request w) as (Pf & Pr & Ps & Pc & Pt & Ptr).
  assert (Hd : dispatch request (now_ms w) (prepared request w)
               = (Eat, prepared request w))
    by (unfold dispatch; destruct Hop as [-> | ->]; reflexivity).
  rewrite Hd. cbn [finish].
  repeat (split; [assumption|]).
  intros next H1 H2 H3 H4 H5 H6.
  assert (Hn : is_rerequest next (reply (prepared request w)) = true).
  { apply is_rerequest_true. rewrite Pr. unfold setup_reply. fields.
    rewrite H1, H2, H3, H4. repeat split.
    unfold UINT16_MOD. rewrite Z.mod_small; [reflexivity|].
    change (2 ^ 16) with 65536. lia. }
  unfold ftp_worker_step. rewrite Hn.
  pose proof (ftp_push_replies_frame (reply (prepared request w))
                (prepared request w)) as P.
  cbv zeta in P. rewrite Ptr, Pr in P. apply P.
Qed.

Lemma stray_ack_is_eaten_witness :
  let request := RamFS.request 20 1 Ack 0 0 [] in
  let w' := ftp_worker_step request RamFS.opened in
  trace w' = trace RamFS.opened /\ ftp w' = ftp RamFS.opened /\
  fs w' = fs RamFS.opened /\ reply w' = setup_reply request /\
  (forall next : pending_ftp,
     sysid next = sysid request -> compid next = compid request ->
     session next = session request -> seq_number next = seq_number request ->
     seq_number request < 65535 ->
     0 <= seq_number request ->
     sent (trace (ftp_worker_step next w'))
     = sent (trace RamFS.opened) ++ [setup_reply request]).
Proof.
  assert (Hsz : size (RamFS.request 20 1 Ack 0 0 []) <= 239)
    by (vm_compute; discriminate).
  exact (stray_ack_is_eaten (RamFS.request 20 1 Ack 0 0 []) RamFS.opened
           eq_refl Hsz (or_introl eq_refl) (or_intror eq_refl)).
Defined.

(** ** Ending a session *)

(** X9: TerminateSession and ResetSessions are always answered with the same
    ACK (size 0, no data), never with a Nack.  From another session than
    the owner's, the session and the filesystem stay as they were, even
    while the owner is active.  From the owner's session the file is
    closed if there is one, and fd and current_session end as -1.  After
    the reply to a TerminateSession last_send_ms is 0. *)
Theorem terminate_is_always_acked {FS : Type} {F : Filesystem FS}
  (request : pending_ftp) (w : World FS) :
  is_rerequest request (reply w) = false ->
  size request <= 239 ->
  is_terminate_or_reset (opcode request) = true ->
  let w' := ftp_worker_step request w in
  sent (trace w') = sent (trace w) ++ [with_opcode Ack (setup_reply request)] /\
  reply w' = with_opcode Ack (setup_reply request) /\
  (session request <> current_session (ftp w) -> same_session w w') /\
  (session request = current_session (ftp w) ->
   fd (ftp w') = -1 /\ current_session (ftp w') = -1 /\
   fs w' = (if fd (ftp w) =? -1 then fs w else fs_close (fd (ftp w)) (fs w)) /\
   open_handles (trace w')
   = (if fd (ftp w) =? -1 then open_handles (trace w)
      else remove_handle (fd (ftp w)) (open_handles (trace w)))) /\
  (opcode request = TerminateSession -> last_send_ms (ftp w') = 0).
Proof.
  intros Hre Hsz Hop w'. subst w'.
  destruct (prepared_fields request w) as (Pf & Pr & Ps & Pc & Pt & Ptr).
  assert (Hreq : forall x, req_opcode (with_opcode Ack (setup_reply x)) = opcode x)
    by reflexivity.
  destruct (Z.eqb_spec (session request) (current_session (ftp w))) as [Hs|Hs].
  - (* the owner's session: the dispatcher closes *)
    rewrite (ftp_worker_step_dispatch request w Hre Hsz (or_intror Hs)
               (or_intror Hs)).
    assert (Hd : dispatch request (now_ms w) (prepared request w)
                 = (PushReply, op_terminate (prepared request w))).
    { unfold dispatch. destruct (opcode request); try discriminate Hop;
        reflexivity. }
    rewrite Hd. cbn [finish].
    set (w2 := op_terminate (prepared request w)).
    assert (Hr2 : reply w2 = with_opcode Ack (setup_reply request)).
    { unfold w2, op_terminate, FS_close.
      destruct (negb (fd (ftp (prepared request w)) =? -1)); fields;
        rewrite Pr; reflexivity. }
    assert (H2 : fd (ftp w2) = -1 /\ current_session (ftp w2) = -1 /\
                 fs w2 = (if fd (ftp w) =? -1 then fs w
                          else fs_close (fd (ftp w)) (fs w)) /\
                 trace w2 = (if fd (ftp w) =? -1 then trace w
                             else EvClose (fd (ftp w)) :: trace w)).
    { unfold w2, op_terminate, FS_close. rewrite Pf.
      destruct (fd (ftp w) =? -1) eqn:E; cbn [negb]; fields;
        rewrite ?Pf, ?Ps, ?Ptr; repeat split; auto.
      apply Z.eqb_eq in E. exact E. }
    destruct H2 as (F1 & F2 & F3 & F4).
    pose proof (ftp_push_replies_frame (reply w2) w2) as P. cbv zeta in P.
    destruct P as (P1 & P2 & _ & _ & P5 & _ & P7 & P8 & P9 & P10 & _).
    rewrite Hr2 in *.
    split; [rewrite P9; f_equal; rewrite F4;
            destruct (fd (ftp w) =? -1); reflexivity|].
    split; [exact P1|].
    split; [intros Hn; contradiction|].
    split.
    + intros _. rewrite P5, P7, P2, P10, F4.
      repeat (split; [assumption|]).
      destruct (fd (ftp w) =? -1); reflexivity.
    + intros Ht. rewrite P8, Hreq, Ht. reflexivity.
  - (* another session: just the ACK *)
    rewrite (ftp_worker_step_checked request w Hre Hsz). cbv zeta.
    assert (Hb : negb (session request =? current_session (ftp w))
                 && is_terminate_or_reset (opcode request) = true).
    { rewrite Hop. apply Z.eqb_neq in Hs. rewrite Hs. reflexivity. }
    rewrite Hb.
    set (w1 := upd_reply (with_opcode Ack) (prepared request w)).
    pose proof (ftp_push_replies_frame (with_opcode Ack (setup_reply request))
                  w1) as P.
    cbv zeta in P.
    destruct P as (P1 & P2 & _ & _ & P5 & P6 & P7 & P8 & P9 & P10 & _).
    assert (Hr1 : reply w1 = with_opcode Ack (setup_reply request))
      by (unfold w1; fields; rewrite Pr; reflexivity).
    assert (Ht1 : trace w1 = trace w) by (unfold w1; fields; exact Ptr).
    assert (Hf1 : ftp w1 = ftp w) by (unfold w1; fields; exact Pf).
    assert (Hs1 : fs w1 = fs w) by (unfold w1; fields; exact Ps).
    rewrite Ht1 in *. rewrite Hf1 in *. rewrite Hs1 in *.
    split; [exact P9|]. split; [rewrite P1; exact Hr1|].
    split; [intros _; unfold same_session; auto|].
    split; [intros Heq; contradiction|].
    intros Ht. rewrite P8, Hreq, Ht. reflexivity.
Qed.

Lemma terminate_is_always_acked_witness :
  let request := RamFS.request 20 1 TerminateSession 0 0 [] in
  let w := RamFS.opened in
  let w' := ftp_worker_step request w in
  sent (trace w') = sent (trace w) ++ [with_opcode Ack (setup_reply request)] /\
  reply w' = with_opcode Ack (setup_reply request) /\
  (session request <> current_session (ftp w) -> same_session w w') /\
  (session request = current_session (ftp w) ->
   fd (ftp w') = -1 /\ current_session (ftp w') = -1 /\
   fs w' = (if fd (ftp w) =? -1 then fs w else fs_close (fd (ftp w)) (fs w)) /\
   open_handles (trace w')
   = (if fd (ftp w) =? -1 then open_handles (trace w)
      else remove_handle (fd (ftp w)) (open_handles (trace w)))) /\
  (opcode request = TerminateSession -> last_send_ms (ftp w') = 0).
Proof.
  assert (Hsz : size (RamFS.request 20 1 TerminateSession 0 0 []) <= 239)
    by (vm_compute; discriminate).
  exact (terminate_is_always_acked
           (RamFS.request 20 1 TerminateSession 0 0 []) RamFS.opened
           eq_refl Hsz eq_refl).
Defined.

(** ** Paths *)

(** X10: A request of an opcode that takes a path, whose payload fails the
    name check, is answered with a Nack carrying InvalidDataSize, and the
    filesystem is not called: the session and the filesystem are as they
    were.  For the opcodes that open a file this holds when no file is
    open; for the others also when the request comes from the session
    that owns the open file. *)
Theorem malformed_path_refused {FS : Type} {F : Filesystem FS}
  (request : pending_ftp) (w : World FS) :
  is_rerequest request (reply w) = false ->
  size request <= 239 ->
  ftp_check_name_len request = false ->
  (fd (ftp w) = -1 /\
   In (opcode request) [OpenFileRO; CreateFile; OpenFileWO]) \/
  ((fd (ftp w) = -1 \/ session request = current_session (ftp w)) /\
   In (opcode request)
     [ListDirectory; CreateDirectory; RemoveDirectory; RemoveFile;
      CalcFileCRC32]) ->
  let w' := ftp_worker_step request w in
  exists r,
    sent (trace w') = sent (trace w) ++ [r] /\ reply w' = r /\
    opcode r = Nack /\ nth 0 (data r) 0 = error_code InvalidDataSize /\
    size r = 1 /\ same_session w w'.
Proof.
  intros Hre Hsz Hname Hop w'. subst w'.
  destruct (prepared_fields request w) as (Pf & Pr & Ps & Pc & Pt & Ptr).
  assert (Hf : fd (ftp w) = -1 \/ session request = current_session (ftp w))
    by (destruct Hop as [[H _]|[H _]]; auto).
  assert (Ht : is_terminate_or_reset (opcode request) = false
               \/ session request = current_session (ftp w)).
  { left. destruct Hop as [[_ H]|[_ H]]; cbn [In] in H;
      repeat (destruct H as [<-|H]; [reflexivity|]); contradiction. }
  rewrite (ftp_worker_step_dispatch request w Hre Hsz Ht Hf).
  remember (prepared request w) as w0 eqn:Hw0. clear Hw0.
  assert (Hd : exists w1,
            dispatch request (now_ms w) w0
            = (PushReply, reply_error InvalidDataSize w1) /\
            length (data (reply w1)) = DATA_LEN /\
            ftp w1 = ftp w /\ fs w1 = fs w /\ trace w1 = trace w).
  { assert (Hl0 : length (data (reply w0)) = DATA_LEN)
      by (rewrite Pr; apply repeat_length).
    unfold dispatch.
    destruct Hop as [[Hfd H]|[_ H]]; cbn [In] in H;
      repeat (destruct H as [<-|H];
              [|try contradiction]).
    - exists w0. unfold op_open_ro. rewrite Pf, Hfd, Z.eqb_refl.
      cbn [negb andb]. rewrite Pf, Hfd, Z.eqb_refl.
      cbn [negb]. rewrite Hname. cbn [negb]. auto.
    - exists w0. unfold op_open_wo. rewrite Pf, Hfd, Z.eqb_refl.
      cbn [negb]. rewrite Hname. cbn [negb]. auto.
    - exists w0. unfold op_open_wo. rewrite Pf, Hfd, Z.eqb_refl.
      cbn [negb]. rewrite Hname. cbn [negb]. auto.
    - exists (upd_reply (with_offset (offset request)) w0).
      unfold ftp_list_dir. rewrite Hname. cbn [negb]. fields. auto.
    - exists w0. unfold op_mkdir. rewrite Hname. cbn [negb]. auto.
    - exists w0. unfold op_unlink. rewrite Hname. cbn [negb]. auto.
    - exists w0. unfold op_unlink. rewrite Hname. cbn [negb]. auto.
    - exists w0. unfold op_crc32. rewrite Hname. cbn [negb]. auto. }
  destruct Hd as (w1 & Hd & Hl & H1 & H2 & H3). rewrite Hd. cbn [finish].
  destruct (push_reply_error InvalidDataSize w w1) as (r & R);
    try assumption; try discriminate.
  exists r. intuition.
Qed.

Lemma malformed_path_refused_witness :
  let request := RamFS.request 20 1 RemoveFile 5 0 [47; 97] in
  let w' := ftp_worker_step request RamFS.opened in
  exists r,
    sent (trace w') = sent (trace RamFS.opened) ++ [r] /\ reply w' = r /\
    opcode r = Nack /\ nth 0 (data r) 0 = error_code InvalidDataSize /\
    size r = 1 /\ same_session RamFS.opened w'.
Proof.
  assert (Hsz : size (RamFS.request 20 1 RemoveFile 5 0 [47; 97]) <= 239)
    by (vm_compute; discriminate).
  apply (malformed_path_refused
           (RamFS.request 20 1 RemoveFile 5 0 [47; 97]) RamFS.opened
           eq_refl Hsz eq_refl).
  right. split; [right; reflexivity|]. cbn [In opcode RamFS.request]. tauto.
Defined.
(** ** Opening, reading and writing a file *)

Lemma blit_zeros (src : list Z) :
  forall n : nat, (length src <= n)%nat ->
  blit 0 src (repeat 0 n) = src ++ repeat 0 (n - length src).
Proof.
  induction src as [|c src IH]; intros n Hn.
  - cbn [length app]. rewrite Nat.sub_0_r. apply blit_nil.
  - destruct n as [|n]; [cbn in Hn; lia|].
    cbn [repeat blit length app Nat.sub]. rewrite IH by (cbn in Hn; lia).
    reflexivity.
Qed.

Lemma le32toh_le32_bytes (v : Z) (rest : list Z) :
  le32toh (le32 (v mod UINT32_MOD) ++ rest) = v mod UINT32_MOD.
Proof.
  apply le32toh_le32. apply Z.mod_pos_bound. reflexivity.
Qed.

(** X11: OpenFileRO with no file open and a well-formed path.  When stat
    fails the reply is the errno Nack and open is not called.  When open
    fails the reply is the errno Nack and no session is claimed.
    Otherwise the reply is an ACK of size 4 with the size of the file
    (modulo 2^32) in little-endian order in data[0..3] and zeros after
    it, the descriptor is in fd, the mode is Read and the session of the
    request owns the file. *)
Theorem open_read_only {FS : Type} {F : Filesystem FS}
  (request : pending_ftp) (w : World FS) (rc : Z) (st : stat_t) (s1 : FS) :
  is_rerequest request (reply w) = false ->
  size request <= 239 ->
  opcode request = OpenFileRO ->
  fd (ftp w) = -1 ->
  ftp_check_name_len request = true ->
  fs_stat (request_path request) (fs w) = (rc, st, s1) ->
  let w' := ftp_worker_step request w in
  (rc <> 0 ->
   sent (trace w') = sent (trace w)
                     ++ [ftp_error (setup_reply request) FailErrno (errno s1)] /\
   fs w' = s1 /\ fd (ftp w') = -1 /\
   current_session (ftp w') = current_session (ftp w) /\
   open_handles (trace w') = open_handles (trace w)) /\
  (rc = 0 ->
   forall (h : Z) (s2 : FS),
   fs_open (request_path request) O_RDONLY s1 = (h, s2) ->
   fs w' = s2 /\
   (h = -1 ->
    sent (trace w') = sent (trace w)
                      ++ [ftp_error (setup_reply request) FailErrno (errno s2)] /\
    fd (ftp w') = -1 /\
    current_session (ftp w') = current_session (ftp w) /\
    open_handles (trace w') = open_handles (trace w)) /\
   (h <> -1 ->
    exists r,
      sent (trace w') = sent (trace w) ++ [r] /\
      opcode r = Ack /\ size r = 4 /\
      data r = le32 (st_size st mod UINT32_MOD) ++ repeat 0 235 /\
      le32toh (data r) = st_size st mod UINT32_MOD /\
      same_header (setup_reply request) r /\
      fd (ftp w') = h /\ mode (ftp w') = Read /\
      current_session (ftp w') = session request /\
      open_handles (trace w') = h :: open_handles (trace w))).
Proof.
  intros Hre Hsz Hop Hfd Hname Hstat w'. subst w'.
  destruct (prepared_fields request w) as (Pf & Pr & Ps & Pc & Pt & Ptr).
  rewrite (ftp_worker_step_dispatch request w Hre Hsz)
    by (auto; left; rewrite Hop; reflexivity).
  remember (prepared request w) as w0 eqn:Hw0. clear Hw0.
  unfold dispatch. rewrite Hop. cbn [finish].
  match goal with |- context [ftp_push_replies ?r ?x] =>
    pose proof (ftp_push_replies_frame r x) as P; cbv zeta in P;
    destruct P as (P1 & P2 & _ & _ & P5 & P6 & P7 & _ & P9 & P10 & _)
  end.
  rewrite P2, P5, P6, P7, P9, P10. clear P1 P2 P5 P6 P7 P9 P10.
  unfold op_open_ro. rewrite Pf, Hfd, Z.eqb_refl. cbn [negb andb].
  rewrite Pf, Hfd, Z.eqb_refl. cbn [negb]. rewrite Hname. cbn [negb].
  rewrite Ps, Hstat.
  destruct (Z.eqb_spec rc 0) as [Hrc|Hrc]; cbn [negb].
  - split; [intros Hn; contradiction|]. intros _ h s2 Hopen.
    unfold FS_open. fields. rewrite Hopen.
    destruct (Z.eqb_spec h (-1)) as [Hh|Hh].
    + unfold reply_error. fields. rewrite Pr, Pf, Ptr.
      split; [reflexivity|]. split; [|intros Hn; contradiction].
      intros _. unfold with_fd. fields. auto.
    + fields.
      assert (Hdata : blit 0 (le32 (st_size st mod UINT32_MOD))
                        (data (setup_reply request))
                      = le32 (st_size st mod UINT32_MOD) ++ repeat 0 235).
      { unfold setup_reply. fields. rewrite blit_zeros; [reflexivity|].
        unfold DATA_LEN, le32. cbn [length]. lia. }
      destruct (bytes_eqb _ PARAM_PCK); fields; rewrite ?Pr, ?Ptr, ?Pf;
        (split; [reflexivity|]); (split; [intros Hn; contradiction|]);
        intros _; eexists; (split; [reflexivity|]); fields;
        rewrite Hdata;
        repeat (split; [reflexivity|]);
        (split; [apply le32toh_le32_bytes|]);
        (split; [unfold same_header, setup_reply; fields; repeat split|]);
        cbn [open_handles]; auto.
  - split; [|intros Hn; contradiction]. intros _.
    unfold reply_error. fields. rewrite Pr, Pf, Ptr. auto.
Qed.

Lemma open_read_only_witness :
  let request := RamFS.open_a in
  let w := RamFS.boot in
  let w' := ftp_worker_step request w in
  exists r,
    sent (trace w') = sent (trace w) ++ [r] /\
    opcode r = Ack /\ size r = 4 /\
    data r = le32 (300 mod UINT32_MOD) ++ repeat 0 235 /\
    le32toh (data r) = 300 mod UINT32_MOD /\
    same_header (setup_reply request) r /\
    fd (ftp w') = 3 /\ mode (ftp w') = Read /\
    current_session (ftp w') = session request /\
    open_handles (trace w') = 3 :: open_handles (trace w).
Proof.
  assert (Hsz : size RamFS.open_a <= 239) by (vm_compute; discriminate).
  assert (Hst : fs_stat (request_path RamFS.open_a) (fs RamFS.boot)
                = (0, mk_stat 300 false, RamFS.disk))
    by (vm_compute; reflexivity).
  assert (Hopen : fs_open (request_path RamFS.open_a) O_RDONLY RamFS.disk
                  = (3, RamFS.mk [(RamFS.path_a, repeat 7 300)]
                          (Some (RamFS.path_a, 0)) 0))
    by (vm_compute; reflexivity).
  destruct (open_read_only RamFS.open_a RamFS.boot 0 (mk_stat 300 false)
              RamFS.disk eq_refl Hsz eq_refl eq_refl eq_refl Hst)
    as [_ H].
  destruct (H eq_refl _ _ Hopen) as (_ & _ & H3).
  apply H3. discriminate.
Defined.

(** X12: ReadFile from the session that owns a file open for reading: the
    file is positioned at the offset of the request and at most
    [size] bytes are read.  A failed seek or read gives the errno Nack;
    no byte read gives EndOfFile (so a ReadFile of size 0 gets EndOfFile
    at any offset); otherwise the reply is an ACK with the offset of the
    request, the number of bytes read in size, and the bytes followed by
    zeros in data.  The session is as it was. *)
Theorem read_file {FS : Type} {F : Filesystem FS}
  (request : pending_ftp) (w : World FS) (pos : Z) (s1 : FS) :
  is_rerequest request (reply w) = false ->
  0 <= size request <= 239 ->
  opcode request = ReadFile ->
  fd (ftp w) <> -1 ->
  session request = current_session (ftp w) ->
  mode (ftp w) = Read ->
  fs_lseek (fd (ftp w)) (offset request) (fs w) = (pos, s1) ->
  let w' := ftp_worker_step request w in
  fd (ftp w') = fd (ftp w) /\ mode (ftp w') = Read /\
  current_session (ftp w') = current_session (ftp w) /\
  open_handles (trace w') = open_handles (trace w) /\
  (pos = -1 ->
   fs w' = s1 /\
   sent (trace w') = sent (trace w)
                     ++ [ftp_error (setup_reply request) FailErrno (errno s1)]) /\
  (pos <> -1 ->
   forall (rd : option (list Z)) (s2 : FS),
   fs_read (fd (ftp w)) (size request) s1 = (rd, s2) ->
   fs w' = s2 /\
   match rd with
   | None =>
       sent (trace w') = sent (trace w)
                         ++ [ftp_error (setup_reply request) FailErrno (errno s2)]
   | Some raw =>
       let bytes := firstn (Z.to_nat (size request)) raw in
       (bytes = [] ->
        sent (trace w') = sent (trace w)
                          ++ [ftp_error (setup_reply request) EndOfFile (errno s2)]) /\
       (bytes <> [] ->
        exists r,
          sent (trace w') = sent (trace w) ++ [r] /\
          opcode r = Ack /\ offset r = offset request /\
          size r = Z.of_nat (length bytes) /\
          data r = bytes ++ repeat 0 (DATA_LEN - length bytes) /\
          same_header (setup_reply request) r)
   end).
Proof.
  intros Hre Hsz Hop Hfd Hs Hmode Hseek w'. subst w'.
  destruct (prepared_fields request w) as (Pf & Pr & Ps & Pc & Pt & Ptr).
  rewrite (ftp_worker_step_dispatch request w Hre (proj2 Hsz))
    by (auto; left; rewrite Hop; reflexivity).
  remember (prepared request w) as w0 eqn:Hw0. clear Hw0.
  unfold dispatch. rewrite Hop. cbn [finish].
  match goal with |- context [ftp_push_replies ?r ?x] =>
    pose proof (ftp_push_replies_frame r x) as P; cbv zeta in P;
    destruct P as (P1 & P2 & _ & _ & P5 & P6 & P7 & _ & P9 & P10 & _)
  end.
  rewrite P2, P5, P6, P7, P9, P10. clear P1 P2 P5 P6 P7 P9 P10.
  apply Z.eqb_neq in Hfd.
  unfold op_read. rewrite Pf, Hfd, Hmode, Ps, Hseek.
  replace (Z.min (Z.of_nat DATA_LEN) (size request)) with (size request)
    by (unfold DATA_LEN; lia).
  destruct (Z.eqb_spec pos (-1)) as [Hpos|Hpos].
  - unfold reply_error. fields. rewrite Pf, Pr, Ptr, Hmode.
    repeat (split; [reflexivity|]).
    split; [auto | intros Hn; contradiction].
  - fields. rewrite ?Pf.
    assert (Hframe :
      forall w1 : World FS,
      ftp w1 = ftp w -> trace w1 = trace w ->
      fd (ftp w1) = fd (ftp w) /\ mode (ftp w1) = Read /\
      current_session (ftp w1) = current_session (ftp w) /\
      open_handles (trace w1) = open_handles (trace w)).
    { intros w1 -> ->. auto. }
    destruct (fs_read (fd (ftp w)) (size request) s1) as [rd s2] eqn:Hread.
    assert (Hgoal :
      forall w1 : World FS,
      ftp w1 = ftp w -> trace w1 = trace w ->
      (fs w1 = s2 /\
       match rd with
       | None =>
           sent (trace w1) ++ [reply w1]
           = sent (trace w)
             ++ [ftp_error (setup_reply request) FailErrno (errno s2)]
       | Some raw =>
           let bytes := firstn (Z.to_nat (size request)) raw in
           (bytes = [] ->
            sent (trace w1) ++ [reply w1]
            = sent (trace w)
              ++ [ftp_error (setup_reply request) EndOfFile (errno s2)]) /\
           (bytes <> [] ->
            exists r,
              sent (trace w1) ++ [reply w1] = sent (trace w) ++ [r] /\
              opcode r = Ack /\ offset r = offset request /\
              size r = Z.of_nat (length bytes) /\
              data r = bytes ++ repeat 0 (DATA_LEN - length bytes) /\
              same_header (setup_reply request) r)
       end) ->
      fd (ftp w1) = fd (ftp w) /\ mode (ftp w1) = Read /\
      current_session (ftp w1) = current_session (ftp w) /\
      open_handles (trace w1) = open_handles (trace w) /\
      (pos = -1 ->
       fs w1 = s1 /\
       sent (trace w1) ++ [reply w1]
       = sent (trace w)
         ++ [ftp_error (setup_reply request) FailErrno (errno s1)]) /\
      (pos <> -1 ->
       forall (rd0 : option (list Z)) (s3 : FS),
       (rd, s2) = (rd0, s3) ->
       fs w1 = s3 /\
       match rd0 with
       | None =>
           sent (trace w1) ++ [reply w1]
           = sent (trace w)
             ++ [ftp_error (setup_reply request) FailErrno (errno s3)]
       | Some raw =>
           let bytes := firstn (Z.to_nat (size request)) raw in
           (bytes = [] ->
            sent (trace w1) ++ [reply w1]
            = sent (trace w)
              ++ [ftp_error (setup_reply request) EndOfFile (errno s3)]) /\
           (bytes <> [] ->
            exists r,
              sent (trace w1) ++ [reply w1] = sent (trace w) ++ [r] /\
              opcode r = Ack /\ offset r = offset request /\
              size r = Z.of_nat (length bytes) /\
              data r = bytes ++ repeat 0 (DATA_LEN - length bytes) /\
              same_header (setup_reply request) r)
       end)).
    { intros w1 H1 H2 H3. destruct (Hframe w1 H1 H2) as (A & B & C & D).
      repeat (split; [assumption|]).
      split; [intros Hn; contradiction|].
      intros _ rd0 s3 Heq. injection Heq as <- <-. exact H3. }
    destruct rd as [raw|].
    + set (bytes := firstn (Z.to_nat (size request)) raw).
      assert (Hbl : (length bytes <= DATA_LEN)%nat).
      { unfold bytes, DATA_LEN. rewrite length_firstn. lia. }
      assert (Hdata : blit 0 bytes (data (setup_reply request))
                      = bytes ++ repeat 0 (DATA_LEN - length bytes)).
      { unfold setup_reply. fields. apply blit_zeros. exact Hbl. }
      destruct (Z.eqb_spec (Z.of_nat (length bytes)) 0) as [Hz|Hz].
      * apply Hgoal; unfold reply_error; fields; auto.
        split; [reflexivity|]. rewrite Ptr, Pr. cbv zeta. fold bytes.
        split; [|intros Hn; destruct bytes; [contradiction|discriminate]].
        intros Hb. rewrite Hb. rewrite blit_nil. reflexivity.
      * apply Hgoal; fields; auto.
        split; [reflexivity|]. rewrite Ptr, Pr. cbv zeta. fold bytes.
        split; [intros Hb; rewrite Hb in Hz; contradiction|].
        intros _. eexists. split; [reflexivity|]. fields.
        rewrite Hdata.
        split; [reflexivity|]. split; [reflexivity|].
        split; [apply Z.mod_small; unfold DATA_LEN in Hbl; lia|].
        split; [reflexivity|].
        unfold same_header, setup_reply; fields; repeat split.
    + apply Hgoal; unfold reply_error; fields; auto.
      rewrite Ptr, Pr. auto.
Qed.

Lemma read_file_witness :
  let request := RamFS.request 11 1 ReadFile 10 0 [] in
  let w := RamFS.opened in
  let w' := ftp_worker_step request w in
  exists r,
    sent (trace w') = sent (trace w) ++ [r] /\
    opcode r = Ack /\ offset r = offset request /\
    size r = Z.of_nat (length (firstn (Z.to_nat (size request)) (repeat 7 10))) /\
    data r = firstn (Z.to_nat (size request)) (repeat 7 10)
             ++ repeat 0 (DATA_LEN
                          - length (firstn (Z.to_nat (size request))
                                      (repeat 7 10))) /\
    same_header (setup_reply request) r.
Proof.
  set (request := RamFS.request 11 1 ReadFile 10 0 []).
  set (s1 := RamFS.mk [(RamFS.path_a, repeat 7 300)] (Some (RamFS.path_a, 0)) 0).
  set (s2 := RamFS.mk [(RamFS.path_a, repeat 7 300)] (Some (RamFS.path_a, 10)) 0).
  assert (Hsz : 0 <= size request <= 239) by (vm_compute; split; discriminate).
  assert (Hfd : fd (ftp RamFS.opened) <> -1) by (vm_compute; discriminate).
  assert (Hseek : fs_lseek (fd (ftp RamFS.opened)) (offset request)
                    (fs RamFS.opened) = (0, s1))
    by (vm_compute; reflexivity).
  assert (Hread : fs_read (fd (ftp RamFS.opened)) (size request) s1
                  = (Some (repeat 7 10), s2))
    by (vm_compute; reflexivity).
  destruct (read_file request RamFS.opened 0 s1 eq_refl Hsz eq_refl Hfd
              eq_refl eq_refl Hseek) as (_ & _ & _ & _ & _ & H).
  assert (H0 : 0 <> -1) by discriminate.
  destruct (H H0 _ _ Hread) as (_ & _ & H2).
  apply H2. vm_compute. discriminate.
Defined.

(** X13: WriteFile from the session that owns a file open for writing: the
    file is positioned at the offset of the request and the first [size]
    bytes of data are handed to write.  A failed seek or write gives the
    errno Nack.  Any other result of write, a short count included, gives
    the same ACK: it carries the offset of the request, and its size is 0
    whatever was written.  The session is as it was. *)
Theorem write_file {FS : Type} {F : Filesystem FS}
  (request : pending_ftp) (w : World FS) (pos : Z) (s1 : FS) :
  is_rerequest request (reply w) = false ->
  0 <= size request <= 239 ->
  opcode request = WriteFile ->
  fd (ftp w) <> -1 ->
  session request = current_session (ftp w) ->
  mode (ftp w) = Write ->
  fs_lseek (fd (ftp w)) (offset request) (fs w) = (pos, s1) ->
  let w' := ftp_worker_step request w in
  fd (ftp w') = fd (ftp w) /\ mode (ftp w') = Write /\
  current_session (ftp w') = current_session (ftp w) /\
  open_handles (trace w') = open_handles (trace w) /\
  (pos = -1 ->
   fs w' = s1 /\
   sent (trace w') = sent (trace w)
                     ++ [ftp_error (setup_reply request) FailErrno (errno s1)]) /\
  (pos <> -1 ->
   forall (n : Z) (s2 : FS),
   fs_write (fd (ftp w)) (firstn (Z.to_nat (size request)) (data request)) s1
   = (n, s2) ->
   fs w' = s2 /\
   (n = -1 ->
    sent (trace w') = sent (trace w)
                      ++ [ftp_error (setup_reply request) FailErrno (errno s2)]) /\
   (n <> -1 ->
    sent (trace w') = sent (trace w)
                      ++ [with_offset (offset request)
                            (with_opcode Ack (setup_reply request))])).
Proof.
  intros Hre Hsz Hop Hfd Hs Hmode Hseek w'. subst w'.
  destruct (prepared_fields request w) as (Pf & Pr & Ps & Pc & Pt & Ptr).
  rewrite (ftp_worker_step_dispatch request w Hre (proj2 Hsz))
    by (auto; left; rewrite Hop; reflexivity).
  remember (prepared request w) as w0 eqn:Hw0. clear Hw0.
  unfold dispatch. rewrite Hop. cbn [finish].
  match goal with |- context [ftp_push_replies ?r ?x] =>
    pose proof (ftp_push_replies_frame r x) as P; cbv zeta in P;
    destruct P as (P1 & P2 & _ & _ & P5 & P6 & P7 & _ & P9 & P10 & _)
  end.
  rewrite P2, P5, P6, P7, P9, P10. clear P1 P2 P5 P6 P7 P9 P10.
  apply Z.eqb_neq in Hfd.
  unfold op_write. rewrite Pf, Hfd, Hmode, Ps, Hseek.
  destruct (Z.eqb_spec pos (-1)) as [Hpos|Hpos].
  - unfold reply_error. fields. rewrite Pf, Pr, Ptr, Hmode.
    repeat (split; [reflexivity|]).
    split; [auto | intros Hn; contradiction].
  - fields. rewrite ?Pf.
    destruct (fs_write (fd (ftp w))
                (firstn (Z.to_nat (size request)) (data request)) s1)
      as [n s2] eqn:Hwrite.
    destruct (Z.eqb_spec n (-1)) as [Hn|Hn];
      unfold reply_error; fields; rewrite ?Pf, ?Pr, ?Ptr, Hmode;
      repeat (split; [reflexivity|]);
      (split; [intros Hc; contradiction|]);
      intros _ n0 s3 Heq; injection Heq as <- <-;
      (split; [reflexivity|]); split; intros Hc;
      try contradiction; reflexivity.
Qed.

Lemma write_file_witness :
  let request := RamFS.request 21 1 WriteFile 2 0 [8; 9] in
  let w := ftp_worker_step (RamFS.request 20 1 CreateFile 2 0 RamFS.path_a)
             RamFS.boot in
  let w' := ftp_worker_step request w in
  sent (trace w') = sent (trace w)
                    ++ [with_offset (offset request)
                          (with_opcode Ack (setup_reply request))].
Proof.
  set (request := RamFS.request 21 1 WriteFile 2 0 [8; 9]).
  set (w := ftp_worker_step (RamFS.request 20 1 CreateFile 2 0 RamFS.path_a)
              RamFS.boot).
  set (s1 := RamFS.mk [(RamFS.path_a, [])] (Some (RamFS.path_a, 0)) 0).
  set (s2 := RamFS.mk [(RamFS.path_a, [8; 9])] (Some (RamFS.path_a, 2)) 0).
  assert (Hsz : 0 <= size request <= 239) by (vm_compute; split; discriminate).
  assert (Hfd : fd (ftp w) <> -1) by (vm_compute; discriminate).
  assert (Hseek : fs_lseek (fd (ftp w)) (offset request) (fs w) = (0, s1))
    by (vm_compute; reflexivity).
  assert (Hwrite : fs_write (fd (ftp w))
                     (firstn (Z.to_nat (size request)) (data request)) s1
                   = (2, s2))
    by (vm_compute; reflexivity).
  destruct (write_file request w 0 s1 eq_refl Hsz eq_refl Hfd
              eq_refl eq_refl Hseek) as (_ & _ & _ & _ & _ & H).
  assert (H0 : 0 <> -1) by discriminate.
  destruct (H H0 _ _ Hwrite) as (_ & _ & H2).
  apply H2. discriminate.
Defined.

(** X14: A file open for writing cannot be read and a file open for reading
    cannot be written: ReadFile and BurstReadFile on a file in Write
    mode, and WriteFile on a file in Read mode, are answered with a Nack
    carrying Fail, and the filesystem is not called. *)
Theorem wrong_mode_refused {FS : Type} {F : Filesystem FS}
  (request : pending_ftp) (w : World FS) :
  is_rerequest request (reply w) = false ->
  size request <= 239 ->
  fd (ftp w) <> -1 ->
  session request = current_session (ftp w) ->
  (mode (ftp w) = Write /\
   (opcode request = ReadFile \/ opcode request = BurstReadFile)) \/
  (mode (ftp w) = Read /\ opcode request = WriteFile) ->
  let w' := ftp_worker_step request w in
  exists r,
    sent (trace w') = sent (trace w) ++ [r] /\ reply w' = r /\
    opcode r = Nack /\ nth 0 (data r) 0 = error_code Fail /\ size r = 1 /\
    same_session w w'.
Proof.
  intros Hre Hsz Hfd Hs Hcase w'. subst w'.
  destruct (prepared_fields request w) as (Pf & Pr & Ps & Pc & Pt & Ptr).
  rewrite (ftp_worker_step_dispatch request w Hre Hsz)
    by (auto; left; destruct Hcase as [[_ [-> | ->]]|[_ ->]]; reflexivity).
  assert (Hd : dispatch request (now_ms w) (prepared request w)
               = (PushReply, reply_error Fail (prepared request w))).
  { apply Z.eqb_neq in Hfd. unfold dispatch.
    destruct Hcase as [[Hm [-> | ->]]|[Hm ->]];
      unfold op_read, op_burst_read, op_write; rewrite Pf, Hfd, Hm;
      reflexivity. }
  rewrite Hd. cbn [finish]. apply push_prepared_error. discriminate.
Qed.

Lemma wrong_mode_refused_witness :
  let request := RamFS.request 11 1 WriteFile 2 0 [8; 9] in
  let w' := ftp_worker_step request RamFS.opened in
  exists r,
    sent (trace w') = sent (trace RamFS.opened) ++ [r] /\ reply w' = r /\
    opcode r = Nack /\ nth 0 (data r) 0 = error_code Fail /\ size r = 1 /\
    same_session RamFS.opened w'.
Proof.
  assert (Hsz : size (RamFS.request 11 1 WriteFile 2 0 [8; 9]) <= 239)
    by (vm_compute; discriminate).
  assert (Hfd : fd (ftp RamFS.opened) <> -1) by (vm_compute; discriminate).
  apply (wrong_mode_refused (RamFS.request 11 1 WriteFile 2 0 [8; 9])
           RamFS.opened eq_refl Hsz Hfd eq_refl).
  right. split; reflexivity.
Defined.

(** ** Retransmissions *)

(** After a step that did not answer from the cache, the cached reply
    has the header prepared for the request, unless the request was a
    burst read. *)
Lemma step_reply_header {FS : Type} {F : Filesystem FS}
  (request : pending_ftp) (w : World FS) :
  is_rerequest request (reply w) = false ->
  opcode request <> BurstReadFile ->
  same_header (setup_reply request) (reply (ftp_worker_step request w)).
Proof.
  intros Hre Hop.
  destruct (prepared_fields request w) as (Pf & Pr & Ps & Pc & Pt & Ptr).
  destruct (Z_le_gt_dec (size request) 239) as [Hle|Hgt].
  - rewrite (ftp_worker_step_checked request w Hre Hle). cbv zeta.
    destruct (negb (session request =? current_session (ftp w))
              && is_terminate_or_reset (opcode request)).
    { match goal with |- context [ftp_push_replies ?r ?x] =>
        destruct (ftp_push_replies_frame r x) as (P1 & _) end.
      rewrite P1. fields. rewrite Pr. unfold same_header. fields.
      repeat split. }
    destruct (negb (fd (ftp w) =? -1)
              && negb (session request =? current_session (ftp w))
              && (idle_ms w <? FTP_SESSION_TIMEOUT)).
    { match goal with |- context [ftp_push_replies ?r ?x] =>
        destruct (ftp_push_replies_frame r x) as (P1 & _) end.
      rewrite P1. unfold reply_error. fields. rewrite Pr.
      apply same_header_ftp_error. }
    pose proof (mute_reclaim_idle request (now_ms w) (prepared request w)) as M1.
    pose proof (mute_dispatch request (now_ms w)
                  (reclaim_idle request (now_ms w) (prepared request w)) Hop)
      as M2.
    destruct (dispatch request (now_ms w)
                (reclaim_idle request (now_ms w) (prepared request w)))
      as [o w2].
    cbn [snd] in M2.
    assert (Hh : same_header (setup_reply request) (reply w2)).
    { rewrite <- Pr. eapply same_header_trans; [apply M1 | apply M2]. }
    destruct o; cbn [finish]; try exact Hh.
    destruct (ftp_push_replies_frame (reply w2) w2) as (P1 & _).
    rewrite P1. exact Hh.
  - unfold ftp_worker_step. rewrite Hre.
    assert (Hb : (size request >? Z.of_nat DATA_LEN) = true)
      by (unfold DATA_LEN; apply Z.gtb_lt; lia).
    rewrite Hb.
    match goal with |- context [ftp_push_replies ?r ?x] =>
      destruct (ftp_push_replies_frame r x) as (P1 & _) end.
    rewrite P1. unfold reply_error. fields. apply same_header_ftp_error.
Qed.

(** X15: A request other than a burst read that arrives a second time right
    after it was processed is answered from the cache: the reply just
    cached is sent again and the filesystem, the cached reply, the
    descriptors and the session are untouched.  This needs a seq_number
    below 65535: the reply to seq_number 65535 carries 0, which 65535 + 1
    computed in int does not equal, so that request is processed again. *)
Theorem retransmission_answered_from_cache {FS : Type} {F : Filesystem FS}
  (request : pending_ftp) (w : World FS) :
  opcode request <> BurstReadFile ->
  let w1 := ftp_worker_step request w in
  let w2 := ftp_worker_step request w1 in
  (0 <= seq_number request < 65535 ->
   w2 = ftp_push_replies (reply w1) w1 /\
   sent (trace w2) = sent (trace w1) ++ [reply w1] /\
   reply w2 = reply w1 /\ same_session w1 w2) /\
  (seq_number request = 65535 ->
   is_rerequest request (reply w) = false ->
   is_rerequest request (reply w1) = false).
Proof.
  intros Hop w1 w2. split.
  - intros Hseq.
    assert (Hre1 : is_rerequest request (reply w1) = true).
    { destruct (is_rerequest request (reply w)) eqn:Hre.
      - unfold w1, ftp_worker_step. rewrite Hre.
        destruct (ftp_push_replies_frame (reply w) w) as (P1 & _).
        rewrite P1. exact Hre.
      - pose proof (step_reply_header request w Hre Hop) as Hh.
        fold w1 in Hh. destruct Hh as (H1 & _ & H3 & _ & H5 & H6).
        apply is_rerequest_true. rewrite H1, H3, H5, H6.
        unfold setup_reply. fields. repeat split.
        unfold UINT16_MOD. change (2 ^ 16) with 65536.
        rewrite Z.mod_small by lia. reflexivity. }
    assert (Hw2 : w2 = ftp_push_replies (reply w1) w1)
      by (unfold w2, ftp_worker_step; rewrite Hre1; reflexivity).
    rewrite Hw2.
    pose proof (ftp_push_replies_frame (reply w1) w1) as P. cbv zeta in P.
    split; [reflexivity|]. split; [apply P|]. split; [apply P|].
    apply same_session_push. unfold same_session. auto.
  - intros Hseq Hre.
    pose proof (step_reply_header request w Hre Hop) as Hh.
    fold w1 in Hh. destruct Hh as (H1 & _).
    unfold is_rerequest. rewrite H1, Hseq. unfold setup_reply. fields.
    rewrite Hseq. rewrite andb_false_r. reflexivity.
Qed.

Lemma retransmission_answered_from_cache_witness :
  let request := RamFS.open_a in
  let w1 := ftp_worker_step request RamFS.boot in
  let w2 := ftp_worker_step request w1 in
  w2 = ftp_push_replies (reply w1) w1 /\
  sent (trace w2) = sent (trace w1) ++ [reply w1] /\
  reply w2 = reply w1 /\ same_session w1 w2.
Proof.
  assert (Hop : opcode RamFS.open_a <> BurstReadFile) by discriminate.
  apply (proj1 (retransmission_answered_from_cache RamFS.open_a RamFS.boot Hop)).
  vm_compute. split; [discriminate | reflexivity].
Defined.
(** ** Taking over an idle session *)

(** OpenFileRO at the dispatcher, with no file open, a well-formed path,
    and stat and open succeeding. *)
Lemma op_open_ro_opens {FS : Type} {F : Filesystem FS}
  (request : pending_ftp) (now : Z) (w0 : World FS)
  (st : stat_t) (s1 : FS) (h : Z) (s2 : FS) :
  fd (ftp w0) = -1 ->
  ftp_check_name_len request = true ->
  fs_stat (request_path request) (fs w0) = (0, st, s1) ->
  fs_open (request_path request) O_RDONLY s1 = (h, s2) ->
  h <> -1 ->
  let w1 := op_open_ro request now w0 in
  fd (ftp w1) = h /\ mode (ftp w1) = Read /\
  current_session (ftp w1) = session request /\ fs w1 = s2 /\
  trace w1 = EvOpen h :: trace w0 /\
  reply w1 = with_data (blit 0 (le32 (st_size st mod UINT32_MOD))
                          (data (reply w0)))
               (with_size 4 (with_opcode Ack (reply w0))).
Proof.
  intros Hfd Hname Hstat Hopen Hh w1. subst w1.
  unfold op_open_ro. rewrite Hfd, Z.eqb_refl. cbn [negb andb].
  rewrite Hfd, Z.eqb_refl. cbn [negb]. rewrite Hname. cbn [negb].
  rewrite Hstat. rewrite Z.eqb_refl. cbn [negb].
  unfold FS_open. fields. rewrite Hopen.
  apply Z.eqb_neq in Hh. rewrite Hh. fields.
  destruct (bytes_eqb _ PARAM_PCK); fields; repeat split.
Qed.



(** ** The banner *)

Lemma calm_refl {FS : Type} {F : Filesystem FS} (w : World FS) : calm w w.
Proof. unfold calm. auto. Qed.

Lemma calm_trans {FS : Type} {F : Filesystem FS} (a b c : World FS) :
  calm a b -> calm b c -> calm a c.
Proof. unfold calm. intros (A1 & A2) (B1 & B2). split; congruence. Qed.

Lemma calm_quiet {FS : Type} {F : Filesystem FS} (w w' : World FS) :
  quiet w w' -> calm w w'.
Proof. unfold quiet, calm. intros (Hf & Ht & _). rewrite Hf, Ht. auto. Qed.

Lemma calm_upd_ftp {FS : Type} {F : Filesystem FS}
  (f : ftp_state -> ftp_state) (w : World FS) :
  (forall s, need_banner_send_mask (f s) = need_banner_send_mask s) ->
  calm w (upd_ftp f w).
Proof. unfold calm. intros Hf. fields. auto. Qed.

Lemma calm_upd_reply {FS : Type} {F : Filesystem FS}
  (f : pending_ftp -> pending_ftp) (w : World FS) : calm w (upd_reply f w).
Proof. unfold calm. fields. auto. Qed.

Lemma calm_log_open {FS : Type} {F : Filesystem FS} (h : Z) (w : World FS) :
  calm w (log (EvOpen h) w).
Proof. unfold calm. fields. cbn [banners]. auto. Qed.

Lemma calm_log_close {FS : Type} {F : Filesystem FS} (h : Z) (w : World FS) :
  calm w (log (EvClose h) w).
Proof. unfold calm. fields. cbn [banners]. auto. Qed.

Lemma calm_FS_open {FS : Type} {F : Filesystem FS}
  (path : list Z) (flags : open_flags) (w : World FS) :
  calm w (snd (FS_open path flags w)).
Proof.
  unfold FS_open. destruct (fs_open path flags (fs w)) as [h s].
  destruct (h =? -1); cbn [snd].
  - apply calm_quiet, quiet_set_fs.
  - eapply calm_trans; [apply calm_quiet, quiet_set_fs | apply calm_log_open].
Qed.

Ltac calm_steps :=
  repeat first
    [ apply calm_refl
    | assumption
    | (eapply calm_trans; [| apply calm_quiet; apply quiet_reply_error])
    | (eapply calm_trans; [| apply calm_quiet; apply quiet_set_fs])
    | (eapply calm_trans; [| apply calm_upd_ftp; intros; reflexivity])
    | (eapply calm_trans; [| apply calm_log_open])
    | (eapply calm_trans; [| apply calm_log_close])
    | (eapply calm_trans; [| apply calm_upd_reply])
    | (eapply calm_trans; [| eassumption]) ].

Ltac calm_branches :=
  repeat (cbv beta iota zeta;
          match goal with
          | |- context [FS_open ?p ?f ?w] =>
              pose proof (calm_FS_open p f w);
              destruct (FS_open p f w) as [? ?]; cbn [snd] in *
          | |- context [match ?x with _ => _ end] => destruct x eqn:?
          end).

Lemma calm_close_session {FS : Type} {F : Filesystem FS} (w : World FS) :
  calm w (close_session w).
Proof. unfold close_session, FS_close. calm_steps. Qed.

Lemma calm_reclaim_idle {FS : Type} {F : Filesystem FS}
  (request : pending_ftp) (now : Z) (w : World FS) :
  calm w (reclaim_idle request now w).
Proof.
  unfold reclaim_idle.
  match goal with |- context [if ?b then _ else _] => destruct b end;
    [apply calm_close_session | apply calm_refl].
Qed.

Lemma calm_op_terminate {FS : Type} {F : Filesystem FS} (w : World FS) :
  calm w (op_terminate w).
Proof. unfold op_terminate, FS_close. calm_branches; calm_steps. Qed.

Lemma calm_op_open_wo {FS : Type} {F : Filesystem FS}
  (request : pending_ftp) (w : World FS) : calm w (op_open_wo request w).
Proof. unfold op_open_wo. calm_branches; calm_steps. Qed.

(** The pump when no banner is owed. *)
Lemma calm_push {FS : Type} {F : Filesystem FS}
  (r : pending_ftp) (w : World FS) :
  need_banner_send_mask (ftp w) = 0 -> calm w (ftp_push_replies r w).
Proof.
  intros Hm. destruct (ftp_push_replies_no_banner r w) as [Hf Ht].
  { rewrite Hm. apply Z.land_0_l. }
  unfold calm. rewrite Hf, Ht. cbn [banners]. unfold with_last_send_ms.
  fields. auto.
Qed.

Lemma calm_burst_loop {FS : Type} {F : Filesystem FS}
  (request : pending_ftp) (max_read : Z) (n : nat) :
  forall (i : Z) (w : World FS),
  need_banner_send_mask (ftp w) = 0 ->
  calm w (burst_loop n i request max_read w).
Proof.
  induction n as [|n IH]; intros i w Hm; [apply calm_refl|].
  cbn [burst_loop].
  destruct (fs_read (fd (ftp w)) (Z.min (Z.of_nat DATA_LEN) max_read) (fs w))
    as [[raw|] s1]; [|calm_steps].
  set (w1 := upd_reply _ (set_fs s1 w)).
  assert (H1 : calm w w1) by (unfold w1; calm_steps).
  match goal with |- context [if ?b then upd_reply ?f w1 else w1] =>
    set (w2 := if b then upd_reply f w1 else w1)
  end.
  assert (H2 : calm w w2).
  { unfold w2. match goal with |- context [if ?b then _ else _] =>
      destruct b end; calm_steps. }
  clearbody w2. clear H1. clearbody w1.
  destruct (Z.of_nat (length (firstn (Z.to_nat (Z.min (Z.of_nat DATA_LEN) max_read)) raw)) =? 0);
    [calm_steps|].
  match goal with |- context [ftp_push_replies ?r ?x] =>
    set (w3 := x);
    assert (H3 : calm w w3) by (unfold w3; calm_steps);
    clearbody w3
  end.
  match goal with |- context [ftp_push_replies ?r ?x] =>
    assert (H4 : calm w (ftp_push_replies r x))
      by (eapply calm_trans; [exact H3|]; apply calm_push;
          rewrite (proj1 H3); exact Hm);
    generalize dependent (ftp_push_replies r x)
  end.
  intros w4 H4.
  eapply calm_trans; [|apply IH].
  - match goal with |- context [if ?b then _ else _] => destruct b end;
      calm_steps.
  - match goal with |- context [if ?b then _ else _] => destruct b end;
      fields; rewrite (proj1 H4); exact Hm.
Qed.

Lemma calm_op_burst_read {FS : Type} {F : Filesystem FS}
  (request : pending_ftp) (w : World FS) :
  need_banner_send_mask (ftp w) = 0 ->
  calm w (snd (op_burst_read request w)).
Proof.
  intros Hm. unfold op_burst_read.
  destruct (fd (ftp w) =? -1); [cbn [snd]; calm_steps|].
  destruct (mode (ftp w)); [|cbn [snd]; calm_steps].
  destruct (fs_lseek (fd (ftp w)) (offset request) (fs w)) as [pos s].
  destruct (pos =? -1); [cbn [snd]; calm_steps|].
  assert (H : calm w (burst_loop transfer_size 0 request
                        (burst_max_read request) (set_fs s w))).
  { eapply calm_trans; [apply calm_quiet, quiet_set_fs|].
    apply calm_burst_loop. exact Hm. }
  destruct (negb _); exact H.
Qed.
Lemma mask_clear (b : Z) : Z.land (b mod 256) (Z.lnot b) = 0.
Proof.
  change 256 with (2 ^ 8). rewrite <- Z.land_ones by lia.
  apply Z.bits_inj'. intros n Hn.
  rewrite !Z.land_spec, Z.lnot_spec, Z.bits_0 by lia.
  destruct (Z.testbit b n); cbn [negb andb]; rewrite ?andb_false_r;
    reflexivity.
Qed.

Lemma mask_self (b : Z) : Z.land (b mod 256) b = b mod 256.
Proof.
  change 256 with (2 ^ 8). rewrite <- Z.land_ones by lia.
  apply Z.bits_inj'. intros n Hn.
  rewrite !Z.land_spec.
  destruct (Z.testbit b n); cbn [andb]; rewrite ?andb_true_r; reflexivity.
Qed.

(** The pump when the banner of the channel of the message is the one
    owed. *)
Lemma push_owed {FS : Type} {F : Filesystem FS}
  (r : pending_ftp) (w : World FS) :
  need_banner_send_mask (ftp w) = chan_bit (chan r) mod 256 ->
  need_banner_send_mask (ftp (ftp_push_replies r w)) = 0 /\
  trace (ftp_push_replies r w)
  = (if chan_bit (chan r) mod 256 =? 0 then [EvSend r]
     else [EvBanner; EvSend r]) ++ trace w.
Proof.
  intros Hm. unfold ftp_push_replies, millis.
  destruct (is_TerminateSession (req_opcode r)); fields; rewrite Hm;
    rewrite mask_self;
    destruct (chan_bit (chan r) mod 256 =? 0) eqn:E; cbn [negb]; fields;
    rewrite ?Hm, ?mask_clear; auto;
    apply Z.eqb_eq in E; auto.
Qed.

Lemma chan_bit_low (c : Z) : 0 <= c < 8 -> chan_bit c mod 256 <> 0.
Proof.
  intros Hc.
  assert (H : c = 0 \/ c = 1 \/ c = 2 \/ c = 3 \/ c = 4 \/ c = 5 \/ c = 6
              \/ c = 7) by lia.
  repeat (destruct H as [-> | H]; [vm_compute; discriminate|]).
  subst c. vm_compute. discriminate.
Qed.

(** What OpenFileRO leaves of the banner: none sent, and one owed only
    when a file whose path starts with the name of the parameter file
    was opened; it is owed on the channel of the reply. *)
Lemma banner_op_open_ro {FS : Type} {F : Filesystem FS}
  (request : pending_ftp) (now : Z) (w : World FS) :
  opcode request = OpenFileRO ->
  need_banner_send_mask (ftp w) = 0 ->
  let w1 := op_open_ro request now w in
  banners (trace w1) = banners (trace w) /\
  (need_banner_send_mask (ftp w1) = 0 \/
   (need_banner_send_mask (ftp w1) = chan_bit (chan (reply w)) mod 256 /\
    asks_param request = true /\
    fd (ftp w1) <> -1 /\ current_session (ftp w1) = session request)).
Proof.
  intros Hop Hm w1. subst w1. unfold op_open_ro.
  match goal with |- context [if ?b then close_session w else w] =>
    assert (H0 : calm w (if b then close_session w else w))
      by (destruct b; [apply calm_close_session | apply calm_refl]);
    assert (Hr0 : reply (if b then close_session w else w) = reply w)
      by (destruct b; reflexivity);
    generalize dependent (if b then close_session w else w)
  end.
  intros w0 H0 Hr0.
  assert (Hcalm : forall w', calm w w' ->
            banners (trace w') = banners (trace w) /\
            (need_banner_send_mask (ftp w') = 0 \/
             (need_banner_send_mask (ftp w')
              = chan_bit (chan (reply w)) mod 256 /\
              asks_param request = true /\
              fd (ftp w') <> -1 /\
              current_session (ftp w') = session request))).
  { intros w' (C1 & C2). split; [exact C2|]. left. congruence. }
  destruct (negb (fd (ftp w0) =? -1)); [apply Hcalm; calm_steps|].
  destruct (negb (ftp_check_name_len request)); [apply Hcalm; calm_steps|].
  destruct (fs_stat (request_path request) (fs w0)) as [[rc st] s1].
  destruct (negb (rc =? 0)); [apply Hcalm; calm_steps|].
  pose proof (calm_FS_open (request_path request) O_RDONLY (set_fs s1 w0)) as Ho.
  pose proof (FS_open_reply (request_path request) O_RDONLY (set_fs s1 w0)) as Hro.
  destruct (FS_open (request_path request) O_RDONLY (set_fs s1 w0)) as [h w2].
  cbn [snd] in Ho, Hro. fields.
  assert (H2 : calm w w2).
  { eapply calm_trans; [exact H0|]. eapply calm_trans; [|exact Ho].
    apply calm_quiet, quiet_set_fs. }
  destruct (Z.eqb_spec h (-1)) as [Hh|Hh]; [apply Hcalm; calm_steps|].
  destruct (bytes_eqb _ PARAM_PCK) eqn:Hp; [|apply Hcalm; calm_steps].
  fields. destruct H2 as (M2 & B2). rewrite M2, Hm, B2, Hro, Hr0.
  split; [reflexivity|]. right.
  split; [reflexivity|].
  split; [unfold asks_param; rewrite Hop; exact Hp|].
  split; [exact Hh | reflexivity].
Qed.

Lemma calm_dispatch {FS : Type} {F : Filesystem FS}
  (request : pending_ftp) (now : Z) (w : World FS) :
  opcode request <> OpenFileRO ->
  need_banner_send_mask (ftp w) = 0 ->
  calm w (snd (dispatch request now w)).
Proof.
  intros Hne Hm. unfold dispatch.
  destruct (opcode request); try congruence; cbn [snd];
    first
      [ solve [auto using calm_op_terminate, calm_op_open_wo, calm_refl,
                 calm_op_burst_read]
      | solve [apply calm_quiet;
               auto using quiet_reply_error, quiet_ftp_list_dir,
                 quiet_op_read, quiet_op_write, quiet_op_mkdir,
                 quiet_op_unlink, quiet_op_crc32, quiet_op_rename,
                 quiet_refl]
      | solve [calm_steps] ].
Qed.

(** One turn of the worker that starts with no banner owed ends with no
    banner owed, and calls send_banner() only when it opened for reading
    a file whose path starts with the name of the parameter file, and
    then once. *)
Lemma banner_step {FS : Type} {F : Filesystem FS}
  (request : pending_ftp) (w : World FS) :
  need_banner_send_mask (ftp w) = 0 ->
  let w' := ftp_worker_step request w in
  need_banner_send_mask (ftp w') = 0 /\
  (banners (trace w') = banners (trace w) \/
   (banners (trace w') = S (banners (trace w)) /\
    asks_param request = true /\
    is_rerequest request (reply w) = false /\
    fd (ftp w') <> -1 /\ current_session (ftp w') = session request)).
Proof.
  intros Hm w'. subst w'.
  assert (Hcalm : forall w1, calm w w1 ->
            need_banner_send_mask (ftp w1) = 0 /\
            (banners (trace w1) = banners (trace w) \/
             (banners (trace w1) = S (banners (trace w)) /\
              asks_param request = true /\
              is_rerequest request (reply w) = false /\
              fd (ftp w1) <> -1 /\
              current_session (ftp w1) = session request))).
  { intros w1 (C1 & C2). split; [congruence | left; exact C2]. }
  assert (Hpush : forall r w1, calm w w1 -> calm w (ftp_push_replies r w1)).
  { intros r w1 H1. eapply calm_trans; [exact H1|]. apply calm_push.
    rewrite (proj1 H1). exact Hm. }
  destruct (is_rerequest request (reply w)) eqn:Hre.
  { unfold ftp_worker_step. rewrite Hre. apply Hcalm, Hpush, calm_refl. }
  destruct (prepared_fields request w) as (Pf & Pr & Ps & Pc & Pt & Ptr).
  assert (H0 : calm w (prepared request w))
    by (unfold calm; rewrite Pf, Ptr; auto).
  destruct (Z_le_gt_dec (size request) 239) as [Hle|Hgt].
  - rewrite (ftp_worker_step_checked request w Hre Hle). cbv zeta.
    destruct (negb (session request =? current_session (ftp w))
              && is_terminate_or_reset (opcode request)).
    { apply Hcalm, Hpush. calm_steps. }
    destruct (negb (fd (ftp w) =? -1)
              && negb (session request =? current_session (ftp w))
              && (idle_ms w <? FTP_SESSION_TIMEOUT)).
    { apply Hcalm, Hpush. calm_steps. }
    pose proof (calm_reclaim_idle request (now_ms w) (prepared request w)) as H1.
    assert (Hr1 : reply (reclaim_idle request (now_ms w) (prepared request w))
                  = setup_reply request).
    { unfold reclaim_idle, close_session, FS_close.
      destruct (_ && _); fields; exact Pr. }
    remember (reclaim_idle request (now_ms w) (prepared request w)) as w1 eqn:E.
    clear E.
    assert (H01 : calm w w1) by exact (calm_trans _ _ _ H0 H1).
    assert (Hm1 : need_banner_send_mask (ftp w1) = 0)
      by (rewrite (proj1 H01); exact Hm).
    assert (Hdec : opcode request = OpenFileRO \/ opcode request <> OpenFileRO)
      by (destruct (opcode request);
          first [left; reflexivity | right; discriminate]).
    destruct Hdec as [Hop|Hop].
    + unfold dispatch. rewrite Hop. cbn [finish].
      destruct (banner_op_open_ro request (now_ms w) w1 Hop Hm1)
        as (B1 & [B2|(B2 & B3 & B4 & B5)]).
      * apply Hcalm, Hpush. unfold calm. rewrite B2, B1, Hm.
        split; [reflexivity | apply H01].
      * pose proof (mute_op_open_ro request (now_ms w) w1) as (_ & Mh).
        destruct Mh as (_ & _ & _ & Mc & _).
        rewrite Hr1 in Mc, B2.
        change (chan (setup_reply request)) with (chan request) in Mc, B2.
        rewrite <- Mc in B2.
        destruct (push_owed _ _ B2) as (Q1 & Q2).
        pose proof (ftp_push_replies_frame
                      (reply (op_open_ro request (now_ms w) w1))
                      (op_open_ro request (now_ms w) w1)) as P.
        cbv zeta in P. destruct P as (_ & _ & _ & _ & P5 & _ & P7 & _).
        split; [exact Q1|]. rewrite Q2, P5, P7, Mc.
        destruct (chan_bit (chan request) mod 256 =? 0);
          cbn [app banners]; rewrite B1, (proj2 H01); auto.
        right. auto.
    + pose proof (calm_dispatch request (now_ms w) w1 Hop Hm1) as H2.
      destruct (dispatch request (now_ms w) w1) as [o w2]. cbn [snd] in H2.
      assert (H02 : calm w w2) by exact (calm_trans _ _ _ H01 H2).
      destruct o; cbn [finish]; auto.
  - unfold ftp_worker_step. rewrite Hre.
    assert (Hb : (size request >? Z.of_nat DATA_LEN) = true)
      by (unfold DATA_LEN; apply Z.gtb_lt; lia).
    rewrite Hb. apply Hcalm, Hpush. calm_steps.
Qed.
Lemma banner_worker {FS : Type} {F : Filesystem FS}
  (requests : list pending_ftp) :
  forall w : World FS,
  need_banner_send_mask (ftp w) = 0 ->
  need_banner_send_mask (ftp (ftp_worker requests w)) = 0 /\
  (banners (trace w) <= banners (trace (ftp_worker requests w))
   <= banners (trace w) + length (filter asks_param requests))%nat.
Proof.
  induction requests as [|request rest IH]; intros w Hm; cbn [ftp_worker].
  - split; [exact Hm|]. cbn [filter length]. lia.
  - destruct (banner_step request w Hm) as (Hm1 & Hb).
    destruct (IH (ftp_worker_step request w) Hm1) as (Hm2 & Hl).
    split; [exact Hm2|]. cbn [filter].
    destruct Hb as [Hb|(Hb & Hp & _)].
    + rewrite Hb in Hl. destruct (asks_param request); cbn [length]; lia.
    + rewrite Hb in Hl. rewrite Hp. cbn [length]. lia.
Qed.

(** X17: Over any run of requests that starts with no banner owed.  No
    banner is owed at the end, and send_banner() was called at most as
    many times as the run has requests that ask to open for reading a
    path starting with the name of the parameter file.  In the turn that
    follows the run, whatever its request, send_banner() is called once
    or not at all, and it is called only when the turn is not answered
    from the cache, its request asks to open such a path for reading,
    and the turn leaves a file open for the session of the request.
    (send_banner() is given no channel: where the banner goes is the
    affair of the link whose thread runs the worker.) *)
Theorem banners_only_for_param_opens {FS : Type} {F : Filesystem FS}
  (requests : list pending_ftp) (w : World FS) :
  need_banner_send_mask (ftp w) = 0 ->
  let w' := ftp_worker requests w in
  need_banner_send_mask (ftp w') = 0 /\
  (banners (trace w) <= banners (trace w')
   <= banners (trace w) + length (filter asks_param requests))%nat /\
  forall request : pending_ftp,
    let w2 := ftp_worker_step request w' in
    need_banner_send_mask (ftp w2) = 0 /\
    (banners (trace w2) = banners (trace w') \/
     (banners (trace w2) = S (banners (trace w')) /\
      asks_param request = true /\
      is_rerequest request (reply w') = false /\
      fd (ftp w2) <> -1 /\ current_session (ftp w2) = session request)).
Proof.
  intros Hm w'. subst w'.
  destruct (banner_worker requests w Hm) as (H1 & H2).
  split; [exact H1|]. split; [exact H2|].
  intros request w2. subst w2.
  exact (banner_step request (ftp_worker requests w) H1).
Qed.

Lemma banners_only_for_param_opens_witness :
  let requests := [RamFS.open_a; RamFS.open_a;
                   RamFS.request 11 1 ReadFile 10 0 []] in
  let w := RamFS.boot in
  let w' := ftp_worker requests w in
  need_banner_send_mask (ftp w') = 0 /\
  (banners (trace w) <= banners (trace w')
   <= banners (trace w) + length (filter asks_param requests))%nat /\
  forall request : pending_ftp,
    let w2 := ftp_worker_step request w' in
    need_banner_send_mask (ftp w2) = 0 /\
    (banners (trace w2) = banners (trace w') \/
     (banners (trace w2) = S (banners (trace w')) /\
      asks_param request = true /\
      is_rerequest request (reply w') = false /\
      fd (ftp w2) <> -1 /\ current_session (ftp w2) = session request)).
Proof.
  apply (banners_only_for_param_opens
           [RamFS.open_a; RamFS.open_a; RamFS.request 11 1 ReadFile 10 0 []]
           RamFS.boot).
  reflexivity.
Defined.

(** OpenFileRO at the dispatcher as in [op_open_ro_opens], for a path
    that starts with the name of the parameter file: the banner of the
    channel of the reply is owed. *)
Lemma op_open_ro_owes {FS : Type} {F : Filesystem FS}
  (request : pending_ftp) (now : Z) (w0 : World FS)
  (st : stat_t) (s1 : FS) (h : Z) (s2 : FS) :
  fd (ftp w0) = -1 ->
  ftp_check_name_len request = true ->
  fs_stat (request_path request) (fs w0) = (0, st, s1) ->
  fs_open (request_path request) O_RDONLY s1 = (h, s2) ->
  h <> -1 ->
  asks_param request = true ->
  opcode request = OpenFileRO ->
  need_banner_send_mask (ftp w0) = 0 ->
  need_banner_send_mask (ftp (op_open_ro request now w0))
  = chan_bit (chan (reply w0)) mod 256.
Proof.
  intros Hfd Hname Hstat Hopen Hh Hp Hop Hm.
  unfold asks_param in Hp. rewrite Hop in Hp.
  unfold op_open_ro. rewrite Hfd, Z.eqb_refl. cbn [negb andb].
  rewrite Hfd, Z.eqb_refl. cbn [negb]. rewrite Hname. cbn [negb].
  rewrite Hstat. rewrite Z.eqb_refl. cbn [negb].
  unfold FS_open. fields. rewrite Hopen.
  apply Z.eqb_neq in Hh. rewrite Hh. fields. rewrite Hp. fields.
  rewrite Hm. reflexivity.
Qed.

(** X18: A successful OpenFileRO of a path that starts with
    "@PARAM/param.pck", arriving on one of the channels 0 to 7 when no
    banner is owed: the ACK is sent first, send_banner() is called once
    right after it, and no banner is owed afterwards.  (send_banner() is
    given no channel: the banner leaves on the link whose thread runs
    the worker.) *)
Theorem param_open_sends_banner {FS : Type} {F : Filesystem FS}
  (request : pending_ftp) (w : World FS)
  (st : stat_t) (s1 : FS) (h : Z) (s2 : FS) :
  is_rerequest request (reply w) = false ->
  size request <= 239 ->
  opcode request = OpenFileRO ->
  asks_param request = true ->
  0 <= chan request < 8 ->
  need_banner_send_mask (ftp w) = 0 ->
  fd (ftp w) = -1 ->
  ftp_check_name_len request = true ->
  fs_stat (request_path request) (fs w) = (0, st, s1) ->
  fs_open (request_path request) O_RDONLY s1 = (h, s2) ->
  h <> -1 ->
  let w' := ftp_worker_step request w in
  trace w'
  = EvBanner
    :: EvSend (with_data (le32 (st_size st mod UINT32_MOD) ++ repeat 0 235)
                 (with_size 4 (with_opcode Ack (setup_reply request))))
    :: EvOpen h :: trace w /\
  need_banner_send_mask (ftp w') = 0.
Proof.
  intros Hre Hsz Hop Hp Hc Hm Hfd Hname Hstat Hopen Hh w'. subst w'.
  destruct (prepared_fields request w) as (Pf & Pr & Ps & Pc & Pt & Ptr).
  rewrite (ftp_worker_step_dispatch request w Hre Hsz)
    by (auto; left; rewrite Hop; reflexivity).
  remember (prepared request w) as w0 eqn:Hw0. clear Hw0.
  unfold dispatch. rewrite Hop. cbn [finish].
  rewrite <- Pf in Hfd, Hm. rewrite <- Ps in Hstat.
  destruct (op_open_ro_opens request (now_ms w) w0 st s1 h s2 Hfd Hname Hstat
              Hopen Hh) as (O1 & O2 & O3 & O4 & O5 & O6).
  pose proof (op_open_ro_owes request (now_ms w) w0 st s1 h s2 Hfd Hname Hstat
                Hopen Hh Hp Hop Hm) as O7.
  assert (Hdata : blit 0 (le32 (st_size st mod UINT32_MOD))
                    (data (setup_reply request))
                  = le32 (st_size st mod UINT32_MOD) ++ repeat 0 235).
  { unfold setup_reply. fields. rewrite blit_zeros; [reflexivity|].
    unfold DATA_LEN, le32. cbn [length]. lia. }
  rewrite Pr in O6, O7. rewrite Hdata in O6.
  change (chan (setup_reply request)) with (chan request) in O7.
  rewrite O6.
  destruct (push_owed
              (with_data (le32 (st_size st mod UINT32_MOD) ++ repeat 0 235)
                 (with_size 4 (with_opcode Ack (setup_reply request))))
              (op_open_ro request (now_ms w) w0) O7) as (Q1 & Q2).
  split; [|exact Q1]. rewrite Q2, O5, Ptr.
  change (chan (with_data _ _)) with (chan request).
  pose proof (chan_bit_low (chan request) Hc) as Hb.
  apply Z.eqb_neq in Hb. rewrite Hb. reflexivity.
Qed.

Lemma param_open_sends_banner_witness :
  let disk := RamFS.mk [(PARAM_PCK, [1; 2; 3])] None 0 in
  let w := initial_world disk RamFS.clock_1s in
  let request := RamFS.request 10 1 OpenFileRO 16 0 PARAM_PCK in
  let w' := ftp_worker_step request w in
  trace w'
  = EvBanner
    :: EvSend (with_data (le32 (st_size (mk_stat 3 false) mod UINT32_MOD)
                          ++ repeat 0 235)
                 (with_size 4 (with_opcode Ack (setup_reply request))))
    :: EvOpen 3 :: trace w /\
  need_banner_send_mask (ftp w') = 0.
Proof.
  set (disk := RamFS.mk [(PARAM_PCK, [1; 2; 3])] None 0).
  set (w := initial_world disk RamFS.clock_1s).
  set (request := RamFS.request 10 1 OpenFileRO 16 0 PARAM_PCK).
  assert (Hsz : size request <= 239) by (vm_compute; discriminate).
  assert (Hc : 0 <= chan request < 8) by (vm_compute; split; [discriminate | reflexivity]).
  assert (Hstat : fs_stat (request_path request) (fs w)
                  = (0, mk_stat 3 false, disk))
    by (vm_compute; reflexivity).
  assert (Hopen : fs_open (request_path request) O_RDONLY disk
                  = (3, RamFS.mk [(PARAM_PCK, [1; 2; 3])]
                          (Some (PARAM_PCK, 0)) 0))
    by (vm_compute; reflexivity).
  assert (Hh : 3 <> -1) by discriminate.
  exact (param_open_sends_banner request w (mk_stat 3 false) disk 3 _
           eq_refl Hsz eq_refl eq_refl Hc eq_refl eq_refl eq_refl Hstat Hopen
           Hh).
Defined.

(** ** Well-formed replies *)

Lemma wf_reply_of_error {FS : Type} {F : Filesystem FS}
  (r : pending_ftp) (e : FTP_ERROR) (errno_now : Z) :
  wf_frame r -> reported e = true -> wf_reply (ftp_error r e errno_now).
Proof.
  intros (H1 & H2 & H3 & H4 & H5 & H6 & H7) He.
  assert (L0 : (0 < length (data r))%nat) by (rewrite H6; unfold DATA_LEN; lia).
  assert (L1 : (1 < length (data r))%nat) by (rewrite H6; unfold DATA_LEN; lia).
  assert (Hb : is_byte (errno_now mod 256))
    by (unfold is_byte; apply Z.mod_pos_bound; lia).
  unfold wf_reply, wf_frame, ftp_error, is_byte in *.
  destruct e; try discriminate He;
    try (destruct (errno_now =? EEXIST); [|destruct (errno_now =? ENOENT)]);
    fields; rewrite ?length_store;
    rewrite ?nth_store_same by (rewrite ?length_store; assumption);
    try (rewrite nth_store_other by discriminate;
         rewrite nth_store_same by assumption);
    (split; [repeat split; try assumption; try lia|]);
    cbn [map error_code In]; auto 10.
Qed.

Lemma wf_reply_of_ack (r : pending_ftp) :
  wf_frame r -> opcode r = Ack -> wf_reply r.
Proof. intros H Ho. unfold wf_reply. rewrite Ho. auto. Qed.

Lemma wf_frame_setup_reply (request : pending_ftp) :
  wf_request request -> wf_frame (setup_reply request).
Proof.
  intros (H1 & H2 & H3 & H4 & H5 & H6 & H7).
  unfold wf_frame, setup_reply, is_byte, UINT16_MOD, UINT32_MOD. fields.
  rewrite repeat_length.
  repeat split; try lia; try reflexivity;
    apply Z.mod_pos_bound; reflexivity.
Qed.

Lemma wf_reply_setup_reply (request : pending_ftp) :
  wf_request request -> wf_reply (setup_reply request).
Proof.
  intros H. split; [apply wf_frame_setup_reply, H | exact I].
Qed.

Lemma wf_frame_of_reply (r : pending_ftp) : wf_reply r -> wf_frame r.
Proof. intros [H _]. exact H. Qed.

(** The frame survives what the handlers do to the body of the reply. *)
Lemma wf_frame_with_data (d : list Z) (r : pending_ftp) :
  length d = length (data r) -> wf_frame r -> wf_frame (with_data d r).
Proof.
  unfold wf_frame. fields. intros Hd H. rewrite Hd. exact H.
Qed.

Lemma wf_frame_with_opcode (op : FTP_OP) (r : pending_ftp) :
  wf_frame r -> wf_frame (with_opcode op r).
Proof. unfold wf_frame. fields. auto. Qed.

Lemma wf_frame_with_size (n : Z) (r : pending_ftp) :
  0 <= n <= 239 -> wf_frame r -> wf_frame (with_size n r).
Proof. unfold wf_frame. fields. intuition. Qed.

Lemma wf_frame_with_offset (n : Z) (r : pending_ftp) :
  0 <= n < UINT32_MOD -> wf_frame r -> wf_frame (with_offset n r).
Proof. unfold wf_frame. fields. intuition. Qed.

Lemma wf_frame_with_burst_complete (b : bool) (r : pending_ftp) :
  wf_frame r -> wf_frame (with_burst_complete b r).
Proof. unfold wf_frame. fields. auto. Qed.

Lemma wf_frame_with_seq_number (n : Z) (r : pending_ftp) :
  wf_frame r -> wf_frame (with_seq_number (n mod UINT16_MOD) r).
Proof.
  unfold wf_frame. fields. intros (_ & H).
  split; [apply Z.mod_pos_bound; reflexivity | exact H].
Qed.

Lemma count_read (raw : list Z) (cap : Z) :
  0 <= Z.of_nat (length (firstn (Z.to_nat (Z.min (Z.of_nat DATA_LEN) cap)) raw))
       mod 256 <= 239.
Proof.
  assert (H : (length (firstn (Z.to_nat (Z.min (Z.of_nat DATA_LEN) cap)) raw)
               <= 239)%nat).
  { rewrite length_firstn. unfold DATA_LEN. lia. }
  rewrite Z.mod_small; lia.
Qed.
Ltac frame_side :=
  first
    [ assumption
    | lia
    | apply count_read
    | (apply Z.mod_pos_bound; reflexivity)
    | (rewrite ?length_blit, ?length_zero_from, ?length_store, ?repeat_length
         by (rewrite ?length_blit; lia);
       reflexivity) ].

Ltac frame_tac :=
  repeat first
    [ assumption
    | apply wf_frame_with_opcode
    | apply wf_frame_with_burst_complete
    | apply wf_frame_with_seq_number
    | (apply wf_frame_with_data; [solve [frame_side]|])
    | (apply wf_frame_with_size; [solve [frame_side]|])
    | (apply wf_frame_with_offset; [solve [frame_side]|]) ].

(** Closes the leaves of a handler: an error set on a reply with a
    well-formed frame, or an ACK with a well-formed frame. *)
Ltac wf_leaf :=
  first
    [ (unfold reply_error; fields; apply wf_reply_of_error;
       [solve [frame_tac] | reflexivity])
    | (fields; apply wf_reply_of_ack; [solve [frame_tac] | reflexivity]) ].

Ltac wf_branches Hf :=
  repeat (cbv beta iota zeta;
          match goal with
          | |- context [FS_open ?p ?f ?w] =>
              let E := fresh in
              let w' := fresh "w" in
              pose proof (FS_open_reply p f w) as E;
              destruct (FS_open p f w) as [? w']; cbn [snd] in E;
              assert (wf_frame (reply w')) by (rewrite E; fields; exact Hf)
          | |- context [match ?x with _ => _ end] => destruct x eqn:?
          end).

Section HandlersKeepRepliesWellFormed.

Context {FS : Type} {F : Filesystem FS}.
Variable request : pending_ftp.
Hypothesis Hreq : wf_request request.

Lemma request_offset_range : 0 <= offset request < UINT32_MOD.
Proof. apply Hreq. Qed.

Lemma wf_op_read (w : World FS) :
  wf_frame (reply w) -> wf_reply (reply (op_read request w)).
Proof.
  pose proof request_offset_range.
  intros Hf. unfold op_read. wf_branches Hf; wf_leaf.
Qed.

Lemma wf_op_write (w : World FS) :
  wf_frame (reply w) -> wf_reply (reply (op_write request w)).
Proof.
  pose proof request_offset_range.
  intros Hf. unfold op_write. wf_branches Hf; wf_leaf.
Qed.

Lemma wf_op_mkdir (w : World FS) :
  wf_frame (reply w) -> wf_reply (reply (op_mkdir request w)).
Proof. intros Hf. unfold op_mkdir. wf_branches Hf; wf_leaf. Qed.

Lemma wf_op_unlink (w : World FS) :
  wf_frame (reply w) -> wf_reply (reply (op_unlink request w)).
Proof. intros Hf. unfold op_unlink. wf_branches Hf; wf_leaf. Qed.

Lemma wf_op_crc32 (w : World FS) :
  wf_frame (reply w) -> wf_reply (reply (op_crc32 request w)).
Proof. intros Hf. unfold op_crc32. wf_branches Hf; wf_leaf. Qed.

Lemma wf_op_rename (w : World FS) :
  wf_frame (reply w) -> wf_reply (reply (op_rename request w)).
Proof. intros Hf. unfold op_rename. wf_branches Hf; wf_leaf. Qed.

Lemma wf_op_terminate (w : World FS) :
  wf_frame (reply w) -> wf_reply (reply (op_terminate w)).
Proof.
  intros Hf. unfold op_terminate, FS_close. wf_branches Hf; wf_leaf.
Qed.

Lemma wf_op_open_wo (w : World FS) :
  wf_frame (reply w) -> wf_reply (reply (op_open_wo request w)).
Proof. intros Hf. unfold op_open_wo. wf_branches Hf; wf_leaf. Qed.

Lemma wf_op_open_ro (now : Z) (w : World FS) :
  wf_frame (reply w) -> wf_reply (reply (op_open_ro request now w)).
Proof.
  intros Hf. unfold op_open_ro.
  match goal with |- context [if ?b then close_session w else w] =>
    assert (H0 : reply (if b then close_session w else w) = reply w)
      by (destruct b; reflexivity);
    generalize dependent (if b then close_session w else w)
  end.
  intros w1 H1. rewrite <- H1 in Hf. clear H1.
  wf_branches Hf; wf_leaf.
Qed.

End HandlersKeepRepliesWellFormed.
Lemma with_data_same (r : pending_ftp) : r = with_data (data r) r.
Proof. destruct r; reflexivity. Qed.

Lemma skip_entries_reply {FS : Type} {F : Filesystem FS}
  (entries : list dirent) (path : list Z) :
  forall (skip : Z) (w : World FS),
  exists d, reply (snd (skip_entries entries skip path w)) = with_data d (reply w).
Proof.
  induction entries as [|entry rest IH]; intros skip w; cbn [skip_entries].
  - exists (data (reply w)). destruct (skip >? 0); apply with_data_same.
  - destruct (skip >? 0); [|exists (data (reply w)); apply with_data_same].
    destruct (gen_dir_entry (Z.of_nat DATA_LEN) path entry (fs w))
      as [[needed bytes] s1].
    destruct (_ || _);
      match goal with |- context [skip_entries rest ?k path ?x] =>
        destruct (IH k x) as [d Hd]; exists d; rewrite Hd; reflexivity
      end.
Qed.

Lemma pack_entries_reply {FS : Type} {F : Filesystem FS}
  (entries : list dirent) (path : list Z) :
  forall (index : Z) (w : World FS),
  exists d, reply (snd (pack_entries entries index path w)) = with_data d (reply w).
Proof.
  induction entries as [|entry rest IH]; intros index w; cbn [pack_entries].
  - exists (data (reply w)). apply with_data_same.
  - destruct (gen_dir_entry (Z.of_nat DATA_LEN - index) path entry (fs w))
      as [[required bytes] s1].
    destruct (required <? 0);
      [|destruct (required + index >=? Z.of_nat DATA_LEN)];
      try match goal with |- context [pack_entries rest ?k path ?x] =>
        destruct (IH k x) as [d Hd]; exists d; rewrite Hd; reflexivity
      end.
    cbn [snd]. eexists. reflexivity.
Qed.

Lemma wf_frame_same_but_data (r r' : pending_ftp) (d : list Z) :
  r' = with_data d r -> length (data r') = DATA_LEN ->
  wf_frame r -> wf_frame r'.
Proof.
  intros -> Hl H. apply wf_frame_with_data; [|exact H].
  fields. rewrite Hl. symmetry. apply H.
Qed.

Lemma wf_ftp_list_dir {FS : Type} {F : Filesystem FS}
  (request : pending_ftp) (w : World FS) :
  wf_request request ->
  wf_frame (reply w) -> wf_reply (reply (ftp_list_dir request w)).
Proof.
  intros Hreq Hf.
  assert (Ho : 0 <= offset request < UINT32_MOD) by apply Hreq.
  unfold ftp_list_dir, FS_closedir.
  set (w0 := upd_reply (with_offset (offset request)) w).
  assert (Hf0 : wf_frame (reply w0)) by (unfold w0; fields; frame_tac).
  clearbody w0.
  destruct (negb (ftp_check_name_len request)); [wf_leaf|].
  destruct (fs_opendir (list_dir_path request) (fs w0)) as [dir s].
  destruct dir as [entries|]; [|wf_leaf].
  assert (Hl0 : length (data (reply (set_fs s w0))) = DATA_LEN)
    by (fields; apply Hf0).
  pose proof (skip_entries_length entries (list_dir_path request)
                (offset request) (set_fs s w0) Hl0) as Hl1.
  destruct (skip_entries_reply entries (list_dir_path request)
              (offset request) (set_fs s w0)) as [d1 Hd1].
  destruct (skip_entries entries (offset request) (list_dir_path request)
              (set_fs s w0)) as [[rest|] w1]; cbn [snd] in Hl1, Hd1.
  - assert (Hf1 : wf_frame (reply w1))
      by (eapply wf_frame_same_but_data; [exact Hd1 | exact Hl1 | exact Hf0]).
    pose proof (pack_entries_frame rest (list_dir_path request) 0 w1) as Frame.
    destruct (pack_entries_reply rest (list_dir_path request) 0 w1) as [d2 Hd2].
    destruct (pack_entries rest 0 (list_dir_path request) w1) as [index w2].
    cbn [snd] in Hd2.
    destruct Frame as (Hi & Hl2 & _); [lia | exact Hl1 |].
    assert (Hf2 : wf_frame (reply w2))
      by (eapply wf_frame_same_but_data; [exact Hd2 | exact Hl2 | exact Hf1]).
    destruct (index =? 0); [wf_leaf|].
    destruct (index <? Z.of_nat DATA_LEN) eqn:E; [|wf_leaf].
    fields. apply wf_reply_of_ack; [|reflexivity].
    apply wf_frame_with_size; [lia|]. apply wf_frame_with_opcode.
    apply wf_frame_with_data; [|exact Hf2].
    apply length_zero_from. rewrite Hl2. unfold DATA_LEN in *. lia.
  - assert (Hf1 : wf_frame (reply w1))
      by (eapply wf_frame_same_but_data; [exact Hd1 | exact Hl1 | exact Hf0]).
    wf_leaf.
Qed.
Lemma wf_burst_loop {FS : Type} {F : Filesystem FS}
  (request : pending_ftp) (max_read : Z) (n : nat) :
  forall (i : Z) (w : World FS),
  wf_reply (reply w) ->
  exists l,
    sent (trace (burst_loop n i request max_read w)) = sent (trace w) ++ l /\
    Forall wf_reply l /\
    wf_reply (reply (burst_loop n i request max_read w)).
Proof.
  induction n as [|n IH]; intros i w Hw.
  - cbn [burst_loop]. exists []. rewrite app_nil_r. auto.
  - cbn [burst_loop].
    pose proof (wf_frame_of_reply _ Hw) as Hf.
    assert (Hl : length (data (reply w)) = DATA_LEN) by apply Hf.
    destruct (fs_read (fd (ftp w)) (Z.min (Z.of_nat DATA_LEN) max_read) (fs w))
      as [[raw|] s1].
    2:{ exists []. rewrite app_nil_r. split; [reflexivity|].
        split; [constructor | wf_leaf]. }
    pose proof (count_read raw max_read) as Hcount.
    set (bytes := firstn (Z.to_nat (Z.min (Z.of_nat DATA_LEN) max_read)) raw)
      in *.
    assert (Hbl : (length bytes <= DATA_LEN)%nat).
    { unfold bytes, DATA_LEN. rewrite length_firstn. lia. }
    clearbody bytes.
    rewrite (burst_buffer bytes (set_fs s1 w)) by (fields; auto).
    set (payload := bytes ++ repeat 0 (DATA_LEN - length bytes)).
    assert (Hpl : length payload = length (data (reply w))).
    { unfold payload. rewrite length_app, repeat_length. lia. }
    clearbody payload.
    destruct (Z.of_nat (length bytes) =? 0).
    { exists []. rewrite app_nil_r. split; [reflexivity|].
      split; [constructor | wf_leaf]. }
    match goal with |- context [ftp_push_replies (reply ?x) ?x] =>
      set (w3 := x)
    end.
    assert (Hf3 : wf_frame (reply w3)) by (unfold w3; fields; frame_tac).
    assert (Ho3 : opcode (reply w3) = Ack) by reflexivity.
    assert (Ht3 : trace w3 = trace w) by reflexivity.
    clearbody w3.
    pose proof (ftp_push_replies_frame (reply w3) w3) as P. cbv zeta in P.
    destruct P as (P1 & _ & _ & _ & _ & _ & _ & _ & P9 & _).
    remember (ftp_push_replies (reply w3) w3) as w4 eqn:E4. clear E4.
    rewrite Ht3 in P9.
    match goal with |- context [burst_loop n (i + 1) request max_read ?x] =>
      set (w6 := x)
    end.
    assert (H6 : wf_reply (reply w6)).
    { assert (Hf4 : wf_frame (reply w4)) by (rewrite P1; exact Hf3).
      assert (Ho4 : opcode (reply w4) = Ack) by (rewrite P1; exact Ho3).
      unfold w6. destruct (Z.of_nat (length bytes) <? max_read); fields;
        (apply wf_reply_of_ack; [frame_tac | exact Ho4]). }
    assert (Ht6 : trace w6 = trace w4).
    { unfold w6. destruct (Z.of_nat (length bytes) <? max_read); reflexivity. }
    clearbody w6.
    destruct (IH (i + 1) w6 H6) as (l & L1 & L2 & L3).
    exists (reply w3 :: l). rewrite L1, Ht6, P9, <- app_assoc.
    split; [reflexivity|]. split; [|exact L3].
    constructor; [|exact L2].
    apply wf_reply_of_ack; [exact Hf3 | exact Ho3].
Qed.

Lemma wf_op_burst_read {FS : Type} {F : Filesystem FS}
  (request : pending_ftp) (w : World FS) :
  wf_reply (reply w) ->
  exists l,
    sent (trace (snd (op_burst_read request w))) = sent (trace w) ++ l /\
    Forall wf_reply l /\
    wf_reply (reply (snd (op_burst_read request w))).
Proof.
  intros Hw. pose proof (wf_frame_of_reply _ Hw) as Hf.
  assert (Hnone : forall w1 : World FS,
            trace w1 = trace w -> wf_reply (reply w1) ->
            exists l, sent (trace w1) = sent (trace w) ++ l /\
                      Forall wf_reply l /\ wf_reply (reply w1)).
  { intros w1 Ht H1. exists []. rewrite Ht, app_nil_r. auto. }
  unfold op_burst_read.
  destruct (fd (ftp w) =? -1); [apply Hnone; [reflexivity | wf_leaf]|].
  destruct (mode (ftp w)); [|apply Hnone; [reflexivity | wf_leaf]].
  destruct (fs_lseek (fd (ftp w)) (offset request) (fs w)) as [pos s].
  destruct (pos =? -1); [apply Hnone; [reflexivity | wf_leaf]|].
  destruct (wf_burst_loop request (burst_max_read request) transfer_size 0
              (set_fs s w) Hw) as (l & L).
  exists l. destruct (negb _); exact L.
Qed.
Lemma wf_dispatch {FS : Type} {F : Filesystem FS}
  (request : pending_ftp) (now : Z) (w : World FS) :
  wf_request request ->
  wf_reply (reply w) ->
  exists l,
    sent (trace (snd (dispatch request now w))) = sent (trace w) ++ l /\
    Forall wf_reply l /\
    wf_reply (reply (snd (dispatch request now w))).
Proof.
  intros Hreq Hw. pose proof (wf_frame_of_reply _ Hw) as Hf.
  assert (Hdec : opcode request = BurstReadFile
                 \/ opcode request <> BurstReadFile)
    by (destruct (opcode request);
        first [left; reflexivity | right; discriminate]).
  destruct Hdec as [Hop|Hop].
  - unfold dispatch. rewrite Hop. apply wf_op_burst_read. exact Hw.
  - exists []. rewrite app_nil_r.
    split; [apply (mute_dispatch request now w Hop)|].
    split; [constructor|].
    unfold dispatch.
    destruct (opcode request); try congruence; cbn [snd];
      auto using wf_op_terminate, wf_ftp_list_dir, wf_op_open_ro, wf_op_read,
        wf_op_open_wo, wf_op_write, wf_op_mkdir, wf_op_unlink, wf_op_crc32,
        wf_op_rename;
      wf_leaf.
Qed.

Lemma wf_step {FS : Type} {F : Filesystem FS}
  (request : pending_ftp) (w : World FS) :
  wf_request request ->
  wf_reply (reply w) ->
  exists l,
    sent (trace (ftp_worker_step request w)) = sent (trace w) ++ l /\
    Forall wf_reply l /\
    wf_reply (reply (ftp_worker_step request w)).
Proof.
  intros Hreq Hw.
  assert (Hpush : forall w1 : World FS,
            trace w1 = trace w -> wf_reply (reply w1) ->
            exists l,
              sent (trace (ftp_push_replies (reply w1) w1))
              = sent (trace w) ++ l /\
              Forall wf_reply l /\
              wf_reply (reply (ftp_push_replies (reply w1) w1))).
  { intros w1 Ht H1.
    pose proof (ftp_push_replies_frame (reply w1) w1) as P. cbv zeta in P.
    destruct P as (P1 & _ & _ & _ & _ & _ & _ & _ & P9 & _).
    exists [reply w1]. rewrite P9, P1, Ht. auto. }
  destruct (is_rerequest request (reply w)) eqn:Hre.
  { unfold ftp_worker_step. rewrite Hre. apply Hpush; auto. }
  destruct (prepared_fields request w) as (Pf & Pr & Ps & Pc & Pt & Ptr).
  pose proof (wf_frame_setup_reply request Hreq) as Hs.
  destruct (Z_le_gt_dec (size request) 239) as [Hle|Hgt].
  - rewrite (ftp_worker_step_checked request w Hre Hle). cbv zeta.
    destruct (negb (session request =? current_session (ftp w))
              && is_terminate_or_reset (opcode request)).
    { apply (Hpush (upd_reply (with_opcode Ack) (prepared request w)));
        [fields; exact Ptr|].
      fields. rewrite Pr. apply wf_reply_of_ack; [frame_tac | reflexivity]. }
    destruct (negb (fd (ftp w) =? -1)
              && negb (session request =? current_session (ftp w))
              && (idle_ms w <? FTP_SESSION_TIMEOUT)).
    { replace (ftp_error (setup_reply request) InvalidSession (errno (fs w)))
        with (reply (reply_error InvalidSession (prepared request w)))
        by (unfold reply_error; fields; rewrite Pr, Ps; reflexivity).
      apply Hpush; [unfold reply_error; fields; exact Ptr|].
      unfold reply_error. fields. rewrite Pr.
      apply wf_reply_of_error; [exact Hs | reflexivity]. }
    pose proof (mute_reclaim_idle request (now_ms w) (prepared request w)) as M.
    assert (Hr : reply (reclaim_idle request (now_ms w) (prepared request w))
                 = setup_reply request).
    { unfold reclaim_idle, close_session, FS_close.
      destruct (_ && _); fields; exact Pr. }
    remember (reclaim_idle request (now_ms w) (prepared request w)) as w1 eqn:E.
    clear E.
    assert (H1 : wf_reply (reply w1))
      by (rewrite Hr; apply wf_reply_setup_reply, Hreq).
    destruct (wf_dispatch request (now_ms w) w1 Hreq H1) as (l & L1 & L2 & L3).
    assert (Ht1 : sent (trace w1) = sent (trace w))
      by (rewrite (proj1 M), Ptr; reflexivity).
    destruct (dispatch request (now_ms w) w1) as [o w2]. cbn [snd] in *.
    rewrite Ht1 in L1.
    destruct o; cbn [finish]; try solve [exists l; auto].
    pose proof (ftp_push_replies_frame (reply w2) w2) as P. cbv zeta in P.
    destruct P as (P1 & _ & _ & _ & _ & _ & _ & _ & P9 & _).
    exists (l ++ [reply w2]). rewrite P9, P1, L1, app_assoc.
    split; [reflexivity|]. split; [|exact L3].
    apply Forall_app. auto.
  - unfold ftp_worker_step. rewrite Hre.
    assert (Hb : (size request >? Z.of_nat DATA_LEN) = true)
      by (unfold DATA_LEN; apply Z.gtb_lt; lia).
    rewrite Hb.
    apply Hpush; [reflexivity|].
    unfold reply_error. fields.
    apply wf_reply_of_error; [exact Hs | reflexivity].
Qed.

Lemma wf_worker {FS : Type} {F : Filesystem FS}
  (requests : list pending_ftp) :
  forall w : World FS,
  Forall wf_request requests ->
  wf_reply (reply w) ->
  exists l,
    sent (trace (ftp_worker requests w)) = sent (trace w) ++ l /\
    Forall wf_reply l.
Proof.
  induction requests as [|request rest IH]; intros w Hreqs Hw.
  - exists []. cbn [ftp_worker]. rewrite app_nil_r. auto.
  - apply Forall_cons_iff in Hreqs. destruct Hreqs as [Hreq Hrest].
    cbn [ftp_worker].
    destruct (wf_step request w Hreq Hw) as (l1 & A1 & A2 & A3).
    destruct (IH (ftp_worker_step request w) Hrest A3) as (l2 & B1 & B2).
    exists (l1 ++ l2). rewrite B1, A1, app_assoc.
    split; [reflexivity | apply Forall_app; auto].
Qed.

(** X19: Every message the worker sends, from start-up on and whatever the
    filesystem does, is well formed when the requests are: its fields
    are in the ranges of their C types, it has 239 bytes of data and a
    size of at most 239, and its opcode is Ack, Nack or, for the blank
    reply, None.  A Nack has size 1 and one of the codes Fail,
    InvalidDataSize, InvalidSession, EndOfFile, FileExists, FileNotFound,
    or size 2 with FailErrno and the low byte of errno: the worker never
    reports NoSessionsAvailable or UnknownCommand. *)
Theorem every_reply_is_well_formed {FS : Type} {F : Filesystem FS}
  (requests : list pending_ftp) (s : FS) (clk : nat -> Z) :
  Forall wf_request requests ->
  Forall (fun r => wf_reply r /\ wf_request r)
    (sent (trace (ftp_worker requests (initial_world s clk)))).
Proof.
  intros Hreqs.
  destruct (wf_worker requests (initial_world s clk) Hreqs) as (l & L1 & L2).
  { unfold wf_reply, wf_frame, initial_world, is_byte, UINT16_MOD, UINT32_MOD.
    fields. rewrite repeat_length. cbn. intuition lia. }
  rewrite L1. cbn [initial_world trace sent app].
  apply Forall_forall. intros r Hr.
  pose proof (proj1 (Forall_forall _ _) L2 r Hr) as Hw.
  split; [exact Hw|].
  destruct Hw as [(H1 & H2 & H3 & H4 & H5 & H6 & H7) _].
  unfold wf_request, is_byte in *. repeat split; try tauto; lia.
Qed.

Lemma every_reply_is_well_formed_witness :
  Forall (fun r => wf_reply r /\ wf_request r)
    (sent (trace (ftp_worker
                    [RamFS.open_a; RamFS.request 11 1 BurstReadFile 0 0 []]
                    (initial_world RamFS.disk RamFS.clock_1s)))).
Proof.
  apply (every_reply_is_well_formed
           [RamFS.open_a; RamFS.request 11 1 BurstReadFile 0 0 []]
           RamFS.disk RamFS.clock_1s).
  repeat constructor; vm_compute; intuition discriminate.
Defined.

(** ** Opening for writing, and the operations on paths *)

(** X20: OpenFileWO and CreateFile with no file open and a well-formed path:
    open is called with O_WRONLY, and for CreateFile with
    O_WRONLY|O_CREAT|O_TRUNC.  When it fails the reply is the errno Nack
    and no session is claimed; otherwise the reply is the blank ACK, the
    descriptor is in fd, the mode is Write and the session of the
    request owns the file. *)
Theorem open_for_writing {FS : Type} {F : Filesystem FS}
  (request : pending_ftp) (w : World FS) (h : Z) (s1 : FS) :
  is_rerequest request (reply w) = false ->
  size request <= 239 ->
  opcode request = OpenFileWO \/ opcode request = CreateFile ->
  fd (ftp w) = -1 ->
  ftp_check_name_len request = true ->
  fs_open (request_path request)
    (match opcode request with
     | CreateFile => O_WRONLY_CREAT_TRUNC
     | _ => O_WRONLY
     end) (fs w) = (h, s1) ->
  let w' := ftp_worker_step request w in
  fs w' = s1 /\
  (h = -1 ->
   sent (trace w') = sent (trace w)
                     ++ [ftp_error (setup_reply request) FailErrno (errno s1)] /\
   fd (ftp w') = -1 /\
   current_session (ftp w') = current_session (ftp w) /\
   open_handles (trace w') = open_handles (trace w)) /\
  (h <> -1 ->
   sent (trace w') = sent (trace w) ++ [with_opcode Ack (setup_reply request)] /\
   fd (ftp w') = h /\ mode (ftp w') = Write /\
   current_session (ftp w') = session request /\
   open_handles (trace w') = h :: open_handles (trace w)).
Proof.
  intros Hre Hsz Hop Hfd Hname Hopen w'. subst w'.
  destruct (prepared_fields request w) as (Pf & Pr & Ps & Pc & Pt & Ptr).
  rewrite (ftp_worker_step_dispatch request w Hre Hsz)
    by (auto; left; destruct Hop as [-> | ->]; reflexivity).
  remember (prepared request w) as w0 eqn:Hw0. clear Hw0.
  assert (Hd : dispatch request (now_ms w) w0
               = (PushReply, op_open_wo request w0))
    by (unfold dispatch; destruct Hop as [-> | ->]; reflexivity).
  rewrite Hd. cbn [finish].
  match goal with |- context [ftp_push_replies ?r ?x] =>
    pose proof (ftp_push_replies_frame r x) as P; cbv zeta in P;
    destruct P as (P1 & P2 & _ & _ & P5 & P6 & P7 & _ & P9 & P10 & _)
  end.
  rewrite P2, P5, P6, P7, P9, P10. clear P1 P2 P5 P6 P7 P9 P10.
  unfold op_open_wo. rewrite Pf, Hfd, Z.eqb_refl. cbn [negb].
  rewrite Hname. cbn [negb].
  unfold FS_open. rewrite Ps, Hopen.
  destruct (Z.eqb_spec h (-1)) as [Hh|Hh].
  - unfold reply_error. fields. rewrite Pr, Pf, Ptr.
    split; [reflexivity|]. split; [|intros Hn; contradiction].
    intros _. unfold with_fd. fields. auto.
  - fields. rewrite Pr, Ptr. cbn [open_handles].
    split; [reflexivity|]. split; [intros Hn; contradiction|].
    intros _. repeat split.
Qed.

Lemma open_for_writing_witness :
  let request := RamFS.request 20 1 CreateFile 2 0 RamFS.path_a in
  let w := RamFS.boot in
  let w' := ftp_worker_step request w in
  sent (trace w') = sent (trace w) ++ [with_opcode Ack (setup_reply request)] /\
  fd (ftp w') = 3 /\ mode (ftp w') = Write /\
  current_session (ftp w') = session request /\
  open_handles (trace w') = 3 :: open_handles (trace w).
Proof.
  set (request := RamFS.request 20 1 CreateFile 2 0 RamFS.path_a).
  assert (Hsz : size request <= 239) by (vm_compute; discriminate).
  assert (Hopen : fs_open (request_path request)
                    (match opcode request with
                     | CreateFile => O_WRONLY_CREAT_TRUNC
                     | _ => O_WRONLY
                     end) (fs RamFS.boot)
                  = (3, RamFS.mk [(RamFS.path_a, [])]
                          (Some (RamFS.path_a, 0)) 0))
    by (vm_compute; reflexivity).
  destruct (open_for_writing request RamFS.boot 3 _ eq_refl Hsz
              (or_intror eq_refl) eq_refl eq_refl Hopen) as (_ & _ & H).
  apply H. discriminate.
Defined.

(** X21: TruncateFile and every opcode byte that is no enumerator are
    answered with a Nack carrying Fail (not UnknownCommand) when they
    reach the dispatcher, and nothing else happens. *)
Theorem unsupported_opcode_fails {FS : Type} {F : Filesystem FS}
  (request : pending_ftp) (w : World FS) :
  is_rerequest request (reply w) = false ->
  size request <= 239 ->
  opcode request = TruncateFile
    \/ (exists code, opcode request = OpUnknown code) ->
  fd (ftp w) = -1 \/ session request = current_session (ftp w) ->
  let w' := ftp_worker_step request w in
  exists r,
    sent (trace w') = sent (trace w) ++ [r] /\ reply w' = r /\
    opcode r = Nack /\ nth 0 (data r) 0 = error_code Fail /\ size r = 1 /\
    same_session w w'.
Proof.
  intros Hre Hsz Hop Hf w'. subst w'.
  rewrite (ftp_worker_step_dispatch request w Hre Hsz)
    by (auto; left; destruct Hop as [-> | [code ->]]; reflexivity).
  assert (Hd : dispatch request (now_ms w) (prepared request w)
               = (PushReply, reply_error Fail (prepared request w)))
    by (unfold dispatch; destruct Hop as [-> | [code ->]]; reflexivity).
  rewrite Hd. cbn [finish]. apply push_prepared_error. discriminate.
Qed.

Lemma unsupported_opcode_fails_witness :
  let request := RamFS.request 20 1 (OpUnknown 99) 0 0 [] in
  let w' := ftp_worker_step request RamFS.opened in
  exists r,
    sent (trace w') = sent (trace RamFS.opened) ++ [r] /\ reply w' = r /\
    opcode r = Nack /\ nth 0 (data r) 0 = error_code Fail /\ size r = 1 /\
    same_session RamFS.opened w'.
Proof.
  assert (Hsz : size (RamFS.request 20 1 (OpUnknown 99) 0 0 []) <= 239)
    by (vm_compute; discriminate).
  apply (unsupported_opcode_fails (RamFS.request 20 1 (OpUnknown 99) 0 0 [])
           RamFS.opened eq_refl Hsz).
  - right. exists 99. reflexivity.
  - right. reflexivity.
Defined.

(** X22: CreateDirectory, RemoveFile, RemoveDirectory and CalcFileCRC32 with a
    well-formed path, when they reach the dispatcher: the path handed to
    the filesystem is the C string in data; CreateDirectory calls mkdir,
    RemoveFile and RemoveDirectory both call unlink, CalcFileCRC32 calls
    crc32.  A failure gives the errno Nack; success gives the blank ACK,
    and for CalcFileCRC32 an ACK of size 4 with the checksum in
    little-endian order in data[0..3] and zeros after it.  The open file
    and its session are not touched. *)
Theorem path_operations {FS : Type} {F : Filesystem FS}
  (request : pending_ftp) (w : World FS) :
  is_rerequest request (reply w) = false ->
  size request <= 239 ->
  fd (ftp w) = -1 \/ session request = current_session (ftp w) ->
  ftp_check_name_len request = true ->
  let w' := ftp_worker_step request w in
  let path := request_path request in
  let nack s := ftp_error (setup_reply request) FailErrno (errno s) in
  let ack := with_opcode Ack (setup_reply request) in
  let kept :=
    fd (ftp w') = fd (ftp w) /\ mode (ftp w') = mode (ftp w) /\
    current_session (ftp w') = current_session (ftp w) /\
    open_handles (trace w') = open_handles (trace w) in
  (opcode request = CreateDirectory ->
   forall rc s, fs_mkdir path (fs w) = (rc, s) ->
   kept /\ fs w' = s /\
   sent (trace w') = sent (trace w) ++ [if rc =? -1 then nack s else ack]) /\
  (opcode request = RemoveFile \/ opcode request = RemoveDirectory ->
   forall rc s, fs_unlink path (fs w) = (rc, s) ->
   kept /\ fs w' = s /\
   sent (trace w') = sent (trace w) ++ [if rc =? -1 then nack s else ack]) /\
  (opcode request = CalcFileCRC32 ->
   forall ok checksum s, fs_crc32 path (fs w) = (ok, checksum, s) ->
   kept /\ fs w' = s /\
   sent (trace w')
   = sent (trace w)
     ++ [if ok
         then with_opcode Ack
                (with_data (le32 (checksum mod UINT32_MOD) ++ repeat 0 235)
                   (with_size 4 (setup_reply request)))
         else nack s] /\
   le32toh (le32 (checksum mod UINT32_MOD) ++ repeat 0 235)
   = checksum mod UINT32_MOD).
Proof.
  intros Hre Hsz Hf Hname w' path nack ack kept.
  subst w' path nack ack kept.
  destruct (prepared_fields request w) as (Pf & Pr & Ps & Pc & Pt & Ptr).
  assert (Hstep : is_terminate_or_reset (opcode request) = false ->
            ftp_worker_step request w
            = (let '(o, w2) := dispatch request (now_ms w) (prepared request w)
               in finish o w2))
    by (intros Ht; apply ftp_worker_step_dispatch; auto).
  remember (prepared request w) as w0 eqn:Hw0. clear Hw0.
  assert (Hpush : forall w1 : World FS,
            ftp w1 = ftp w -> trace w1 = trace w ->
            let w' := ftp_push_replies (reply w1) w1 in
            (fd (ftp w') = fd (ftp w) /\ mode (ftp w') = mode (ftp w) /\
             current_session (ftp w') = current_session (ftp w) /\
             open_handles (trace w') = open_handles (trace w)) /\
            fs w' = fs w1 /\
            sent (trace w') = sent (trace w) ++ [reply w1]).
  { intros w1 H1 H2 w'. subst w'.
    pose proof (ftp_push_replies_frame (reply w1) w1) as P. cbv zeta in P.
    destruct P as (_ & P2 & _ & _ & P5 & P6 & P7 & _ & P9 & P10 & _).
    rewrite P2, P5, P6, P7, P9, P10, H1, H2. auto. }
  split; [|split].
  - intros Hop rc s Hcall. rewrite Hstep by (rewrite Hop; reflexivity).
    unfold dispatch. rewrite Hop. cbn [finish].
    unfold op_mkdir. rewrite Hname. cbn [negb]. rewrite Ps, Hcall.
    destruct (rc =? -1);
      match goal with |- context [ftp_push_replies (reply ?x) ?x] =>
        destruct (Hpush x) as (K & K1 & K2);
          [unfold reply_error; fields; assumption ..|]
      end;
      (split; [exact K|]); rewrite K1, K2; unfold reply_error; fields;
      rewrite Pr; auto.
  - intros Hop rc s Hcall.
    rewrite Hstep by (destruct Hop as [-> | ->]; reflexivity).
    assert (Hd : dispatch request (now_ms w) w0
                 = (PushReply, op_unlink request w0))
      by (unfold dispatch; destruct Hop as [-> | ->]; reflexivity).
    rewrite Hd. cbn [finish].
    unfold op_unlink. rewrite Hname. cbn [negb]. rewrite Ps, Hcall.
    destruct (rc =? -1);
      match goal with |- context [ftp_push_replies (reply ?x) ?x] =>
        destruct (Hpush x) as (K & K1 & K2);
          [unfold reply_error; fields; assumption ..|]
      end;
      (split; [exact K|]); rewrite K1, K2; unfold reply_error; fields;
      rewrite Pr; auto.
  - intros Hop ok checksum s Hcall.
    rewrite Hstep by (rewrite Hop; reflexivity).
    unfold dispatch. rewrite Hop. cbn [finish].
    unfold op_crc32. rewrite Hname. cbn [negb]. rewrite Ps, Hcall.
    assert (Hdata : blit 0 (le32 (checksum mod UINT32_MOD))
                      (repeat 0 (length (data (setup_reply request))))
                    = le32 (checksum mod UINT32_MOD) ++ repeat 0 235).
    { unfold setup_reply. fields. rewrite repeat_length.
      rewrite blit_zeros; [reflexivity|].
      unfold DATA_LEN, le32. cbn [length]. lia. }
    destruct ok; cbn [negb];
      match goal with |- context [ftp_push_replies (reply ?x) ?x] =>
        destruct (Hpush x) as (K & K1 & K2);
          [unfold reply_error; fields; assumption ..|]
      end;
      (split; [exact K|]); rewrite K1, K2; unfold reply_error; fields;
      rewrite Pr, ?Hdata;
      (split; [reflexivity|]); (split; [reflexivity|]);
      apply le32toh_le32_bytes.
Qed.

Lemma path_operations_witness :
  let request := RamFS.request 20 1 RemoveDirectory 2 0 RamFS.path_a in
  let w := RamFS.boot in
  let w' := ftp_worker_step request w in
  fs w' = RamFS.mk [] None 0 /\
  sent (trace w') = sent (trace w) ++ [with_opcode Ack (setup_reply request)].
Proof.
  set (request := RamFS.request 20 1 RemoveDirectory 2 0 RamFS.path_a).
  assert (Hsz : size request <= 239) by (vm_compute; discriminate).
  assert (Hcall : fs_unlink (request_path request) (fs RamFS.boot)
                  = (0, RamFS.mk [] None 0))
    by (vm_compute; reflexivity).
  destruct (path_operations request RamFS.boot eq_refl Hsz
              (or_introl eq_refl) eq_refl) as (_ & H & _).
  destruct (H (or_intror eq_refl) _ _ Hcall) as (_ & H1 & H2).
  split; [exact H1 | exact H2].
Defined.
(** ** Reopening after a silence, and what TerminateSession does to the
    idle time *)

Lemma op_open_ro_reclaims {FS : Type} {F : Filesystem FS}
  (request : pending_ftp) (now : Z) (w0 : World FS) :
  fd (ftp w0) <> -1 ->
  FTP_SESSION_TIMEOUT < (now - last_send_ms (ftp w0)) mod UINT32_MOD ->
  op_open_ro request now w0 = op_open_ro request now (close_session w0).
Proof.
  intros Hfd Hidle.
  destruct (close_session_fields w0) as (C1 & _).
  unfold op_open_ro at 2. rewrite C1, Z.eqb_refl. cbn [negb andb].
  unfold op_open_ro.
  apply Z.eqb_neq in Hfd. rewrite Hfd. cbn [negb andb].
  assert (Hgt : ((now - last_send_ms (ftp w0)) mod UINT32_MOD
                 >? FTP_SESSION_TIMEOUT) = true)
    by (apply Z.gtb_lt; exact Hidle).
  rewrite Hgt. reflexivity.
Qed.

(** X23: OpenFileRO from the session that owns the open file, more than
    3000 ms after the last message was sent: the file is closed and the
    requested file is opened in its place; if that succeeds the new
    descriptor is the only one open and the reply is the ACK with the
    size of the file. *)
Theorem reopen_after_idle {FS : Type} {F : Filesystem FS}
  (request : pending_ftp) (w : World FS)
  (st : stat_t) (s1 : FS) (h : Z) (s2 : FS) :
  is_rerequest request (reply w) = false ->
  size request <= 239 ->
  opcode request = OpenFileRO ->
  session_inv w ->
  fd (ftp w) <> -1 ->
  session request = current_session (ftp w) ->
  FTP_SESSION_TIMEOUT < idle_ms w ->
  ftp_check_name_len request = true ->
  fs_stat (request_path request) (fs_close (fd (ftp w)) (fs w)) = (0, st, s1) ->
  fs_open (request_path request) O_RDONLY s1 = (h, s2) ->
  h <> -1 ->
  let w' := ftp_worker_step request w in
  fd (ftp w') = h /\ mode (ftp w') = Read /\
  current_session (ftp w') = session request /\ fs w' = s2 /\
  open_handles (trace w') = [h] /\
  sent (trace w')
  = sent (trace w)
    ++ [with_data (le32 (st_size st mod UINT32_MOD) ++ repeat 0 235)
          (with_size 4 (with_opcode Ack (setup_reply request)))].
Proof.
  intros Hre Hsz Hop Hinv Hfd Hs Hidle Hname Hstat Hopen Hh w'. subst w'.
  destruct (prepared_fields request w) as (Pf & Pr & Ps & Pc & Pt & Ptr).
  rewrite (ftp_worker_step_dispatch request w Hre Hsz)
    by (auto; left; rewrite Hop; reflexivity).
  unfold dispatch. rewrite Hop. cbn [finish].
  rewrite (op_open_ro_reclaims request (now_ms w) (prepared request w))
    by (rewrite Pf; assumption).
  destruct (close_session_fields (prepared request w))
    as (C1 & C2 & C3 & C4 & C5 & C6 & C7).
  rewrite Pf, Ps in C6. rewrite Pf, Ptr in C7. rewrite Pr in C5.
  remember (close_session (prepared request w)) as w0 eqn:Hw0. clear Hw0.
  rewrite <- C6 in Hstat.
  destruct (op_open_ro_opens request (now_ms w) w0 st s1 h s2 C1 Hname Hstat
              Hopen Hh) as (O1 & O2 & O3 & O4 & O5 & O6).
  match goal with |- context [ftp_push_replies ?r ?x] =>
    pose proof (ftp_push_replies_frame r x) as P; cbv zeta in P;
    destruct P as (P1 & P2 & _ & _ & P5 & P6 & P7 & _ & P9 & P10 & _)
  end.
  rewrite P2, P5, P6, P7, P9, P10, O1, O2, O3, O4, O5, O6, C5, C7.
  repeat (split; [reflexivity|]).
  destruct Hinv as (_ & Hh1 & _).
  apply Z.eqb_neq in Hfd. rewrite Hfd in Hh1.
  split.
  - cbn [open_handles]. rewrite Hh1. cbn [remove_handle].
    rewrite Z.eqb_refl. reflexivity.
  - cbn [sent].
    assert (Hdata : blit 0 (le32 (st_size st mod UINT32_MOD))
                      (data (setup_reply request))
                    = le32 (st_size st mod UINT32_MOD) ++ repeat 0 235).
    { unfold setup_reply. fields. rewrite blit_zeros; [reflexivity|].
      unfold DATA_LEN, le32. cbn [length]. lia. }
    rewrite Hdata. reflexivity.
Qed.

Lemma reopen_after_idle_witness :
  let w := ftp_worker [RamFS.request 20 1 Ack 0 0 [];
                       RamFS.request 30 1 Ack 0 0 [];
                       RamFS.request 40 1 Ack 0 0 []] RamFS.opened in
  let request := RamFS.request 50 1 OpenFileRO 2 0 RamFS.path_a in
  let w' := ftp_worker_step request w in
  fd (ftp w') = 3 /\ mode (ftp w') = Read /\
  current_session (ftp w') = session request /\
  fs w' = RamFS.mk [(RamFS.path_a, repeat 7 300)] (Some (RamFS.path_a, 0)) 0 /\
  open_handles (trace w') = [3] /\
  sent (trace w')
  = sent (trace w)
    ++ [with_data (le32 (st_size (mk_stat 300 false) mod UINT32_MOD)
                   ++ repeat 0 235)
          (with_size 4 (with_opcode Ack (setup_reply request)))].
Proof.
  set (w := ftp_worker [RamFS.request 20 1 Ack 0 0 [];
                        RamFS.request 30 1 Ack 0 0 [];
                        RamFS.request 40 1 Ack 0 0 []] RamFS.opened).
  set (request := RamFS.request 50 1 OpenFileRO 2 0 RamFS.path_a).
  assert (Hsz : size request <= 239) by (vm_compute; discriminate).
  assert (Hinv : session_inv w).
  { unfold w, RamFS.opened. cbn [ftp_worker].
    repeat (apply session_inv_step; [vm_compute; discriminate
                                    | vm_compute; discriminate |]).
    apply session_inv_initial. }
  assert (Hfd : fd (ftp w) <> -1) by (vm_compute; discriminate).
  assert (Hidle : FTP_SESSION_TIMEOUT < idle_ms w)
    by (vm_compute; reflexivity).
  assert (Hstat : fs_stat (request_path request)
                    (fs_close (fd (ftp w)) (fs w))
                  = (0, mk_stat 300 false, RamFS.disk))
    by (vm_compute; reflexivity).
  assert (Hopen : fs_open (request_path request) O_RDONLY RamFS.disk
                  = (3, RamFS.mk [(RamFS.path_a, repeat 7 300)]
                          (Some (RamFS.path_a, 0)) 0))
    by (vm_compute; reflexivity).
  assert (Hh : 3 <> -1) by discriminate.
  exact (reopen_after_idle request w (mk_stat 300 false) RamFS.disk 3 _
           eq_refl Hsz eq_refl Hinv Hfd eq_refl Hidle eq_refl Hstat Hopen Hh).
Defined.

(** X24: After the ACK of a TerminateSession last_send_ms is 0, so the idle
    time that the next request sees is the reading of the clock itself.
    When a session that does not own the open file sends
    TerminateSession, the file stays open, but the next request of a
    session that is not the owner, arriving when the clock reads 3000 ms
    or more, closes it before it is dispatched, however recently the
    owner was served. *)
Theorem foreign_terminate_ends_protection {FS : Type} {F : Filesystem FS}
  (terminate request : pending_ftp) (w : World FS) :
  is_rerequest terminate (reply w) = false ->
  size terminate <= 239 ->
  opcode terminate = TerminateSession ->
  fd (ftp w) <> -1 ->
  session terminate <> current_session (ftp w) ->
  let w1 := ftp_worker_step terminate w in
  last_send_ms (ftp w1) = 0 /\ fd (ftp w1) = fd (ftp w) /\
  current_session (ftp w1) = current_session (ftp w) /\
  (is_rerequest request (reply w1) = false ->
   size request <= 239 ->
   session request <> current_session (ftp w) ->
   is_terminate_or_reset (opcode request) = false ->
   FTP_SESSION_TIMEOUT <= now_ms w1 ->
   let w2 := close_session (prepared request w1) in
   fd (ftp w2) = -1 /\ current_session (ftp w2) = -1 /\
   fs w2 = fs_close (fd (ftp w)) (fs w) /\
   trace w2 = EvClose (fd (ftp w)) :: trace w1 /\
   ftp_worker_step request w1
   = (let '(o, w3) := dispatch request (now_ms w1) w2 in finish o w3)).
Proof.
  intros Hre Hsz Hop Hfd Hs w1.
  destruct (prepared_fields terminate w) as (Pf & Pr & Ps & Pc & Pt & Ptr).
  assert (Hw1 : w1 = ftp_push_replies (with_opcode Ack (setup_reply terminate))
                       (upd_reply (with_opcode Ack) (prepared terminate w))).
  { unfold w1. rewrite (ftp_worker_step_checked terminate w Hre Hsz). cbv zeta.
    rewrite Hop. cbn [is_terminate_or_reset].
    apply Z.eqb_neq in Hs. rewrite Hs. reflexivity. }
  pose proof (ftp_push_replies_frame (with_opcode Ack (setup_reply terminate))
                (upd_reply (with_opcode Ack) (prepared terminate w))) as P.
  cbv zeta in P. rewrite <- Hw1 in P.
  destruct P as (_ & P2 & _ & _ & P5 & _ & P7 & P8 & _).
  fields. rewrite Pf in P5, P7. rewrite Ps in P2.
  assert (H0 : last_send_ms (ftp w1) = 0).
  { rewrite P8. unfold setup_reply. fields. rewrite Hop. reflexivity. }
  clearbody w1.
  split; [exact H0|]. split; [exact P5|]. split; [exact P7|].
  intros Hre2 Hsz2 Hs2 Ht2 Hnow.
  set (w2 := close_session (prepared request w1)).
  destruct (prepared_fields request w1) as (Qf & Qr & Qs & Qc & Qt & Qtr).
  destruct (close_session_fields (prepared request w1))
    as (C1 & C2 & _ & _ & _ & C6 & C7).
  rewrite Qf, Qs, P5, P2 in C6. rewrite Qf, Qtr, P5 in C7.
  split; [exact C1|]. split; [exact C2|]. split; [exact C6|].
  split; [exact C7|].
  rewrite (ftp_worker_step_checked request w1 Hre2 Hsz2). cbv zeta.
  rewrite Ht2, andb_false_r.
  assert (Hidle : idle_ms w1 = now_ms w1).
  { unfold idle_ms. rewrite H0, Z.sub_0_r.
    unfold now_ms, millis. cbn [fst]. apply Z.mod_mod. discriminate. }
  assert (Hlt : (idle_ms w1 <? FTP_SESSION_TIMEOUT) = false)
    by (apply Z.ltb_ge; rewrite Hidle; exact Hnow).
  rewrite Hlt, andb_false_r.
  assert (Hrec : reclaim_idle request (now_ms w1) (prepared request w1) = w2).
  { unfold reclaim_idle. rewrite Qf, P5, P7.
    apply Z.eqb_neq in Hfd, Hs2. rewrite Hfd, Hs2. cbn [negb andb].
    assert (Hge : ((now_ms w1 - last_send_ms (ftp w1)) mod UINT32_MOD
                   >=? FTP_SESSION_TIMEOUT) = true).
    { apply Z.geb_le. fold (idle_ms w1). rewrite Hidle. exact Hnow. }
    rewrite Hge. reflexivity. }
  rewrite Hrec. reflexivity.
Qed.

Lemma foreign_terminate_ends_protection_witness :
  let terminate := RamFS.request 20 2 TerminateSession 0 0 [] in
  let request := RamFS.request 30 3 ReadFile 10 0 [] in
  let w := RamFS.opened in
  let w1 := ftp_worker_step terminate w in
  last_send_ms (ftp w1) = 0 /\ fd (ftp w1) = fd (ftp w) /\
  current_session (ftp w1) = current_session (ftp w) /\
  (let w2 := close_session (prepared request w1) in
   fd (ftp w2) = -1 /\ current_session (ftp w2) = -1 /\
   fs w2 = fs_close (fd (ftp w)) (fs w) /\
   trace w2 = EvClose (fd (ftp w)) :: trace w1 /\
   ftp_worker_step request w1
   = (let '(o, w3) := dispatch request (now_ms w1) w2 in finish o w3)).
Proof.
  set (terminate := RamFS.request 20 2 TerminateSession 0 0 []).
  set (request := RamFS.request 30 3 ReadFile 10 0 []).
  assert (Hsz : size terminate <= 239) by (vm_compute; discriminate).
  assert (Hfd : fd (ftp RamFS.opened) <> -1) by (vm_compute; discriminate).
  assert (Hs : session terminate <> current_session (ftp RamFS.opened))
    by (vm_compute; discriminate).
  destruct (foreign_terminate_ends_protection terminate request RamFS.opened
              eq_refl Hsz eq_refl Hfd Hs) as (H1 & H2 & H3 & H4).
  split; [exact H1|]. split; [exact H2|]. split; [exact H3|].
  apply H4.
  - vm_compute. reflexivity.
  - vm_compute. discriminate.
  - vm_compute. discriminate.
  - reflexivity.
  - vm_compute. discriminate.
Defined.

(** ** From the worker to the wire *)

(** The messages of a step that does not answer from the cache, and the
    reply it leaves, echo the opcode of the request. *)
Lemma echo_step {FS : Type} {F : Filesystem FS}
  (request : pending_ftp) (w : World FS) :
  0 <= size request ->
  is_rerequest request (reply w) = false ->
  exists l,
    sent (trace (ftp_worker_step request w)) = sent (trace w) ++ l /\
    (forall r, In r l -> req_opcode r = opcode request) /\
    req_opcode (reply (ftp_worker_step request w)) = opcode request.
Proof.
  intros Hsz Hre.
  assert (Hpush : forall w1 : World FS,
            trace w1 = trace w -> req_opcode (reply w1) = opcode request ->
            exists l,
              sent (trace (ftp_push_replies (reply w1) w1))
              = sent (trace w) ++ l /\
              (forall r, In r l -> req_opcode r = opcode request) /\
              req_opcode (reply (ftp_push_replies (reply w1) w1))
              = opcode request).
  { intros w1 Ht H1.
    pose proof (ftp_push_replies_frame (reply w1) w1) as P. cbv zeta in P.
    destruct P as (P1 & _ & _ & _ & _ & _ & _ & _ & P9 & _).
    exists [reply w1]. rewrite P9, P1, Ht.
    split; [reflexivity|]. split; [|exact H1].
    intros r [<-|[]]. exact H1. }
  destruct (prepared_fields request w) as (Pf & Pr & Ps & Pc & Pt & Ptr).
  destruct (Z_le_gt_dec (size request) 239) as [Hle|Hgt].
  - rewrite (ftp_worker_step_checked request w Hre Hle). cbv zeta.
    destruct (negb (session request =? current_session (ftp w))
              && is_terminate_or_reset (opcode request)).
    { apply (Hpush (upd_reply (with_opcode Ack) (prepared request w)));
        fields; [exact Ptr | rewrite Pr; reflexivity]. }
    destruct (negb (fd (ftp w) =? -1)
              && negb (session request =? current_session (ftp w))
              && (idle_ms w <? FTP_SESSION_TIMEOUT)).
    { replace (ftp_error (setup_reply request) InvalidSession (errno (fs w)))
        with (reply (reply_error InvalidSession (prepared request w)))
        by (unfold reply_error; fields; rewrite Pr, Ps; reflexivity).
      apply Hpush; unfold reply_error; fields; [exact Ptr|].
      rewrite Pr.
      destruct (ftp_error_fields (setup_reply request) InvalidSession
                  (errno (fs (prepared request w)))) as (_ & _ & H3 & _).
      rewrite H3. reflexivity. }
    pose proof (mute_reclaim_idle request (now_ms w) (prepared request w)) as M.
    assert (Hr : reply (reclaim_idle request (now_ms w) (prepared request w))
                 = setup_reply request).
    { unfold reclaim_idle, close_session, FS_close.
      destruct (_ && _); fields; exact Pr. }
    remember (reclaim_idle request (now_ms w) (prepared request w)) as w1 eqn:E.
    clear E.
    destruct (dispatch_sends request (now_ms w) w1 (conj Hsz Hle) Hr)
      as (l & L1 & L2 & _ & L4 & _).
    assert (Ht1 : sent (trace w1) = sent (trace w))
      by (rewrite (proj1 M), Ptr; reflexivity).
    rewrite Ht1 in L1.
    assert (L2' : forall r, In r l -> req_opcode r = opcode request).
    { intros r Hin. apply In_nth_error in Hin. destruct Hin as [j Hj].
      apply (L2 j r Hj). }
    destruct (dispatch request (now_ms w) w1) as [o w2]. cbn [snd] in *.
    destruct o; cbn [finish]; try solve [exists l; auto].
    pose proof (ftp_push_replies_frame (reply w2) w2) as P. cbv zeta in P.
    destruct P as (P1 & _ & _ & _ & _ & _ & _ & _ & P9 & _).
    exists (l ++ [reply w2]). rewrite P9, P1, L1, app_assoc.
    split; [reflexivity|]. split; [|exact L4].
    intros r Hin. apply in_app_or in Hin.
    destruct Hin as [Hin|[<-|[]]]; auto.
  - unfold ftp_worker_step. rewrite Hre.
    assert (Hb : (size request >? Z.of_nat DATA_LEN) = true)
      by (unfold DATA_LEN; apply Z.gtb_lt; lia).
    rewrite Hb.
    apply Hpush; [reflexivity|].
    unfold reply_error. fields.
    destruct (ftp_error_fields (setup_reply request) InvalidDataSize
                (errno (fs w))) as (_ & _ & H3 & _).
    rewrite H3. reflexivity.
Qed.

Lemma echo_worker {FS : Type} {F : Filesystem FS} (P : FTP_OP -> Prop)
  (requests : list pending_ftp) :
  forall w : World FS,
  Forall (fun q => 0 <= size q /\ P (opcode q)) requests ->
  P (req_opcode (reply w)) ->
  exists l,
    sent (trace (ftp_worker requests w)) = sent (trace w) ++ l /\
    Forall (fun r => P (req_opcode r)) l.
Proof.
  induction requests as [|request rest IH]; intros w Hreqs Hw.
  - exists []. cbn [ftp_worker]. rewrite app_nil_r. auto.
  - apply Forall_cons_iff in Hreqs. destruct Hreqs as [[Hsz Hp] Hrest].
    cbn [ftp_worker].
    assert (Hstep : exists l1,
              sent (trace (ftp_worker_step request w)) = sent (trace w) ++ l1 /\
              Forall (fun r => P (req_opcode r)) l1 /\
              P (req_opcode (reply (ftp_worker_step request w)))).
    { destruct (is_rerequest request (reply w)) eqn:Hre.
      - unfold ftp_worker_step. rewrite Hre.
        pose proof (ftp_push_replies_frame (reply w) w) as Q. cbv zeta in Q.
        destruct Q as (Q1 & _ & _ & _ & _ & _ & _ & _ & Q9 & _).
        exists [reply w]. rewrite Q9, Q1. auto.
      - destruct (echo_step request w Hsz Hre) as (l1 & A1 & A2 & A3).
        exists l1. rewrite A3. split; [exact A1|]. split; [|exact Hp].
        apply Forall_forall. intros r Hr. rewrite (A2 r Hr). exact Hp. }
    destruct Hstep as (l1 & A1 & A2 & A3).
    destruct (IH (ftp_worker_step request w) Hrest A3) as (l2 & B1 & B2).
    exists (l1 ++ l2). rewrite B1, A1, app_assoc.
    split; [reflexivity | apply Forall_app; auto].
Qed.

(** X25: From start-up on, every message the worker sends in answer to
    requests decoded from the wire is read back field by field from the
    payload that send_ftp_reply lays out for it. *)
Theorem every_reply_round_trips {FS : Type} {F : Filesystem FS}
  {E : Enumerators} (requests : list pending_ftp) (s : FS) (clk : nat -> Z) :
  Forall (fun q => wf_request q /\ decoded_op (opcode q)) requests ->
  Forall (fun r =>
            request_of_packet (chan r) (sysid r) (compid r) (reply_payload r)
            = r)
    (sent (trace (ftp_worker requests (initial_world s clk)))).
Proof.
  intros Hreqs.
  assert (H1 : Forall wf_request requests).
  { apply Forall_forall. intros q Hq.
    apply (proj1 (Forall_forall _ _) Hreqs q Hq). }
  assert (H2 : Forall (fun q => 0 <= size q /\ decoded_op (opcode q)) requests).
  { apply Forall_forall. intros q Hq.
    destruct (proj1 (Forall_forall _ _) Hreqs q Hq) as [Hw Hd].
    split; [apply Hw | exact Hd]. }
  destruct (wf_worker requests (initial_world s clk) H1) as (l & L1 & L2).
  { unfold wf_reply, wf_frame, initial_world, is_byte, UINT16_MOD, UINT32_MOD.
    fields. rewrite repeat_length. cbn. intuition lia. }
  destruct (echo_worker decoded_op requests (initial_world s clk) H2)
    as (l' & L1' & L2'); [exact I|].
  assert (Hl : l' = l) by (rewrite L1 in L1'; apply app_inv_head in L1'; auto).
  subst l'. rewrite L1. cbn [initial_world trace sent app].
  apply Forall_forall. intros r Hr.
  pose proof (proj1 (Forall_forall _ _) L2 r Hr) as Hw.
  pose proof (proj1 (Forall_forall _ _) L2' r Hr) as Hd.
  destruct Hw as [(W1 & W2 & W3 & W4 & W5 & W6 & W7) Wo].
  apply reply_payload_read_back; [| |exact Hd].
  - unfold wf_request, is_byte in *. repeat split; try tauto; lia.
  - destruct (opcode r); try contradiction; exact I.
Qed.

Lemma every_reply_round_trips_witness :
  Forall (fun r =>
            request_of_packet (chan r) (sysid r) (compid r) (reply_payload r)
            = r)
    (sent (trace (ftp_worker
                    [RamFS.open_a; RamFS.request 11 1 BurstReadFile 0 0 []]
                    (initial_world RamFS.disk RamFS.clock_1s)))).
Proof.
  apply (every_reply_round_trips
           [RamFS.open_a; RamFS.request 11 1 BurstReadFile 0 0 []]
           RamFS.disk RamFS.clock_1s).
  repeat constructor; vm_compute; intuition discriminate.
Defined.

(** ** The directory of a listing *)

Lemma nth_cstr (buf : list Z) :
  forall i : nat, (i < length (cstr buf))%nat -> nth i buf 0 = nth i (cstr buf) 0.
Proof.
  induction buf as [|c buf IH]; intros i Hi; cbn [cstr] in *.
  - cbn in Hi. lia.
  - destruct (c =? 0); [cbn in Hi; lia|].
    destruct i as [|i]; [reflexivity|].
    cbn [nth length] in *. apply IH. lia.
Qed.

Lemma cstr_store_nul (buf : list Z) :
  forall i : nat, (i < length (cstr buf))%nat ->
  cstr (store i 0 buf) = firstn i (cstr buf).
Proof.
  induction buf as [|c buf IH]; intros i Hi; cbn [cstr] in *.
  - cbn in Hi. lia.
  - destruct (c =? 0) eqn:E; [cbn in Hi; lia|].
    destruct i as [|i]; cbn [store cstr firstn].
    + reflexivity.
    + rewrite E. cbn [length] in Hi. rewrite IH by lia. reflexivity.
Qed.

Lemma last_nth (l : list Z) : last l 0 = nth (length l - 1) l 0.
Proof.
  induction l as [|a l IH]; [reflexivity|].
  destruct l as [|b l]; [reflexivity|].
  change (last (a :: b :: l) 0) with (last (b :: l) 0). rewrite IH.
  cbn [length]. replace (S (S (length l)) - 1)%nat with (S (length l)) by lia.
  cbn [nth]. replace (S (length l) - 1)%nat with (length l) by lia.
  reflexivity.
Qed.

Lemma removelast_as_firstn (l : list Z) :
  removelast l = firstn (length l - 1) l.
Proof.
  induction l as [|a l IH]; [reflexivity|].
  destruct l as [|b l]; [reflexivity|].
  change (removelast (a :: b :: l)) with (a :: removelast (b :: l)).
  rewrite IH. cbn [length].
  replace (S (S (length l)) - 1)%nat with (S (length l)) by lia.
  cbn [firstn]. replace (S (length l) - 1)%nat with (length l) by lia.
  reflexivity.
Qed.

(** X26: The directory that ListDirectory opens is the path of the
    request without its last character when the path is longer than one
    character and ends in a slash, and the path itself otherwise: one
    trailing slash is stripped, and the root directory "/" is kept. *)
Theorem list_dir_path_strips_one_slash (request : pending_ftp) :
  let path := request_path request in
  list_dir_path request
  = if (1 <? length path)%nat && (last path 0 =? 47)
    then removelast path else path.
Proof.
  intros path. unfold list_dir_path. fold (request_path request). fold path.
  unfold request_path in path.
  set (buf := store (DATA_LEN - 1) 0 (data request)) in *.
  destruct (1 <? length path)%nat eqn:E1; cbn [andb]; [|reflexivity].
  apply Nat.ltb_lt in E1.
  rewrite (nth_cstr buf (length path - 1)) by (fold path; lia).
  fold path. rewrite <- last_nth.
  destruct (last path 0 =? 47); [|reflexivity].
  rewrite cstr_store_nul by (fold path; lia).
  fold path. symmetry. apply removelast_as_firstn.
Qed.

(** ** The offset of a listing *)

Lemma offset_ftp_list_dir {FS : Type} {F : Filesystem FS}
  (request : pending_ftp) (w : World FS) :
  offset (reply (ftp_list_dir request w)) = offset request.
Proof.
  assert (Herr : forall (e : FTP_ERROR) (w1 : World FS),
            offset (reply w1) = offset request ->
            offset (reply (reply_error e w1)) = offset request).
  { intros e w1 H1. unfold reply_error. fields.
    destruct (ftp_error_fields (reply w1) e (errno (fs w1)))
      as (_ & _ & _ & H4 & _).
    rewrite H4. exact H1. }
  unfold ftp_list_dir, FS_closedir.
  set (w0 := upd_reply (with_offset (offset request)) w).
  assert (H0 : offset (reply w0) = offset request) by reflexivity.
  clearbody w0.
  destruct (negb (ftp_check_name_len request)); [apply Herr, H0|].
  destruct (fs_opendir (list_dir_path request) (fs w0)) as [dir s].
  destruct dir as [entries|]; [|apply Herr; exact H0].
  destruct (skip_entries_reply entries (list_dir_path request)
              (offset request) (set_fs s w0)) as [d1 Hd1].
  destruct (skip_entries entries (offset request) (list_dir_path request)
              (set_fs s w0)) as [[rest|] w1]; cbn [snd] in Hd1.
  - assert (H1 : offset (reply w1) = offset request)
      by (rewrite Hd1; fields; exact H0).
    destruct (pack_entries_reply rest (list_dir_path request) 0 w1) as [d2 Hd2].
    destruct (pack_entries rest 0 (list_dir_path request) w1) as [index w2].
    cbn [snd] in Hd2.
    assert (H2 : offset (reply w2) = offset request)
      by (rewrite Hd2; fields; exact H1).
    destruct (index =? 0); [fields; apply Herr, H2|].
    destruct (index <? Z.of_nat DATA_LEN); fields; exact H2.
  - assert (H1 : offset (reply w1) = offset request)
      by (rewrite Hd1; fields; exact H0).
    fields. apply Herr, H1.
Qed.

Lemma opcode_ftp_list_dir {FS : Type} {F : Filesystem FS}
  (request : pending_ftp) (w : World FS) :
  opcode (reply (ftp_list_dir request w)) = Ack
  \/ opcode (reply (ftp_list_dir request w)) = Nack.
Proof.
  assert (Herr : forall (e : FTP_ERROR) (w1 : World FS),
            opcode (reply (reply_error e w1)) = Ack
            \/ opcode (reply (reply_error e w1)) = Nack).
  { intros e w1. right. unfold reply_error. fields.
    apply (ftp_error_fields (reply w1) e (errno (fs w1))). }
  unfold ftp_list_dir, FS_closedir.
  destruct (negb (ftp_check_name_len request)); [apply Herr|].
  destruct (fs_opendir _ _) as [dir s].
  destruct dir as [entries|]; [|apply Herr].
  destruct (skip_entries _ _ _ _) as [[rest|] w1]; [|fields; apply Herr].
  destruct (pack_entries _ _ _ _) as [index w2].
  destruct (index =? 0); [fields; apply Herr|].
  left. destruct (index <? Z.of_nat DATA_LEN); reflexivity.
Qed.

(** X27: Every reply to a ListDirectory that reaches the dispatcher, an
    ACK as well as a Nack of any kind, carries the offset of the
    request, and is the only message sent for it. *)
Theorem list_directory_echoes_offset {FS : Type} {F : Filesystem FS}
  (request : pending_ftp) (w : World FS) :
  is_rerequest request (reply w) = false ->
  size request <= 239 ->
  opcode request = ListDirectory ->
  fd (ftp w) = -1 \/ session request = current_session (ftp w) ->
  let w' := ftp_worker_step request w in
  exists r,
    sent (trace w') = sent (trace w) ++ [r] /\ reply w' = r /\
    offset r = offset request /\
    (opcode r = Ack \/ opcode r = Nack).
Proof.
  intros Hre Hsz Hop Hf w'. subst w'.
  destruct (prepared_fields request w) as (Pf & Pr & Ps & Pc & Pt & Ptr).
  rewrite (ftp_worker_step_dispatch request w Hre Hsz)
    by (auto; left; rewrite Hop; reflexivity).
  unfold dispatch. rewrite Hop. cbn [finish].
  set (w1 := ftp_list_dir request (prepared request w)).
  pose proof (ftp_push_replies_frame (reply w1) w1) as P. cbv zeta in P.
  destruct P as (P1 & _ & _ & _ & _ & _ & _ & _ & P9 & _).
  pose proof (quiet_ftp_list_dir request (prepared request w)) as Q.
  fold w1 in Q. destruct Q as (_ & Qt & _).
  exists (reply w1). rewrite P9, P1, Qt, Ptr.
  split; [reflexivity|]. split; [reflexivity|].
  split; [apply offset_ftp_list_dir|].
  apply opcode_ftp_list_dir.
Qed.

Lemma list_directory_echoes_offset_witness :
  let request := RamFS.list_d 7 in
  let w := initial_world RamFS.disk_d RamFS.clock_1s in
  let w' := ftp_worker_step request w in
  exists r,
    sent (trace w') = sent (trace w) ++ [r] /\ reply w' = r /\
    offset r = offset request /\
    (opcode r = Ack \/ opcode r = Nack).
Proof.
  assert (Hsz : size (RamFS.list_d 7) <= 239) by (vm_compute; discriminate).
  exact (list_directory_echoes_offset (RamFS.list_d 7)
           (initial_world RamFS.disk_d RamFS.clock_1s)
           eq_refl Hsz eq_refl (or_introl eq_refl)).
Defined.

(** ** The send loop *)

Lemma send_ftp_reply_accepts {E : Enumerators} (a : link_answer)
  (r : pending_ftp) :
  send_ftp_reply (txbuf_above_33 a) (payload_space a) r
  = if accepts a
    then Some (mk_ftp_message (chan r) 0 (sysid r) (compid r)
                 (reply_payload r))
    else None.
Proof.
  unfold send_ftp_reply, accepts.
  destruct (txbuf_above_33 a), (payload_space a); reflexivity.
Qed.

Lemma send_loop_refused {E : Enumerators} (link : list link_answer)
  (r : pending_ftp) :
  send_loop link r = None
  <-> forallb (fun a => negb (accepts a)) link = true.
Proof.
  induction link as [|a later IH]; cbn [send_loop forallb].
  - tauto.
  - rewrite send_ftp_reply_accepts.
    destruct (accepts a); cbn [negb andb].
    + split; discriminate.
    + rewrite <- IH. destruct (send_loop later r) as [[n m]|].
      * split; discriminate.
      * tauto.
Qed.

Lemma send_loop_accepted {E : Enumerators}
  (refused : list link_answer) (a : link_answer) (later : list link_answer)
  (r : pending_ftp) :
  forallb (fun b => negb (accepts b)) refused = true ->
  accepts a = true ->
  send_loop (refused ++ a :: later) r
  = Some (length refused,
          mk_ftp_message (chan r) 0 (sysid r) (compid r) (reply_payload r)).
Proof.
  intros Href Ha.
  induction refused as [|b refused IH]; cbn [app send_loop length].
  - rewrite send_ftp_reply_accepts, Ha. reflexivity.
  - cbn [forallb] in Href. apply andb_true_iff in Href.
    destruct Href as [Hb Href]. apply negb_true_iff in Hb.
    rewrite send_ftp_reply_accepts, Hb, (IH Href). reflexivity.
Qed.

(** X28: ftp_push_replies and the link.  The call does not return while
    the link refuses the message: over answers of the link that are all
    refusals it is still in its loop.  When a try is accepted after any
    number of refusals, the call returns: the message, addressed to the
    system and component of the reply on the channel of the reply, with
    the payload laid out from the reply, has left once, at that try,
    after one delay per refusal; and the state on return is the one of
    [ftp_push_replies], the same whatever the number of refusals. *)
Theorem push_replies_returns_once_sent {FS : Type} {F : Filesystem FS}
  {E : Enumerators} (link : list link_answer) (r : pending_ftp)
  (w : World FS) :
  (ftp_push_replies_on link r w = None
   <-> forallb (fun a => negb (accepts a)) link = true) /\
  (forall (refused : list link_answer) (a : link_answer)
          (later : list link_answer),
     link = refused ++ a :: later ->
     forallb (fun b => negb (accepts b)) refused = true ->
     accepts a = true ->
     ftp_push_replies_on link r w
     = Some (length refused,
             mk_ftp_message (chan r) 0 (sysid r) (compid r) (reply_payload r),
             ftp_push_replies r w)).
Proof.
  split.
  - rewrite <- (send_loop_refused link r).
    unfold ftp_push_replies_on, millis.
    destruct (send_loop link r) as [[n m]|]; [|tauto].
    split; [|discriminate].
    match goal with |- context [if ?b then _ else _] => destruct b end;
      match goal with |- context [if ?b then _ else _] => destruct b end;
      discriminate.
  - intros refused a later -> Href Ha.
    unfold ftp_push_replies_on, ftp_push_replies, millis.
    rewrite (send_loop_accepted refused a later r Href Ha).
    match goal with |- context [if negb ?b then _ else _] => destruct b end;
      reflexivity.
Qed.

Lemma push_replies_returns_once_sent_witness :
  let link := [mk_link_answer false true; mk_link_answer true false;
               mk_link_answer true true; mk_link_answer false false] in
  let r := reply RamFS.opened in
  ftp_push_replies_on link r RamFS.opened
  = Some (2%nat,
          mk_ftp_message (chan r) 0 (sysid r) (compid r) (reply_payload r),
          ftp_push_replies r RamFS.opened).
Proof.
  apply (proj2 (push_replies_returns_once_sent
                  [mk_link_answer false true; mk_link_answer true false;
                   mk_link_answer true true; mk_link_answer false false]
                  (reply RamFS.opened) RamFS.opened)
           [mk_link_answer false true; mk_link_answer true false]
           (mk_link_answer true true) [mk_link_answer false false]);
    reflexivity.
Defined.

(** ** The mode of the open file *)

Lemma mode_op_open_ro {FS : Type} {F : Filesystem FS}
  (request : pending_ftp) (now : Z) (w : World FS) :
  let w2 := op_open_ro request now w in
  mode (ftp w2) = mode (ftp w) \/
  (fd (ftp w2) <> -1 /\ current_session (ftp w2) = session request /\
   mode (ftp w2) = Read).
Proof.
  intros w2. subst w2. unfold op_open_ro.
  match goal with |- context [if ?b then close_session w else w] =>
    assert (H0 : mode (ftp (if b then close_session w else w)) = mode (ftp w))
      by (destruct b; [apply close_session_fields | reflexivity]);
    generalize dependent (if b then close_session w else w)
  end.
  intros w0 H0. rewrite <- H0.
  destruct (negb (fd (ftp w0) =? -1)); [left; reflexivity|].
  destruct (negb (ftp_check_name_len request)); [left; reflexivity|].
  destruct (fs_stat (request_path request) (fs w0)) as [[rc st] s1].
  destruct (negb (rc =? 0)); [left; reflexivity|].
  unfold FS_open. fields.
  destruct (fs_open (request_path request) O_RDONLY s1) as [h s2].
  destruct (Z.eqb_spec h (-1)) as [Hh|Hh]; [left; reflexivity|].
  right. destruct (bytes_eqb _ PARAM_PCK); fields; auto.
Qed.

Lemma mode_op_open_wo {FS : Type} {F : Filesystem FS}
  (request : pending_ftp) (w : World FS) :
  let w2 := op_open_wo request w in
  mode (ftp w2) = mode (ftp w) \/
  (fd (ftp w2) <> -1 /\ current_session (ftp w2) = session request /\
   mode (ftp w2) = Write).
Proof.
  intros w2. subst w2. unfold op_open_wo.
  destruct (negb (fd (ftp w) =? -1)); [left; reflexivity|].
  destruct (negb (ftp_check_name_len request)); [left; reflexivity|].
  unfold FS_open.
  destruct (fs_open (request_path request) _ (fs w)) as [h s2].
  destruct (Z.eqb_spec h (-1)) as [Hh|Hh]; [left; reflexivity|].
  right. fields. auto.
Qed.

Lemma mode_op_burst_read {FS : Type} {F : Filesystem FS}
  (request : pending_ftp) (w : World FS) :
  0 <= size request <= 239 ->
  reply w = setup_reply request ->
  mode (ftp (snd (op_burst_read request w))) = mode (ftp w).
Proof.
  intros Hsz Hr. unfold op_burst_read.
  destruct (fd (ftp w) =? -1); [reflexivity|].
  destruct (mode (ftp w)) eqn:Hm; [|exact Hm].
  destruct (fs_lseek (fd (ftp w)) (offset request) (fs w)) as [pos s].
  destruct (pos =? -1); [exact Hm|].
  pose proof (burst_loop_spec request (burst_max_read request) transfer_size
                (burst_max_read_range request Hsz) 0 (set_fs s w)) as B.
  fields. rewrite Hr in B. specialize (B (burst_ready_setup request)).
  destruct (read_chunks transfer_size (fd (ftp w)) (burst_max_read request) s)
    as [[chunks e] s'].
  cbv zeta in B. destruct B as (_ & _ & _ & B4 & _).
  rewrite Hm in B4. destruct (negb _); exact B4.
Qed.

(** X29: The mode is fixed when a file is opened: a turn of the worker
    changes the mode only when it opens a file, which is then open at
    the end of the turn and owned by the session of the request, in mode
    Read for OpenFileRO and Write for OpenFileWO and CreateFile. *)
Theorem mode_fixed_at_open {FS : Type} {F : Filesystem FS}
  (request : pending_ftp) (w : World FS) :
  0 <= size request ->
  let w' := ftp_worker_step request w in
  mode (ftp w') = mode (ftp w) \/
  (fd (ftp w') <> -1 /\ current_session (ftp w') = session request /\
   ((opcode request = OpenFileRO /\ mode (ftp w') = Read) \/
    ((opcode request = OpenFileWO \/ opcode request = CreateFile) /\
     mode (ftp w') = Write))).
Proof.
  intros Hsz w'. subst w'.
  assert (Hpush : forall (r : pending_ftp) (w1 : World FS),
            mode (ftp w1) = mode (ftp w) ->
            mode (ftp (ftp_push_replies r w1)) = mode (ftp w)).
  { intros r w1 H1.
    pose proof (ftp_push_replies_frame r w1) as P. cbv zeta in P.
    destruct P as (_ & _ & _ & _ & _ & P6 & _). congruence. }
  destruct (is_rerequest request (reply w)) eqn:Hre.
  { unfold ftp_worker_step. rewrite Hre. left. apply Hpush. reflexivity. }
  destruct (prepared_fields request w) as (Pf & Pr & Ps & Pc & Pt & Ptr).
  destruct (Z_le_gt_dec (size request) 239) as [Hle|Hgt].
  - rewrite (ftp_worker_step_checked request w Hre Hle). cbv zeta.
    destruct (negb (session request =? current_session (ftp w))
              && is_terminate_or_reset (opcode request));
      [left; apply Hpush; fields; rewrite Pf; reflexivity|].
    destruct (negb (fd (ftp w) =? -1)
              && negb (session request =? current_session (ftp w))
              && (idle_ms w <? FTP_SESSION_TIMEOUT));
      [left; apply Hpush; unfold reply_error; fields; rewrite Pf; reflexivity|].
    assert (Hm1 : mode (ftp (reclaim_idle request (now_ms w)
                               (prepared request w))) = mode (ftp w)).
    { unfold reclaim_idle. destruct (_ && _); [|rewrite Pf; reflexivity].
      destruct (close_session_fields (prepared request w)) as (_ & _ & C3 & _).
      rewrite C3, Pf. reflexivity. }
    assert (Hr : reply (reclaim_idle request (now_ms w) (prepared request w))
                 = setup_reply request).
    { unfold reclaim_idle, close_session, FS_close.
      destruct (_ && _); fields; exact Pr. }
    remember (reclaim_idle request (now_ms w) (prepared request w)) as w1 eqn:E.
    clear E. rewrite <- Hm1.
    assert (Hfin : forall (o : outcome) (w2 : World FS),
              fd (ftp (finish o w2)) = fd (ftp w2) /\
              current_session (ftp (finish o w2)) = current_session (ftp w2) /\
              mode (ftp (finish o w2)) = mode (ftp w2)).
    { intros o w2. destruct o; cbn [finish]; auto.
      pose proof (ftp_push_replies_frame (reply w2) w2) as P. cbv zeta in P.
      destruct P as (_ & _ & _ & _ & P5 & P6 & P7 & _). auto. }
    assert (Hquiet : forall w2, quiet w1 w2 -> mode (ftp w2) = mode (ftp w1)).
    { intros w2 (Q & _). rewrite Q. reflexivity. }
    unfold dispatch.
    destruct (opcode request) eqn:Hop;
      match goal with |- context [finish ?o ?x] =>
        destruct (Hfin o x) as (F1 & F2 & F3); rewrite F1, F2, F3
      | _ => idtac
      end;
      try (left; first
             [ reflexivity
             | apply Hquiet;
               first [ apply quiet_ftp_list_dir | apply quiet_op_read
                     | apply quiet_op_write | apply quiet_op_mkdir
                     | apply quiet_op_unlink | apply quiet_op_crc32
                     | apply quiet_op_rename | apply quiet_reply_error
                     | quiet_steps ] ]; fail).
    + left. unfold op_terminate, FS_close. destruct (negb _); reflexivity.
    + left. unfold op_terminate, FS_close. destruct (negb _); reflexivity.
    + destruct (mode_op_open_ro request (now_ms w) w1) as [H|(H1 & H2 & H3)];
        [left; exact H | right; auto].
    + destruct (mode_op_open_wo request w1) as [H|(H1 & H2 & H3)];
        [left; exact H | right; auto 6].
    + destruct (mode_op_open_wo request w1) as [H|(H1 & H2 & H3)];
        [left; exact H | right; auto 6].
    + left.
      pose proof (mode_op_burst_read request w1 (conj Hsz Hle) Hr) as B.
      destruct (op_burst_read request w1) as [o w2]. cbn [snd] in B.
      destruct (Hfin o w2) as (_ & _ & F3). rewrite F3. exact B.
  - unfold ftp_worker_step. rewrite Hre.
    assert (Hb : (size request >? Z.of_nat DATA_LEN) = true)
      by (unfold DATA_LEN; apply Z.gtb_lt; lia).
    rewrite Hb. left. apply Hpush. reflexivity.
Qed.

Lemma mode_fixed_at_open_witness :
  let request := RamFS.request 20 1 CreateFile 2 0 RamFS.path_a in
  let w' := ftp_worker_step request RamFS.boot in
  mode (ftp w') = mode (ftp RamFS.boot) \/
  (fd (ftp w') <> -1 /\ current_session (ftp w') = session request /\
   ((opcode request = OpenFileRO /\ mode (ftp w') = Read) \/
    ((opcode request = OpenFileWO \/ opcode request = CreateFile) /\
     mode (ftp w') = Write))).
Proof.
  apply (mode_fixed_at_open
           (RamFS.request 20 1 CreateFile 2 0 RamFS.path_a) RamFS.boot).
  vm_compute. discriminate.
Defined.
